(** * Rook Ceph OSD manifests and device-set claims

    A shallow embedding of the OSD package of the Rook operator:
    the builders of the provisioning pod template and of the daemon
    deployment, and the allocator of the persistent volume claims of a
    storage class device set (storageClassDeviceSet.go).

    Go [int] is [Z] (no arithmetic is done on it here), Go strings are
    [string], slices are lists with [append] as [++], Go maps with string
    keys are [gmap string string], [(T, error)] results are sums with the
    error on the left.  Calls to the Kubernetes client are the nodes of a
    small command tree that is run against a model of the claim store.
    Log lines are not part of the values returned and are left out. *)

From Stdlib Require Import ZArith List String Ascii Bool Lia.
From stdpp Require Import base option list gmap strings pretty.

Open Scope string_scope.
Open Scope list_scope.
Open Scope Z_scope.

(** ** The Go standard library functions the package calls *)

Module Go.

(** [strings.Join]. *)
Fixpoint Join (elems : list string) (sep : string) : string :=
  match elems with
  | [] => ""
  | [e] => e
  | e :: rest => e +:+ sep +:+ Join rest sep
  end.

(** [strconv.Itoa], also the rendering of an [int] under [%v] and [%d]. *)
Definition Itoa (i : Z) : string := pretty i.

(** [strings.HasPrefix]. *)
Definition HasPrefix (s p : string) : bool := String.prefix p s.

(** The components of a path between slashes, [strings.Split s "/"]. *)
Fixpoint splitSlash (cur s : string) : list string :=
  match s with
  | EmptyString => [cur]
  | String c r =>
      if Ascii.eqb c "/" then cur :: splitSlash "" r
      else splitSlash (cur +:+ String c "") r
  end.

(** One step of the lexical processing of [path.Clean]: [stack] holds the
    components kept so far, innermost first. *)
Definition cleanStep (rooted : bool) (stack : list string) (comp : string)
  : list string :=
  if String.eqb comp "" || String.eqb comp "." then stack
  else if String.eqb comp ".." then
    match stack with
    | top :: below => if String.eqb top ".." then comp :: stack else below
    | [] => if rooted then [] else [comp]
    end
  else comp :: stack.

(** [path.Clean] (and [filepath.Clean] on Unix): multiple slashes become
    one, [.] elements go, an inner [..] removes the element before it, a
    [..] at the root goes, and the empty result is [.]. *)
Definition Clean (p : string) : string :=
  let rooted := HasPrefix p "/" in
  let kept := fold_left (cleanStep rooted) (splitSlash "" p) [] in
  let out := (if rooted then "/" else "") +:+ Join (rev kept) "/" in
  if String.eqb out "" then "." else out.

(** [path.Join]: empty elements are ignored, the rest is joined with
    slashes and cleaned; the result is empty when every element is. *)
Fixpoint PathJoin (elem : list string) : string :=
  match elem with
  | [] => ""
  | e :: rest => if String.eqb e "" then PathJoin rest else Clean (Join elem "/")
  end.

(** The prefix of a path up to and including its last slash. *)
Fixpoint throughLastSlash (p : string) : string :=
  match p with
  | EmptyString => ""
  | String c r =>
      let d := throughLastSlash r in
      if negb (String.eqb d "") then String c d
      else if Ascii.eqb c "/" then "/" else ""
  end.

(** [filepath.Dir] on Unix. *)
Definition Dir (p : string) : string := Clean (throughLastSlash p).

End Go.

(** ** The Kubernetes API objects the package builds

    Only the fields the package reads or writes are kept.  A Go pointer
    field that may be nil is an [option]. *)

Inductive EnvVarSource : Type :=
| SecretKeyRef (name key : string)
| FieldRef (fieldPath : string).

Module EnvVar.
Record t : Type := mk { Name : string; Value : string; ValueFrom : option EnvVarSource }.
End EnvVar.

(** The composite literal [v1.EnvVar{Name: n, Value: v}]. *)
Definition envVar (n v : string) : EnvVar.t := EnvVar.mk n v None.

Module PersistentVolumeClaimVolumeSource.
Record t : Type := mk { ClaimName : string; ReadOnly : bool }.
End PersistentVolumeClaimVolumeSource.

Inductive VolumeSource : Type :=
| HostPath (path : string)
| EmptyDir (medium : string)
| PersistentVolumeClaimSource (pvc : PersistentVolumeClaimVolumeSource.t)
| OtherSource (kind name : string).

Module Volume.
Record t : Type := mk { Name : string; Source : VolumeSource }.
End Volume.

Module VolumeMount.
Record t : Type := mk { Name : string; MountPath : string }.
End VolumeMount.

Module VolumeDevice.
Record t : Type := mk { Name : string; DevicePath : string }.
End VolumeDevice.

Module SecurityContext.
Record t : Type := mk {
  Privileged : option bool;
  RunAsUser : option Z;
  RunAsNonRoot : option bool;
  ReadOnlyRootFilesystem : option bool }.
End SecurityContext.

(** [v1.ResourceRequirements]; a quantity is its integer value. *)
Module ResourceRequirements.
Record t : Type := mk { Limits : gmap string Z; Requests : gmap string Z }.
(** [Limits.Memory()]: the quantity under the key [memory], zero when absent. *)
Definition LimitsMemory (r : t) : Z := default 0 (Limits r !! "memory").
End ResourceRequirements.

Module Container.
Record t : Type := mk {
  Name : string;
  Image : string;
  Command : list string;
  Args : list string;
  Env : list EnvVar.t;
  VolumeMounts : list VolumeMount.t;
  VolumeDevices : list VolumeDevice.t;
  Resources : ResourceRequirements.t;
  SecurityContext : option SecurityContext.t;
  Lifecycle : option (list string) }.
End Container.

Definition noResources : ResourceRequirements.t := ResourceRequirements.mk ∅ ∅.

Module OwnerReference.
Record t : Type := mk { Kind : string; Name : string; UID : string }.
End OwnerReference.

Module ObjectMeta.
Record t : Type := mk {
  Name : string;
  GenerateName : string;
  Namespace : string;
  Labels : gmap string string;
  Annotations : gmap string string;
  OwnerReferences : list OwnerReference.t }.
End ObjectMeta.

Module Affinity.
Record t : Type := mk {
  NodeAffinity : option string;
  PodAffinity : option string;
  PodAntiAffinity : option string }.
End Affinity.

Inductive RestartPolicy : Type :=
| RestartPolicyAlways | RestartPolicyOnFailure | RestartPolicyNever.

Inductive DNSPolicy : Type :=
| DNSDefaultUnset | DNSClusterFirst | DNSClusterFirstWithHostNet.

Module PodSpec.
Record t : Type := mk {
  Affinity : option Affinity.t;
  Tolerations : list string;
  NodeSelector : gmap string string;
  RestartPolicy : RestartPolicy;
  ServiceAccountName : string;
  HostNetwork : bool;
  HostPID : bool;
  HostIPC : bool;
  DNSPolicy : DNSPolicy;
  InitContainers : list Container.t;
  Containers : list Container.t;
  Volumes : list Volume.t }.
End PodSpec.

Module PodTemplateSpec.
Record t : Type := mk { ObjectMeta : ObjectMeta.t; Spec : PodSpec.t }.
End PodTemplateSpec.

Module DeploymentSpec.
Record t : Type := mk {
  Selector : gmap string string;
  StrategyType : string;
  Template : PodTemplateSpec.t;
  Replicas : Z }.
End DeploymentSpec.

Module Deployment.
Record t : Type := mk { ObjectMeta : ObjectMeta.t; Spec : DeploymentSpec.t }.
End Deployment.

Module PersistentVolumeClaimSpec.
Record t : Type := mk {
  StorageClassName : string;
  AccessModes : list string;
  StorageRequest : Z }.
End PersistentVolumeClaimSpec.

Module PersistentVolumeClaim.
Record t : Type := mk { ObjectMeta : ObjectMeta.t; Spec : PersistentVolumeClaimSpec.t }.
Definition GetName (p : t) : string := ObjectMeta.Name (ObjectMeta p).
Definition GetGenerateName (p : t) : string := ObjectMeta.GenerateName (ObjectMeta p).
Definition GetLabels (p : t) : gmap string string := ObjectMeta.Labels (ObjectMeta p).
End PersistentVolumeClaim.

(** [v1.LabelHostname]. *)
Definition LabelHostname : string := "kubernetes.io/hostname".

(** ** The types of the Rook API and of the OSD package *)

Module Device.
Record t : Type := mk { Name : string; Config : gmap string string }.
End Device.

Module Directory.
Record t : Type := mk { Path : string; Config : gmap string string }.
End Directory.

Module Selection.
Record t : Type := mk {
  UseAllDevices : option bool;
  DeviceFilter : string;
  Directories : list Directory.t }.
(** The getter of the optional flag: false when the pointer is nil. *)
Definition GetUseAllDevices (s : t) : bool := default false (UseAllDevices s).
End Selection.

Module Placement.
Record t : Type := mk {
  NodeAffinity : option string;
  PodAffinity : option string;
  PodAntiAffinity : option string;
  Tolerations : list string }.
End Placement.

Module StoreConfig.
Record t : Type := mk {
  StoreType : string;
  WalSizeMB : Z;
  DatabaseSizeMB : Z;
  JournalSizeMB : Z;
  OSDsPerDevice : Z;
  EncryptedDevice : bool }.
End StoreConfig.

Module CephVersion.
Record t : Type := mk { Major : Z; Minor : Z; Extra : Z }.
End CephVersion.

(** The worker descriptor. *)
Module OSDObject.
Record t : Type := mk {
  name : string;
  devices : list Device.t;
  selection : Selection.t;
  resources : ResourceRequirements.t;
  storeConfig : StoreConfig.t;
  placement : Placement.t;
  metadataDevice : string;
  location : string;
  pvc : PersistentVolumeClaimVolumeSource.t }.
End OSDObject.

(** The runtime information of a provisioned worker. *)
Module OSDInfo.
Record t : Type := mk {
  ID : Z;
  DataPath : string;
  Config : string;
  Cluster : string;
  KeyringPath : string;
  UUID : string;
  Journal : string;
  IsFileStore : bool;
  IsDirectory : bool;
  DevicePartUUID : string;
  CephVolumeInitiated : bool }.
End OSDInfo.

Module StorageClassDeviceSet.
Record t : Type := mk {
  Name : string;
  Count : Z;
  Resources : ResourceRequirements.t;
  Placement : Placement.t;
  Config : gmap string string;
  VolumeClaimTemplates : list PersistentVolumeClaim.t }.
End StorageClassDeviceSet.

(** The receiver of the methods, with the fields they read.  The process
    environment read through [os.Getenv] is carried along in [environ]. *)
Module Cluster.
Record t : Type := mk {
  Namespace : string;
  dataDirHostPath : string;
  HostNetwork : bool;
  cephVersionImage : string;
  rookVersion : string;
  clusterInfoCephVersion : CephVersion.t;
  resources : ResourceRequirements.t;
  ownerRef : OwnerReference.t;
  annotations : gmap string string;
  placement : Placement.t;
  environ : gmap string string }.
(** [os.Getenv]: the empty string when the variable is unset. *)
Definition Getenv (c : t) (key : string) : string := default "" (environ c !! key).
End Cluster.

(** ** Errors

    The package reports every failure with [fmt.Errorf]; each constructor
    stands for one format string and carries the values it is applied to. *)

Definition ApiError : Type := string.

Inductive osdError : Type :=
| ErrEmptyVolumes
    (* "empty volumes" *)
| ErrNoPVCAvailable (deviceSet : string)
    (* "No PVC available for storageClassDeviceSet %s" *)
| ErrFailedToCreatePVC (generateName deviceSet : string) (err : ApiError)
    (* "failed to create pvc %v for storageClassDeviceSet %v, err %+v" *)
| ErrMoreThanOnePVC (labelSelector : string) (present : list PersistentVolumeClaim.t)
    (* "more than one PVCs exists with label %v, pvcs %+v" *)
| PanicIndexOutOfRange.
    (* the run-time panic of an index expression *)

(** ** Calls to the Kubernetes client

    [c.context.Clientset.CoreV1().PersistentVolumeClaims(ns)] offers [List]
    and [Create]; a procedure that calls them is a tree whose inner nodes
    are the calls and whose leaves are the returned values. *)

Inductive Client (A : Type) : Type :=
| Ret (a : A)
| ListCall (ns labelSelector : string)
    (k : ApiError + list PersistentVolumeClaim.t -> Client A)
| CreateCall (ns : string) (pvc : PersistentVolumeClaim.t)
    (k : ApiError + PersistentVolumeClaim.t -> Client A).

Arguments Ret {A} a.
Arguments ListCall {A} ns labelSelector k.
Arguments CreateCall {A} ns pvc k.

Fixpoint bind {A B : Type} (m : Client A) (f : A -> Client B) : Client B :=
  match m with
  | Ret a => f a
  | ListCall ns sel k => ListCall ns sel (fun r => bind (k r) f)
  | CreateCall ns pvc k => CreateCall ns pvc (fun r => bind (k r) f)
  end.

Definition PersistentVolumeClaimsList (ns labelSelector : string)
  : Client (ApiError + list PersistentVolumeClaim.t) :=
  ListCall ns labelSelector Ret.

Definition PersistentVolumeClaimsCreate (ns : string) (pvc : PersistentVolumeClaim.t)
  : Client (ApiError + PersistentVolumeClaim.t) :=
  CreateCall ns pvc Ret.

#[global] Instance Client_ret : MRet Client := fun A a => Ret a.
#[global] Instance Client_bind : MBind Client := fun A B f m => bind m f.

(** ** storageClassDeviceSet.go and the claim helpers of the builders' file *)

Definition PVCIdLabelKey : string := "ceph.rook.io/StorageClassDeviceSetPVCId".

Definition makeStorageClassDeviceSetPVCID
  (storageClassDeviceSetName : string) (setIndex pvcIndex : Z) : string * string :=
  let pvcStorageClassDeviceSetPVCId :=
    storageClassDeviceSetName +:+ "-" +:+ Go.Itoa setIndex +:+ "-" +:+ Go.Itoa pvcIndex in
  (pvcStorageClassDeviceSetPVCId,
   "ceph.rook.io/StorageClassDeviceSetPVCId=" +:+ pvcStorageClassDeviceSetPVCId).

Definition makeStorageClassDeviceSetPVCLabel
  (storageClassDeviceSetName pvcStorageClassDeviceSetPVCId : string)
  (pvcIndex setIndex : Z) : gmap string string :=
  <["ceph.rook.io/storageClassDeviceSet" := storageClassDeviceSetName]>
  (<["ceph.rook.io/pvcIndex" := Go.Itoa pvcIndex]>
  (<["ceph.rook.io/setIndex" := Go.Itoa setIndex]>
  (<["ceph.rook.io/StorageClassDeviceSetPVCId" := pvcStorageClassDeviceSetPVCId]> ∅))).

Definition makeStorageClassDeviceSetPVC
  (storageClassDeviceSetName pvcStorageClassDeviceSetPVCId : string)
  (pvcIndex setIndex : Z) (pvcTemplate : PersistentVolumeClaim.t)
  : PersistentVolumeClaim.t :=
  let pvcLabels :=
    makeStorageClassDeviceSetPVCLabel storageClassDeviceSetName
      pvcStorageClassDeviceSetPVCId pvcIndex setIndex in
  let pvcGenerateName := pvcStorageClassDeviceSetPVCId +:+ "-" in
  let pvcGenerateName :=
    if negb (Nat.eqb (String.length (PersistentVolumeClaim.GetName pvcTemplate)) 0)
    then pvcGenerateName +:+ PersistentVolumeClaim.GetName pvcTemplate +:+ "-"
    else pvcGenerateName in
  (* for k, v := range pvcTemplate.GetLabels() { pvcLabels[k] = v } *)
  let pvcLabels :=
    map_fold (fun k v (labels : gmap string string) => <[k := v]> labels)
      pvcLabels (PersistentVolumeClaim.GetLabels pvcTemplate) in
  PersistentVolumeClaim.mk
    (ObjectMeta.mk "" pvcGenerateName "" pvcLabels
       (ObjectMeta.Annotations (PersistentVolumeClaim.ObjectMeta pvcTemplate)) [])
    (PersistentVolumeClaim.Spec pvcTemplate).

(** [&deployedPVCs[0]]. *)
Definition firstDeployed (deployedPVCs : list PersistentVolumeClaim.t)
  : osdError + PersistentVolumeClaim.t :=
  match deployedPVCs with
  | p :: _ => inr p
  | [] => inl PanicIndexOutOfRange
  end.

Definition createStorageClassDeviceSetPVC (c : Cluster.t)
  (storageClassDeviceSet : StorageClassDeviceSet.t) (setIndex : Z)
  : Client (osdError + PersistentVolumeClaim.t) :=
  let dsName := StorageClassDeviceSet.Name storageClassDeviceSet in
  match StorageClassDeviceSet.VolumeClaimTemplates storageClassDeviceSet with
  | [] => Ret (inl (ErrNoPVCAvailable dsName))
  | template0 :: _ =>
      let deployedPVCs : list PersistentVolumeClaim.t := [] in
      let '(pvcStorageClassDeviceSetPVCId, pvcStorageClassDeviceSetPVCIdLabelSelector) :=
        makeStorageClassDeviceSetPVCID dsName setIndex 0 in
      let pvc :=
        makeStorageClassDeviceSetPVC dsName pvcStorageClassDeviceSetPVCId 0 setIndex
          template0 in
      listed ← PersistentVolumeClaimsList (Cluster.Namespace c)
                 pvcStorageClassDeviceSetPVCIdLabelSelector;
      match listed with
      | inl err =>
          Ret (inl (ErrFailedToCreatePVC (PersistentVolumeClaim.GetGenerateName pvc)
                      dsName err))
      | inr presentPVCs =>
          if Nat.eqb (length presentPVCs) 0 then
            created ← PersistentVolumeClaimsCreate (Cluster.Namespace c) pvc;
            match created with
            | inl err =>
                Ret (inl (ErrFailedToCreatePVC
                            (PersistentVolumeClaim.GetGenerateName pvc) dsName err))
            | inr deployedPVC => Ret (firstDeployed (deployedPVCs ++ [deployedPVC]))
            end
          else if Nat.eqb (length presentPVCs) 1 then
            Ret (firstDeployed (deployedPVCs ++ presentPVCs))
          else
            Ret (inl (ErrMoreThanOnePVC pvcStorageClassDeviceSetPVCIdLabelSelector
                        presentPVCs))
      end
  end.

(** ** The claim store behind the client

    The API server keeps the claims it was given.  [List] answers with the
    claims of the namespace whose labels satisfy the selector, [Create]
    stores the claim under the namespace, names it after its generate-name
    when it has no name, and answers with the stored object.  Either call
    may instead fail with an error of the backing store; [faults] decides
    that for a request in a state of the store. *)

Module ApiServer.
Record t : Type := mk { claims : list PersistentVolumeClaim.t; generated : nat }.
End ApiServer.

Inductive Request : Type :=
| ReqList (ns labelSelector : string)
| ReqCreate (ns : string) (pvc : PersistentVolumeClaim.t).

Definition isCreate (r : Request) : bool :=
  match r with ReqCreate _ _ => true | ReqList _ _ => false end.

(** A selector [key=value] cut at its first equals sign. *)
Fixpoint cutSelector (key sel : string) : option (string * string) :=
  match sel with
  | EmptyString => None
  | String c r =>
      if Ascii.eqb c "=" then Some (key, r) else cutSelector (key +:+ String c "") r
  end.

Definition selectorMatches (labelSelector : string) (labels : gmap string string) : bool :=
  match cutSelector "" labelSelector with
  | Some (key, value) => bool_decide (labels !! key = Some value)
  | None => bool_decide (is_Some (labels !! labelSelector))
  end.

Definition selected (ns labelSelector : string) (p : PersistentVolumeClaim.t) : bool :=
  String.eqb (ObjectMeta.Namespace (PersistentVolumeClaim.ObjectMeta p)) ns
  && selectorMatches labelSelector (PersistentVolumeClaim.GetLabels p).

Definition serveList (srv : ApiServer.t) (ns labelSelector : string)
  : list PersistentVolumeClaim.t :=
  List.filter (selected ns labelSelector) (ApiServer.claims srv).

Definition stored (srv : ApiServer.t) (ns : string) (pvc : PersistentVolumeClaim.t)
  : PersistentVolumeClaim.t :=
  let meta := PersistentVolumeClaim.ObjectMeta pvc in
  let name :=
    if String.eqb (ObjectMeta.Name meta) ""
    then ObjectMeta.GenerateName meta +:+ pretty (ApiServer.generated srv)
    else ObjectMeta.Name meta in
  PersistentVolumeClaim.mk
    (ObjectMeta.mk name (ObjectMeta.GenerateName meta) ns (ObjectMeta.Labels meta)
       (ObjectMeta.Annotations meta) (ObjectMeta.OwnerReferences meta))
    (PersistentVolumeClaim.Spec pvc).

Definition serveCreate (srv : ApiServer.t) (ns : string) (pvc : PersistentVolumeClaim.t)
  : PersistentVolumeClaim.t * ApiServer.t :=
  let p := stored srv ns pvc in
  (p, ApiServer.mk (ApiServer.claims srv ++ [p]) (S (ApiServer.generated srv))).

Definition Faults : Type := ApiServer.t -> Request -> option ApiError.

(** Running a procedure against the store: the value it returns, the
    store it leaves and the requests it issued, in order. *)
Fixpoint run {A : Type} (faults : Faults) (m : Client A) (srv : ApiServer.t)
  : A * ApiServer.t * list Request :=
  match m with
  | Ret a => (a, srv, [])
  | ListCall ns sel k =>
      let '(a, srv', log) :=
        match faults srv (ReqList ns sel) with
        | Some err => run faults (k (inl err)) srv
        | None => run faults (k (inr (serveList srv ns sel))) srv
        end in
      (a, srv', ReqList ns sel :: log)
  | CreateCall ns pvc k =>
      let '(a, srv', log) :=
        match faults srv (ReqCreate ns pvc) with
        | Some err => run faults (k (inl err)) srv
        | None =>
            let '(p, srv1) := serveCreate srv ns pvc in
            run faults (k (inr p)) srv1
        end in
      (a, srv', ReqCreate ns pvc :: log)
  end.

Definition noFaults : Faults := fun _ _ => None.

(** ** What the package takes from its neighbours

    The builders call helpers and read constants of other packages of the
    operator (k8sutil, opspec, opmon, config, version, rookalpha) and of
    the other files of its own package.  They are parameters of the
    embedding.  A helper that edits an object in place is given the part
    of the object it edits: the label helpers the metadata of the
    deployment and of its pod template, the placement the affinity and the
    tolerations of the pod spec. *)

Definition Metas : Type := (ObjectMeta.t * ObjectMeta.t)%type.
Definition Scheduling : Type := (option Affinity.t * list string)%type.

Record Externals : Type := {
  (* k8sutil *)
  DataDir : string;
  BinariesMountPath : string;
  AppAttr : string;
  ClusterAttr : string;
  PrivateIPEnvVar : string;
  PublicIPEnvVar : string;
  PathToVolumeName : string -> string;
  PodIPEnvVar : string -> EnvVar.t;
  ClusterDaemonEnvVars : string -> list EnvVar.t;
  ConfigDirEnvVar : string -> EnvVar.t;
  ConfigOverrideEnvVar : EnvVar.t;
  MakeRookImage : string -> string;
  AddPVCLabelToDeployement : string -> Metas -> Metas;
  AddRookVersionLabelToDeployment : Metas -> Metas;
  SetOwnerRef : ObjectMeta.t -> OwnerReference.t -> ObjectMeta.t;
  (* opspec *)
  CephVolumeMounts : list VolumeMount.t;
  RookVolumeMounts : list VolumeMount.t;
  PodVolumes : string -> string -> list Volume.t;
  ConfigInitContainerName : string;
  PodLifeCycle : string -> option (list string);
  AddCephVersionLabelToDeployment : CephVersion.t -> Metas -> Metas;
  (* opmon *)
  ClusterNameEnvVar : string -> EnvVar.t;
  EndpointEnvVar : EnvVar.t;
  SecretEnvVar : EnvVar.t;
  AdminSecretEnvVar : EnvVar.t;
  PodSecurityContext : option SecurityContext.t;
  (* config *)
  Bluestore : string;
  Filestore : string;
  OSDsPerDeviceKey : string;
  MetadataDeviceKey : string;
  (* version *)
  IsAtLeast : CephVersion.t -> CephVersion.t -> bool;
  IsAtLeastNautilus : CephVersion.t -> bool;
  CephVersionFormatted : CephVersion.t -> string;
  (* rookalpha *)
  LocationEnvVar : string -> EnvVar.t;
  ApplyToObjectMeta : gmap string string -> ObjectMeta.t -> ObjectMeta.t;
  ApplyToPodSpec : Placement.t -> Scheduling -> Scheduling;
  (* package osd, other files *)
  appName : string;
  prepareAppName : string;
  osdAppName : Z -> string;          (* fmt.Sprintf(osdAppNameFmt, id) *)
  osdLabelKey : string;
  serviceAccountName : string;
  IsRemovingNode : string -> bool;
  (* fmt.Sprintf("%f", float32(v) * osdMemoryTargetSafetyFactor): the
     arithmetic and the rendering of a binary32 number are not modelled *)
  FormatMemoryTarget : Z -> string }.

(** Editing a deployment or a pod spec through such a helper. *)
Definition onMetas (f : Metas -> Metas) (d : Deployment.t) : Deployment.t :=
  let spec := Deployment.Spec d in
  let tmpl := DeploymentSpec.Template spec in
  let '(m, tm) := f (Deployment.ObjectMeta d, PodTemplateSpec.ObjectMeta tmpl) in
  Deployment.mk m
    (DeploymentSpec.mk (DeploymentSpec.Selector spec) (DeploymentSpec.StrategyType spec)
       (PodTemplateSpec.mk tm (PodTemplateSpec.Spec tmpl))
       (DeploymentSpec.Replicas spec)).

Definition onScheduling (f : Scheduling -> Scheduling) (p : PodSpec.t) : PodSpec.t :=
  let '(aff, tol) := f (PodSpec.Affinity p, PodSpec.Tolerations p) in
  PodSpec.mk aff tol (PodSpec.NodeSelector p) (PodSpec.RestartPolicy p)
    (PodSpec.ServiceAccountName p) (PodSpec.HostNetwork p) (PodSpec.HostPID p)
    (PodSpec.HostIPC p) (PodSpec.DNSPolicy p) (PodSpec.InitContainers p)
    (PodSpec.Containers p) (PodSpec.Volumes p).

Definition onPodSpec (f : PodSpec.t -> PodSpec.t) (d : Deployment.t) : Deployment.t :=
  let spec := Deployment.Spec d in
  let tmpl := DeploymentSpec.Template spec in
  Deployment.mk (Deployment.ObjectMeta d)
    (DeploymentSpec.mk (DeploymentSpec.Selector spec) (DeploymentSpec.StrategyType spec)
       (PodTemplateSpec.mk (PodTemplateSpec.ObjectMeta tmpl) (f (PodTemplateSpec.Spec tmpl)))
       (DeploymentSpec.Replicas spec)).

(** [spec.NodeSelector = sel] and [spec.InitContainers = append(spec.InitContainers, extra...)]. *)
Definition setNodeSelector (sel : gmap string string) (extra : list Container.t)
  (p : PodSpec.t) : PodSpec.t :=
  PodSpec.mk (PodSpec.Affinity p) (PodSpec.Tolerations p) sel (PodSpec.RestartPolicy p)
    (PodSpec.ServiceAccountName p) (PodSpec.HostNetwork p) (PodSpec.HostPID p)
    (PodSpec.HostIPC p) (PodSpec.DNSPolicy p) (PodSpec.InitContainers p ++ extra)
    (PodSpec.Containers p) (PodSpec.Volumes p).

(** The pod spec a deployment carries and the single daemon container in it. *)
Definition podSpecOf (d : Deployment.t) : PodSpec.t :=
  PodTemplateSpec.Spec (DeploymentSpec.Template (Deployment.Spec d)).

(** ** The manifest builders *)

Definition dataDirsEnvVarName : string := "ROOK_DATA_DIRECTORIES".
Definition osdStoreEnvVarName : string := "ROOK_OSD_STORE".
Definition osdDatabaseSizeEnvVarName : string := "ROOK_OSD_DATABASE_SIZE".
Definition osdWalSizeEnvVarName : string := "ROOK_OSD_WAL_SIZE".
Definition osdJournalSizeEnvVarName : string := "ROOK_OSD_JOURNAL_SIZE".
Definition osdsPerDeviceEnvVarName : string := "ROOK_OSDS_PER_DEVICE".
Definition encryptedDeviceEnvVarName : string := "ROOK_ENCRYPTED_DEVICE".
Definition osdMetadataDeviceEnvVarName : string := "ROOK_METADATA_DEVICE".
Definition pvcBackedOSDVarName : string := "ROOK_PVC_BACKED_OSD".
Definition rookBinariesMountPath : string := "/rook".
Definition rookBinariesVolumeName : string := "rook-binaries".

Definition nodeNameEnvVar (name : string) : EnvVar.t := envVar "ROOK_NODE_NAME" name.

Definition dataDevicesEnvVar (dataDevices : string) : EnvVar.t :=
  envVar "ROOK_DATA_DEVICES" dataDevices.

Definition deviceFilterEnvVar (filter : string) : EnvVar.t :=
  envVar "ROOK_DATA_DEVICE_FILTER" filter.

Definition metadataDeviceEnvVar (metadataDevice : string) : EnvVar.t :=
  envVar osdMetadataDeviceEnvVarName metadataDevice.

Definition dataDirectoriesEnvVar (dataDirectories : string) : EnvVar.t :=
  envVar dataDirsEnvVarName dataDirectories.

Definition pvcBackedOSDEnvVar (pvcBacked : string) : EnvVar.t :=
  envVar pvcBackedOSDVarName pvcBacked.

Section Spec.

Variable X : Externals.

Definition skipVolumeForDirectory (c : Cluster.t) (path : string) : bool :=
  String.eqb path (DataDir X).

Definition osdOnSDNFlag (hostnetwork : bool) (v : CephVersion.t) : list string :=
  let args : list string := [] in
  if negb hostnetwork then
    if IsAtLeast X v (CephVersion.mk 14 2 2)
    then args ++ ["--ms-learn-addr-from-peer=false"]
    else args
  else args.

Definition getCopyBinariesContainer (c : Cluster.t) : Volume.t * Container.t :=
  let volume := Volume.mk rookBinariesVolumeName (EmptyDir "") in
  let mount := VolumeMount.mk rookBinariesVolumeName rookBinariesMountPath in
  (volume,
   Container.mk "copy-bins" (MakeRookImage X (Cluster.rookVersion c)) []
     ["copy-binaries"; "--copy-to-dir"; rookBinariesMountPath] [] [mount] []
     noResources None None).

Definition getInitContainers (c : Cluster.t) (pvc : PersistentVolumeClaimVolumeSource.t)
  : Container.t :=
  let claim := PersistentVolumeClaimVolumeSource.ClaimName pvc in
  Container.mk "blkdevmapper" (Cluster.cephVersionImage c) []
    ["cp"; "-a"; "/" +:+ claim; "/mnt/" +:+ claim] []
    [VolumeMount.mk (claim +:+ "-bridge") "/mnt"]
    [VolumeDevice.mk claim ("/" +:+ claim)]
    noResources (PodSecurityContext X) None.

Definition getConfigEnvVars (c : Cluster.t) (storeConfig : StoreConfig.t)
  (dataDir nodeName location : string) : list EnvVar.t :=
  let envVars := [
    nodeNameEnvVar nodeName;
    envVar "ROOK_CLUSTER_ID" (OwnerReference.UID (Cluster.ownerRef c));
    PodIPEnvVar X (PrivateIPEnvVar X);
    PodIPEnvVar X (PublicIPEnvVar X);
    ClusterNameEnvVar X (Cluster.Namespace c);
    EndpointEnvVar X;
    SecretEnvVar X;
    AdminSecretEnvVar X;
    ConfigDirEnvVar X dataDir;
    ConfigOverrideEnvVar X;
    EnvVar.mk "ROOK_FSID" "" (Some (SecretKeyRef "rook-ceph-mon" "fsid")) ] in
  let envVars :=
    if negb (String.eqb (StoreConfig.StoreType storeConfig) "")
    then envVars ++ [envVar osdStoreEnvVarName (StoreConfig.StoreType storeConfig)]
    else envVars in
  let envVars :=
    if negb (StoreConfig.DatabaseSizeMB storeConfig =? 0)
    then envVars ++ [envVar osdDatabaseSizeEnvVarName
                       (Go.Itoa (StoreConfig.DatabaseSizeMB storeConfig))]
    else envVars in
  let envVars :=
    if negb (StoreConfig.WalSizeMB storeConfig =? 0)
    then envVars ++ [envVar osdWalSizeEnvVarName
                       (Go.Itoa (StoreConfig.WalSizeMB storeConfig))]
    else envVars in
  let envVars :=
    if negb (StoreConfig.JournalSizeMB storeConfig =? 0)
    then envVars ++ [envVar osdJournalSizeEnvVarName
                       (Go.Itoa (StoreConfig.JournalSizeMB storeConfig))]
    else envVars in
  let envVars :=
    if negb (StoreConfig.OSDsPerDevice storeConfig =? 0)
    then envVars ++ [envVar osdsPerDeviceEnvVarName
                       (Go.Itoa (StoreConfig.OSDsPerDevice storeConfig))]
    else envVars in
  let envVars :=
    if StoreConfig.EncryptedDevice storeConfig
    then envVars ++ [envVar encryptedDeviceEnvVarName "true"]
    else envVars in
  let envVars :=
    if negb (String.eqb location "")
    then envVars ++ [LocationEnvVar X location]
    else envVars in
  envVars.

(** The body of the loop over [osdObject.devices] in [provisionOSDContainer]:
    the value stored in [deviceNames[i]].  The [count] that the first [if]
    declares lives in the block of that [if] only, where it is logged; the
    suffix is built from the [count] of the enclosing block. *)
Definition deviceNameEntry (device : Device.t) : string :=
  let devSuffix := "" in
  let count := "1" in
  let count :=
    match Device.Config device !! OSDsPerDeviceKey X with
    | Some countInBlock => count
    | None => count
    end in
  let devSuffix := devSuffix +:+ ":" +:+ count in
  let devSuffix :=
    match Device.Config device !! MetadataDeviceKey X with
    | Some md => devSuffix +:+ ":" +:+ md
    | None => devSuffix
    end in
  Device.Name device +:+ devSuffix.

Definition provisionOSDContainer (c : Cluster.t) (osdObject : OSDObject.t)
  (copyBinariesMount : VolumeMount.t) : Container.t :=
  let selection := OSDObject.selection osdObject in
  let claimName := PersistentVolumeClaimVolumeSource.ClaimName (OSDObject.pvc osdObject) in
  let envVars :=
    getConfigEnvVars c (OSDObject.storeConfig osdObject) (DataDir X)
      (OSDObject.name osdObject) (OSDObject.location osdObject) in
  let devMountNeeded := false in
  let privileged := false in
  let '(envVars, devMountNeeded) :=
    if negb (Nat.eqb (length (OSDObject.devices osdObject)) 0) then
      let deviceNames := List.map deviceNameEntry (OSDObject.devices osdObject) in
      (envVars ++ [dataDevicesEnvVar (Go.Join deviceNames ",")], true)
    else if negb (String.eqb (Selection.DeviceFilter selection) "") then
      (envVars ++ [deviceFilterEnvVar (Selection.DeviceFilter selection)], true)
    else if Selection.GetUseAllDevices selection then
      (envVars ++ [deviceFilterEnvVar "all"], true)
    else (envVars, devMountNeeded) in
  let '(envVars, devMountNeeded) :=
    if negb (String.eqb (OSDObject.metadataDevice osdObject) "") then
      (envVars ++ [metadataDeviceEnvVar (OSDObject.metadataDevice osdObject)], true)
    else (envVars, devMountNeeded) in
  let volumeMounts := CephVolumeMounts X ++ [copyBinariesMount] in
  let volumeMounts :=
    if devMountNeeded then
      let devMount := VolumeMount.mk "devices" "/dev" in
      let volumeMounts := volumeMounts ++ [devMount] in
      let udevMount := VolumeMount.mk "udev" "/run/udev" in
      volumeMounts ++ [udevMount]
    else volumeMounts in
  let '(volumeMounts, envVars) :=
    if negb (String.eqb claimName "") then
      let devMount := VolumeMount.mk (claimName +:+ "-bridge") "/mnt" in
      let volumeMounts := volumeMounts ++ [devMount] in
      let envVars := envVars ++ [dataDevicesEnvVar (Go.Join ["/mnt/" +:+ claimName] ",")] in
      (volumeMounts, envVars ++ [pvcBackedOSDEnvVar "true"])
    else (volumeMounts, envVars) in
  let '(volumeMounts, envVars) :=
    if negb (Nat.eqb (length (Selection.Directories selection)) 0) then
      let dirPaths := List.map Directory.Path (Selection.Directories selection) in
      let volumeMounts :=
        fold_left
          (fun mounts dpath =>
             if skipVolumeForDirectory c dpath then mounts
             else mounts ++ [VolumeMount.mk (PathToVolumeName X dpath) dpath])
          dirPaths volumeMounts in
      if negb (IsRemovingNode X (Selection.DeviceFilter selection))
      then (volumeMounts, envVars ++ [dataDirectoriesEnvVar (Go.Join dirPaths ",")])
      else (volumeMounts, envVars)
    else (volumeMounts, envVars) in
  let privileged :=
    if devMountNeeded
       || String.eqb (Cluster.Getenv c "ROOK_HOSTPATH_REQUIRES_PRIVILEGED") "true"
       || negb (String.eqb claimName "")
    then true else privileged in
  let runAsUser := 0 in
  let runAsNonRoot := false in
  let readOnlyRootFilesystem := false in
  let osdProvisionContainer :=
    Container.mk "provision" (Cluster.cephVersionImage c)
      [Go.PathJoin [rookBinariesMountPath; "tini"]]
      ["--"; Go.PathJoin [rookBinariesMountPath; "rook"]; "ceph"; "osd"; "provision"]
      envVars volumeMounts []
      (OSDObject.resources osdObject)
      (Some (SecurityContext.mk (Some privileged) (Some runAsUser) (Some runAsNonRoot)
               (Some readOnlyRootFilesystem)))
      None in
  osdProvisionContainer.

Definition provisionPodTemplateSpec (c : Cluster.t) (osdObject : OSDObject.t)
  (restart : RestartPolicy) : osdError + PodTemplateSpec.t :=
  let selection := OSDObject.selection osdObject in
  let claimName := PersistentVolumeClaimVolumeSource.ClaimName (OSDObject.pvc osdObject) in
  let '(copyBinariesVolume, copyBinariesContainer) := getCopyBinariesContainer c in
  let volumes :=
    PodVolumes X (Cluster.dataDirHostPath c) (Cluster.Namespace c) ++ [copyBinariesVolume] in
  let volumes :=
    if negb (Nat.eqb (length (OSDObject.devices osdObject)) 0)
       || negb (String.eqb (Selection.DeviceFilter selection) "")
       || Selection.GetUseAllDevices selection
       || negb (String.eqb (OSDObject.metadataDevice osdObject) "")
    then
      let devVolume := Volume.mk "devices" (HostPath "/dev") in
      let volumes := volumes ++ [devVolume] in
      let udevVolume := Volume.mk "udev" (HostPath "/run/udev") in
      volumes ++ [udevVolume]
    else volumes in
  let volumes :=
    if negb (String.eqb claimName "") then
      let devVolume :=
        Volume.mk (OSDObject.name osdObject)
          (PersistentVolumeClaimSource (OSDObject.pvc osdObject)) in
      let volumes := volumes ++ [devVolume] in
      let devVolume := Volume.mk (claimName +:+ "-bridge") (EmptyDir "Memory") in
      volumes ++ [devVolume]
    else volumes in
  let volumes :=
    fold_left
      (fun vols d =>
         if skipVolumeForDirectory c (Directory.Path d) then vols
         else vols ++ [Volume.mk (PathToVolumeName X (Directory.Path d))
                         (HostPath (Directory.Path d))])
      (Selection.Directories selection) volumes in
  if Nat.eqb (length volumes) 0 then inl ErrEmptyVolumes
  else
    let placement := OSDObject.placement osdObject in
    let copyBinariesMount0 :=
      match Container.VolumeMounts copyBinariesContainer with
      | m :: _ => inr m
      | [] => inl PanicIndexOutOfRange
      end in
    match copyBinariesMount0 with
    | inl e => inl e
    | inr copyBinariesMount =>
        let podSpec :=
          PodSpec.mk
            (Some (Affinity.mk (Placement.NodeAffinity placement)
                     (Placement.PodAffinity placement)
                     (Placement.PodAntiAffinity placement)))
            (Placement.Tolerations placement)
            ∅ restart (serviceAccountName X) (Cluster.HostNetwork c) false false
            DNSDefaultUnset []
            [copyBinariesContainer; provisionOSDContainer c osdObject copyBinariesMount]
            volumes in
        let podSpec :=
          if Cluster.HostNetwork c then
            PodSpec.mk (PodSpec.Affinity podSpec) (PodSpec.Tolerations podSpec)
              (PodSpec.NodeSelector podSpec) (PodSpec.RestartPolicy podSpec)
              (PodSpec.ServiceAccountName podSpec) (PodSpec.HostNetwork podSpec)
              (PodSpec.HostPID podSpec) (PodSpec.HostIPC podSpec)
              DNSClusterFirstWithHostNet (PodSpec.InitContainers podSpec)
              (PodSpec.Containers podSpec) (PodSpec.Volumes podSpec)
          else podSpec in
        let podSpec :=
          if String.eqb claimName ""
          then onScheduling (ApplyToPodSpec X (Cluster.placement c)) podSpec
          else podSpec in
        let podMeta :=
          ObjectMeta.mk (appName X) "" ""
            (<[AppAttr X := prepareAppName X]> (<[ClusterAttr X := Cluster.Namespace c]> ∅))
            ∅ [] in
        let podMeta := ApplyToObjectMeta X (Cluster.annotations c) podMeta in
        let podSpec :=
          PodSpec.mk (PodSpec.Affinity podSpec) (PodSpec.Tolerations podSpec)
            (PodSpec.NodeSelector podSpec) (PodSpec.RestartPolicy podSpec)
            (PodSpec.ServiceAccountName podSpec) (PodSpec.HostNetwork podSpec)
            (PodSpec.HostPID podSpec)
            (StoreConfig.EncryptedDevice (OSDObject.storeConfig osdObject))
            (PodSpec.DNSPolicy podSpec) (PodSpec.InitContainers podSpec)
            (PodSpec.Containers podSpec) (PodSpec.Volumes podSpec) in
        inr (PodTemplateSpec.mk podMeta podSpec)
    end.

Definition makeDeployment (c : Cluster.t) (osdObject : OSDObject.t) (osd : OSDInfo.t)
  : osdError + Deployment.t :=
  let claimName := PersistentVolumeClaimVolumeSource.ClaimName (OSDObject.pvc osdObject) in
  let cephVersion := Cluster.clusterInfoCephVersion c in
  let replicaCount := 1 in
  let volumeMounts := CephVolumeMounts X in
  let configVolumeMounts := RookVolumeMounts X in
  let volumes := PodVolumes X (Cluster.dataDirHostPath c) (Cluster.Namespace c) in
  let '(dataDir, volumes, configVolumeMounts, volumeMounts) :=
    if OSDInfo.IsDirectory osd then
      let parentDir := Go.Dir (OSDInfo.DataPath osd) in
      let dataDir := parentDir in
      if negb (String.eqb parentDir (DataDir X)) then
        let volumeName := PathToVolumeName X parentDir in
        let dataDirSource := HostPath parentDir in
        (dataDir,
         volumes ++ [Volume.mk volumeName dataDirSource],
         configVolumeMounts ++ [VolumeMount.mk volumeName parentDir],
         volumeMounts ++ [VolumeMount.mk volumeName parentDir])
      else (dataDir, volumes, configVolumeMounts, volumeMounts)
    else
      let dataDir := DataDir X in
      let devVolume := Volume.mk "devices" (HostPath "/dev") in
      let devMount := VolumeMount.mk "devices" "/dev" in
      (dataDir, volumes ++ [devVolume], configVolumeMounts, volumeMounts ++ [devMount]) in
  let volumes :=
    if negb (String.eqb claimName "") then
      let devVolume :=
        Volume.mk (OSDObject.name osdObject)
          (PersistentVolumeClaimSource (OSDObject.pvc osdObject)) in
      let volumes := volumes ++ [devVolume] in
      let devVolume := Volume.mk (claimName +:+ "-bridge") (EmptyDir "Memory") in
      volumes ++ [devVolume]
    else volumes in
  if Nat.eqb (length volumes) 0 then inl ErrEmptyVolumes
  else
  let storeType := Bluestore X in
  let storeType := if OSDInfo.IsFileStore osd then Filestore X else storeType in
  let osdID := Go.Itoa (OSDInfo.ID osd) in
  let tiniEnvVar := envVar "TINI_SUBREAPER" "" in
  let envVars := [
    nodeNameEnvVar (OSDObject.name osdObject);
    PodIPEnvVar X (PrivateIPEnvVar X);
    PodIPEnvVar X (PublicIPEnvVar X);
    tiniEnvVar ] in
  let envVars := envVars ++ ClusterDaemonEnvVars X (Cluster.cephVersionImage c) in
  let envVars := envVars ++ [
    envVar "ROOK_OSD_UUID" (OSDInfo.UUID osd);
    envVar "ROOK_OSD_ID" osdID;
    envVar "ROOK_OSD_STORE_TYPE" storeType ] in
  let configEnvVars :=
    getConfigEnvVars c (OSDObject.storeConfig osdObject) dataDir
      (OSDObject.name osdObject) (OSDObject.location osdObject)
    ++ [ tiniEnvVar;
         envVar "ROOK_OSD_ID" osdID;
         envVar "ROOK_CEPH_VERSION" (CephVersionFormatted X cephVersion) ] in
  let configEnvVars :=
    if negb (OSDInfo.IsDirectory osd)
    then configEnvVars ++ [envVar "ROOK_IS_DEVICE" "true"]
    else configEnvVars in
  let commonArgs := [
    "--foreground";
    "--id"; osdID;
    "--conf"; OSDInfo.Config osd;
    "--osd-data"; OSDInfo.DataPath osd;
    "--keyring"; OSDInfo.KeyringPath osd;
    "--cluster"; OSDInfo.Cluster osd;
    "--osd-uuid"; OSDInfo.UUID osd ] in
  let memoryLimit := ResourceRequirements.LimitsMemory (Cluster.resources c) in
  let commonArgs :=
    if negb (OSDInfo.IsFileStore osd) then
      if negb (IsAtLeastNautilus X cephVersion) && negb (memoryLimit =? 0) then
        let osdMemoryTargetValue := FormatMemoryTarget X memoryLimit in
        commonArgs ++ ["--osd-memory-target=" +:+ osdMemoryTargetValue]
      else commonArgs
    else commonArgs in
  let commonArgs :=
    if OSDInfo.IsFileStore osd
    then commonArgs ++ ["--osd-journal=" +:+ OSDInfo.Journal osd]
    else commonArgs in
  let commonArgs :=
    if IsAtLeast X cephVersion (CephVersion.mk 14 2 1)
    then commonArgs ++ ["--default-log-to-file"; "false"]
    else commonArgs in
  let commonArgs := commonArgs ++ osdOnSDNFlag (Cluster.HostNetwork c) cephVersion in
  let '(copyBinariesVolume, copyBinariesContainer) := getCopyBinariesContainer c in
  let volumes := volumes ++ [copyBinariesVolume] in
  match Container.VolumeMounts copyBinariesContainer with
  | [] => inl PanicIndexOutOfRange
  | copyBinariesMount :: _ =>
  let volumeMounts := volumeMounts ++ [copyBinariesMount] in
  let '(command, args, volumes, volumeMounts) :=
    if negb (OSDInfo.IsDirectory osd) && OSDInfo.IsFileStore osd
       && negb (OSDInfo.CephVolumeInitiated osd) then
      let sourcePath := Go.PathJoin ["/dev/disk/by-partuuid"; OSDInfo.DevicePartUUID osd] in
      let command := [Go.PathJoin [BinariesMountPath X; "tini"]] in
      let args :=
        [ "--"; Go.PathJoin [BinariesMountPath X; "rook"];
          "ceph"; "osd"; "filestore-device";
          "--source-path"; sourcePath;
          "--mount-path"; OSDInfo.DataPath osd;
          "--" ] ++ commonArgs in
      (command, args, volumes, volumeMounts)
    else if OSDInfo.CephVolumeInitiated osd then
      let command := [Go.PathJoin [rookBinariesMountPath; "tini"]] in
      let args :=
        [ "--"; Go.PathJoin [rookBinariesMountPath; "rook"];
          "ceph"; "osd"; "start";
          "--";
          "--foreground";
          "--id"; osdID;
          "--osd-uuid"; OSDInfo.UUID osd;
          "--conf"; OSDInfo.Config osd;
          "--cluster"; "ceph";
          "--setuser"; "ceph";
          "--setgroup"; "ceph";
          "--setuser-match-path"; OSDInfo.DataPath osd ] in
      (* the memory target is appended to commonArgs, which this branch
         does not read again *)
      let commonArgs :=
        if negb (OSDInfo.IsFileStore osd) then
          if negb (IsAtLeastNautilus X cephVersion) && negb (memoryLimit =? 0) then
            let osdMemoryTargetValue := FormatMemoryTarget X memoryLimit in
            commonArgs ++ ["--osd-memory-target=" +:+ osdMemoryTargetValue]
          else commonArgs
        else commonArgs in
      let args :=
        if IsAtLeast X cephVersion (CephVersion.mk 14 2 1)
        then args ++ ["--default-log-to-file"; "false"]
        else args in
      let args := args ++ osdOnSDNFlag (Cluster.HostNetwork c) cephVersion in
      let volumes := volumes ++ [Volume.mk "run-udev" (HostPath "/run/udev")] in
      let volumeMounts := volumeMounts ++ [VolumeMount.mk "run-udev" "/run/udev"] in
      (command, args, volumes, volumeMounts)
    else
      let command := ["ceph-osd"] in
      let args := commonArgs in
      (command, args, volumes, volumeMounts) in
  let '(volumeMounts, envVars) :=
    if negb (String.eqb claimName "") then
      let devMount := VolumeMount.mk (claimName +:+ "-bridge") "/mnt" in
      (volumeMounts ++ [devMount], envVars ++ [pvcBackedOSDEnvVar "true"])
    else (volumeMounts, envVars) in
  let privileged := true in
  let runAsUser := 0 in
  let readOnlyRootFilesystem := false in
  let securityContext :=
    Some (SecurityContext.mk (Some privileged) (Some runAsUser) None
            (Some readOnlyRootFilesystem)) in
  let hostIPC := StoreConfig.EncryptedDevice (OSDObject.storeConfig osdObject) in
  let DNSPolicy := DNSClusterFirst in
  let DNSPolicy := if Cluster.HostNetwork c then DNSClusterFirstWithHostNet else DNSPolicy in
  let placement := OSDObject.placement osdObject in
  let labels : gmap string string :=
    <[AppAttr X := appName X]>
    (<[ClusterAttr X := Cluster.Namespace c]>
    (<[osdLabelKey X := Go.Itoa (OSDInfo.ID osd)]> ∅)) in
  let deployment :=
    Deployment.mk
      (ObjectMeta.mk (osdAppName X (OSDInfo.ID osd)) "" (Cluster.Namespace c) labels ∅ [])
      (DeploymentSpec.mk labels "Recreate"
         (PodTemplateSpec.mk
            (ObjectMeta.mk (appName X) "" "" labels ∅ [])
            (PodSpec.mk
               (Some (Affinity.mk (Placement.NodeAffinity placement)
                        (Placement.PodAffinity placement)
                        (Placement.PodAntiAffinity placement)))
               (Placement.Tolerations placement)
               (<[LabelHostname := OSDObject.name osdObject]> ∅)
               RestartPolicyAlways (serviceAccountName X) (Cluster.HostNetwork c)
               true hostIPC DNSPolicy
               [ Container.mk (ConfigInitContainerName X)
                   (MakeRookImage X (Cluster.rookVersion c)) []
                   ["ceph"; "osd"; "init"] configEnvVars configVolumeMounts []
                   noResources securityContext None;
                 copyBinariesContainer ]
               [ Container.mk "osd" (Cluster.cephVersionImage c) command args
                   envVars volumeMounts [] (OSDObject.resources osdObject)
                   securityContext (PodLifeCycle X (OSDInfo.DataPath osd)) ]
               volumes))
         replicaCount) in
  let deployment :=
    if String.eqb claimName "" then
      onPodSpec (setNodeSelector (<[LabelHostname := OSDObject.name osdObject]> ∅) [])
        deployment
    else
      let deployment :=
        onPodSpec (setNodeSelector ∅ [getInitContainers c (OSDObject.pvc osdObject)])
          deployment in
      onMetas (AddPVCLabelToDeployement X claimName) deployment in
  let deployment := onMetas (AddRookVersionLabelToDeployment X) deployment in
  let deployment :=
    onMetas (fun '(m, tm) => (ApplyToObjectMeta X (Cluster.annotations c) m, tm))
      deployment in
  let deployment :=
    onMetas (fun '(m, tm) => (m, ApplyToObjectMeta X (Cluster.annotations c) tm))
      deployment in
  let deployment := onMetas (AddCephVersionLabelToDeployment X cephVersion) deployment in
  let deployment := onMetas (AddCephVersionLabelToDeployment X cephVersion) deployment in
  let deployment :=
    onMetas (fun '(m, tm) => (SetOwnerRef X m (Cluster.ownerRef c), tm)) deployment in
  let deployment :=
    onPodSpec (onScheduling (ApplyToPodSpec X (Cluster.placement c))) deployment in
  inr deployment
  end.

End Spec.

(** ** Observations on the objects that are built *)

(** The daemon container of a deployment: the first of its pod's containers. *)
Definition osdContainerOf (d : Deployment.t) : option Container.t :=
  head (PodSpec.Containers (podSpecOf d)).

(** The provisioning container of a pod template: the one named [provision]. *)
Definition provisionContainerOf (t : PodTemplateSpec.t) : option Container.t :=
  List.find (fun k => String.eqb (Container.Name k) "provision")
    (PodSpec.Containers (PodTemplateSpec.Spec t)).

(** Whether a container asks for privileged execution. *)
Definition requestsPrivileged (k : Container.t) : bool :=
  match Container.SecurityContext k with
  | Some sc => default false (SecurityContext.Privileged sc)
  | None => false
  end.

(** The values of the environment entries of a given name, in order. *)
Definition envValues (name : string) (env : list EnvVar.t) : list string :=
  List.map EnvVar.Value (List.filter (fun e => String.eqb (EnvVar.Name e) name) env).

Definition isJournalFlag (arg : string) : bool := Go.HasPrefix arg "--osd-journal=".
Definition isMemoryTargetFlag (arg : string) : bool := Go.HasPrefix arg "--osd-memory-target=".

(** The flag [devMountNeeded] of [provisionOSDContainer] as a function of
    the descriptor. *)
Definition devMountNeeded (o : OSDObject.t) : bool :=
  negb (Nat.eqb (length (OSDObject.devices o)) 0)
  || negb (String.eqb (Selection.DeviceFilter (OSDObject.selection o)) "")
  || Selection.GetUseAllDevices (OSDObject.selection o)
  || negb (String.eqb (OSDObject.metadataDevice o) "").

(** A descriptor that names no device, filter, metadata device or
    directory, does not ask for all devices and has no claim bound. *)
Definition specifiesNothing (o : OSDObject.t) : bool :=
  negb (devMountNeeded o)
  && Nat.eqb (length (Selection.Directories (OSDObject.selection o))) 0
  && String.eqb (PersistentVolumeClaimVolumeSource.ClaimName (OSDObject.pvc o)) "".

(** Whether a claim carries the identity label of a device set, set index
    and template index. *)
Definition carriesIdentity (deviceSet : string) (setIndex pvcIndex : Z)
  (p : PersistentVolumeClaim.t) : Prop :=
  PersistentVolumeClaim.GetLabels p !! PVCIdLabelKey
  = Some (fst (makeStorageClassDeviceSetPVCID deviceSet setIndex pvcIndex)).

(** ** Sample values

    One choice of the parameters and a few inputs, on which the builders
    are evaluated below.  The base volume and mount are those the comments
    of the builders describe: the data dir host path, mounted at
    /var/lib/rook. *)

Definition sampleExternals : Externals := {|
  DataDir := "/var/lib/rook";
  BinariesMountPath := "/rook";
  AppAttr := "app";
  ClusterAttr := "rook_cluster";
  PrivateIPEnvVar := "ROOK_PRIVATE_IP";
  PublicIPEnvVar := "ROOK_PUBLIC_IP";
  PathToVolumeName := fun p => "vol" +:+ p;
  PodIPEnvVar := fun n => EnvVar.mk n "" (Some (FieldRef "status.podIP"));
  ClusterDaemonEnvVars := fun image => [envVar "ROOK_CEPH_IMAGE" image];
  ConfigDirEnvVar := fun d => envVar "ROOK_CONFIG_DIR" d;
  ConfigOverrideEnvVar := envVar "ROOK_CEPH_CONFIG_OVERRIDE" "/etc/rook/config/override.conf";
  MakeRookImage := fun v => "rook/ceph:" +:+ v;
  AddPVCLabelToDeployement := fun claim '(m, tm) =>
    (ObjectMeta.mk (ObjectMeta.Name m) (ObjectMeta.GenerateName m) (ObjectMeta.Namespace m)
       (<["ceph.rook.io/pvc" := claim]> (ObjectMeta.Labels m))
       (ObjectMeta.Annotations m) (ObjectMeta.OwnerReferences m), tm);
  AddRookVersionLabelToDeployment := fun ms => ms;
  SetOwnerRef := fun m ref =>
    ObjectMeta.mk (ObjectMeta.Name m) (ObjectMeta.GenerateName m) (ObjectMeta.Namespace m)
      (ObjectMeta.Labels m) (ObjectMeta.Annotations m) [ref];
  CephVolumeMounts := [VolumeMount.mk "rook-data" "/var/lib/rook"];
  RookVolumeMounts := [VolumeMount.mk "rook-data" "/var/lib/rook"];
  PodVolumes := fun dataDirHostPath ns =>
    [Volume.mk "rook-data"
       (if String.eqb dataDirHostPath "" then EmptyDir "" else HostPath dataDirHostPath)];
  ConfigInitContainerName := "config-init";
  PodLifeCycle := fun dataPath => None;
  AddCephVersionLabelToDeployment := fun v ms => ms;
  ClusterNameEnvVar := fun ns => envVar "ROOK_CLUSTER_NAME" ns;
  EndpointEnvVar := EnvVar.mk "ROOK_MON_ENDPOINTS" "" None;
  SecretEnvVar := EnvVar.mk "ROOK_MON_SECRET" "" (Some (SecretKeyRef "rook-ceph-mon" "mon-secret"));
  AdminSecretEnvVar :=
    EnvVar.mk "ROOK_ADMIN_SECRET" "" (Some (SecretKeyRef "rook-ceph-mon" "admin-secret"));
  PodSecurityContext := Some (SecurityContext.mk (Some true) None None None);
  Bluestore := "bluestore";
  Filestore := "filestore";
  OSDsPerDeviceKey := "osdsPerDevice";
  MetadataDeviceKey := "metadataDevice";
  IsAtLeast := fun v w =>
    (CephVersion.Major w <? CephVersion.Major v)
    || (CephVersion.Major v =? CephVersion.Major w)
       && ((CephVersion.Minor w <? CephVersion.Minor v)
           || (CephVersion.Minor v =? CephVersion.Minor w)
              && (CephVersion.Extra w <=? CephVersion.Extra v));
  IsAtLeastNautilus := fun v => 14 <=? CephVersion.Major v;
  CephVersionFormatted := fun v =>
    Go.Itoa (CephVersion.Major v) +:+ "." +:+ Go.Itoa (CephVersion.Minor v) +:+ "."
    +:+ Go.Itoa (CephVersion.Extra v);
  LocationEnvVar := fun l => envVar "ROOK_LOCATION" l;
  ApplyToObjectMeta := fun a m =>
    ObjectMeta.mk (ObjectMeta.Name m) (ObjectMeta.GenerateName m) (ObjectMeta.Namespace m)
      (ObjectMeta.Labels m) (a ∪ ObjectMeta.Annotations m) (ObjectMeta.OwnerReferences m);
  ApplyToPodSpec := fun p s => s;
  appName := "rook-ceph-osd";
  prepareAppName := "rook-ceph-osd-prepare";
  osdAppName := fun id => "rook-ceph-osd-" +:+ Go.Itoa id;
  osdLabelKey := "ceph-osd-id";
  serviceAccountName := "rook-ceph-osd";
  IsRemovingNode := fun filter => String.eqb filter "none";
  FormatMemoryTarget := fun v => Go.Itoa (v * 8 / 10) +:+ ".000000" |}.

Definition noPlacement : Placement.t := Placement.mk None None None [].

(** A cluster running a release before Nautilus, with a memory limit. *)
Definition sampleCluster : Cluster.t :=
  Cluster.mk "rook-ceph" "/var/lib/rook" false "ceph/ceph:v13.2.4" "v1.1.0"
    (CephVersion.mk 13 2 4)
    (ResourceRequirements.mk {["memory" := 4294967296]} ∅)
    (OwnerReference.mk "CephCluster" "rook-ceph" "uid-1") ∅ noPlacement ∅.

Definition noStoreConfig : StoreConfig.t := StoreConfig.mk "" 0 0 0 0 false.
Definition noSelection : Selection.t := Selection.mk None "" [].
Definition noClaim : PersistentVolumeClaimVolumeSource.t :=
  PersistentVolumeClaimVolumeSource.mk "" false.

(** A descriptor that specifies nothing. *)
Definition bareNode : OSDObject.t :=
  OSDObject.mk "node1" [] noSelection noResources noStoreConfig noPlacement "" "" noClaim.

(** A descriptor with an explicit device list. *)
Definition nodeWithDevices (devices : list Device.t) : OSDObject.t :=
  OSDObject.mk "node1" devices noSelection noResources noStoreConfig noPlacement "" ""
    noClaim.

(** Runtime information of worker 3, by store, placement and initiation. *)
Definition sampleOSD (isFileStore isDirectory cephVolumeInitiated : bool) : OSDInfo.t :=
  OSDInfo.mk 3 "/data/osd3" "/data/osd3/rook-ceph.config" "ceph"
    "/data/osd3/keyring" "6f1c" "/data/osd3/journal" isFileStore isDirectory
    "8a2e" cephVolumeInitiated.

Definition sampleTemplate : PersistentVolumeClaim.t :=
  PersistentVolumeClaim.mk (ObjectMeta.mk "data" "" "" ∅ ∅ [])
    (PersistentVolumeClaimSpec.mk "gp2" ["ReadWriteOnce"] 10).

Definition sampleDeviceSet (templates : list PersistentVolumeClaim.t)
  : StorageClassDeviceSet.t :=
  StorageClassDeviceSet.mk "set1" 3 noResources noPlacement ∅ templates.

Definition emptyServer : ApiServer.t := ApiServer.mk [] 0.

(** A claim as a store holds it, carrying the identity label [id]. *)
Definition claimWithIdentity (name id : string) : PersistentVolumeClaim.t :=
  PersistentVolumeClaim.mk
    (ObjectMeta.mk name "" "rook-ceph" {[PVCIdLabelKey := id]} ∅ [])
    (PersistentVolumeClaimSpec.mk "gp2" ["ReadWriteOnce"] 10).

(** A store in which two claims carry the identity of set 0 of [set1]. *)
Definition duplicatedServer : ApiServer.t :=
  ApiServer.mk [claimWithIdentity "set1-0-0-data-a" "set1-0-0";
                claimWithIdentity "set1-0-0-data-b" "set1-0-0"] 2.

(** The daemon container of what [makeDeployment] returned, and the
    provisioning container of what [provisionPodTemplateSpec] returned. *)
Definition daemonOf (r : osdError + Deployment.t) : option Container.t :=
  match r with inr d => osdContainerOf d | inl _ => None end.

Definition provisionOf (r : osdError + PodTemplateSpec.t) : option Container.t :=
  match r with inr t => provisionContainerOf t | inl _ => None end.

(** The strings of the runtime information that reach the argument list
    as operands of other flags. *)
Definition operands (osd : OSDInfo.t) : list string :=
  [ OSDInfo.Config osd; OSDInfo.DataPath osd; OSDInfo.KeyringPath osd;
    OSDInfo.Cluster osd; OSDInfo.UUID osd ].

(** A template that sets the identity label key itself. *)
Definition overridingTemplate : PersistentVolumeClaim.t :=
  PersistentVolumeClaim.mk (ObjectMeta.mk "data" "" "" {[PVCIdLabelKey := "mine"]} ∅ [])
    (PersistentVolumeClaimSpec.mk "gp2" ["ReadWriteOnce"] 10).

(** ** The rest of the package: readers of a container, the provisioning
    job, the device sets of a cluster *)

(** [strings.Split] with a separator of one character. *)
Module GoStrings.

Fixpoint splitAt (sep : ascii) (cur s : string) : list string :=
  match s with
  | EmptyString => [cur]
  | String c r =>
      if Ascii.eqb c sep then cur :: splitAt sep "" r
      else splitAt sep (cur +:+ String c "") r
  end.

Definition Split (s : string) (sep : ascii) : list string := splitAt sep "" s.

(** Whether a character occurs in a string. *)
Fixpoint contains (sep : ascii) (s : string) : bool :=
  match s with
  | EmptyString => false
  | String c r => Ascii.eqb c sep || contains sep r
  end.

End GoStrings.

(** [batch.Job], with the fields the package writes. *)
Module Job.
Record t : Type := mk { ObjectMeta : ObjectMeta.t; Template : PodTemplateSpec.t }.
End Job.

(** [rookalpha.VolumeSource]: a claim-backed place for a worker. *)
Module RookVolumeSource.
Record t : Type := mk {
  Name : string;
  Resources : ResourceRequirements.t;
  Placement : Placement.t;
  Config : gmap string string;
  PersistentVolumeClaimSource : PersistentVolumeClaimVolumeSource.t }.
End RookVolumeSource.

(** What these functions take from their neighbours, besides [Externals]:
    the remaining keys of package config, the helpers of the job, and the
    memory check of the device sets. *)
Record MoreExternals : Type := {
  (* config *)
  StoreTypeKey : string;
  DatabaseSizeMBKey : string;
  WalSizeMBKey : string;
  JournalSizeMBKey : string;
  (* k8sutil, opspec *)
  TruncatedPrepareName : string -> string;   (* TruncateNodeName(prepareAppNameFmt, name) *)
  AddPVCLabelToJob : string -> Metas -> Metas;
  AddRookVersionLabelToJob : Metas -> Metas;
  AddCephVersionLabelToJob : CephVersion.t -> Metas -> Metas;
  CheckPodMemory : ResourceRequirements.t -> Z -> option string;
  (* package osd, other files *)
  cephOsdPodMinimumMemory : Z }.

(** Editing the metadata of a job and of its pod template. *)
Definition onJobMetas (f : Metas -> Metas) (j : Job.t) : Job.t :=
  let tmpl := Job.Template j in
  let '(m, tm) := f (Job.ObjectMeta j, PodTemplateSpec.ObjectMeta tmpl) in
  Job.mk m (PodTemplateSpec.mk tm (PodTemplateSpec.Spec tmpl)).

(** [spec.NodeSelector = sel] and [spec.InitContainers = inits]. *)
Definition setSelectorAndInits (sel : gmap string string) (inits : list Container.t)
  (p : PodSpec.t) : PodSpec.t :=
  PodSpec.mk (PodSpec.Affinity p) (PodSpec.Tolerations p) sel (PodSpec.RestartPolicy p)
    (PodSpec.ServiceAccountName p) (PodSpec.HostNetwork p) (PodSpec.HostPID p)
    (PodSpec.HostIPC p) (PodSpec.DNSPolicy p) inits
    (PodSpec.Containers p) (PodSpec.Volumes p).

(** The messages [config.addError] is given by [prepareStorageClassDeviceSets]. *)
Inductive provisionErrorMessage : Type :=
| MsgCannotUseDeviceSet (deviceSet : string) (err : string)
    (* "cannot use storageClassDeviceSet %s for creating osds %v" *)
| MsgError (err : osdError)
    (* "%+v" *)
| MsgOSDCreationFailed (deviceSet : string) (setIndex : Z).
    (* "OSD creation for storageClassDeviceSet %v failed for count %v" *)

Section Rest.

Variable X : Externals.
Variable Y : MoreExternals.

Definition makeJob (c : Cluster.t) (osdObject : OSDObject.t) : osdError + Job.t :=
  match provisionPodTemplateSpec X c osdObject RestartPolicyOnFailure with
  | inl err => inl err
  | inr podSpec =>
      let claimName :=
        PersistentVolumeClaimVolumeSource.ClaimName (OSDObject.pvc osdObject) in
      let podSpec :=
        if String.eqb claimName "" then
          PodTemplateSpec.mk (PodTemplateSpec.ObjectMeta podSpec)
            (setSelectorAndInits (<[LabelHostname := OSDObject.name osdObject]> ∅)
               (PodSpec.InitContainers (PodTemplateSpec.Spec podSpec))
               (PodTemplateSpec.Spec podSpec))
        else
          PodTemplateSpec.mk (PodTemplateSpec.ObjectMeta podSpec)
            (setSelectorAndInits ∅ [getInitContainers X c (OSDObject.pvc osdObject)]
               (PodTemplateSpec.Spec podSpec)) in
      let job :=
        Job.mk
          (ObjectMeta.mk (TruncatedPrepareName Y (OSDObject.name osdObject)) ""
             (Cluster.Namespace c)
             (<[AppAttr X := prepareAppName X]>
                (<[ClusterAttr X := Cluster.Namespace c]> ∅))
             ∅ [])
          podSpec in
      let job :=
        if negb (Nat.eqb (String.length claimName) 0)
        then onJobMetas (AddPVCLabelToJob Y claimName) job
        else job in
      let job := onJobMetas (AddRookVersionLabelToJob Y) job in
      let job :=
        onJobMetas (AddCephVersionLabelToJob Y (Cluster.clusterInfoCephVersion c)) job in
      let job :=
        onJobMetas (fun '(m, tm) => (SetOwnerRef X m (Cluster.ownerRef c), tm)) job in
      inr job
  end.

Definition getDirectoriesFromContainer (osdContainer : Container.t) : list Directory.t :=
  let dirsArg :=
    fold_left
      (fun dirsArg envVar =>
         if String.eqb (EnvVar.Name envVar) dataDirsEnvVarName
         then EnvVar.Value envVar else dirsArg)
      (Container.Env osdContainer) "" in
  let dirsList : list string :=
    if negb (String.eqb dirsArg "") then GoStrings.Split dirsArg "," else [] in
  List.map (fun dir => Directory.mk dir ∅) dirsList.

(** The body of the loop of [getConfigFromContainer]: the switch on the
    name of the variable. *)
Definition readConfigVar (cfg : gmap string string) (envVar : EnvVar.t)
  : gmap string string :=
  let name := EnvVar.Name envVar in
  if String.eqb name osdStoreEnvVarName
  then <[StoreTypeKey Y := EnvVar.Value envVar]> cfg
  else if String.eqb name osdDatabaseSizeEnvVarName
  then <[DatabaseSizeMBKey Y := EnvVar.Value envVar]> cfg
  else if String.eqb name osdWalSizeEnvVarName
  then <[WalSizeMBKey Y := EnvVar.Value envVar]> cfg
  else if String.eqb name osdJournalSizeEnvVarName
  then <[JournalSizeMBKey Y := EnvVar.Value envVar]> cfg
  else if String.eqb name osdMetadataDeviceEnvVarName
  then <[MetadataDeviceKey X := EnvVar.Value envVar]> cfg
  else cfg.

Definition getConfigFromContainer (osdContainer : Container.t) : gmap string string :=
  let cfg : gmap string string := ∅ in
  fold_left readConfigVar (Container.Env osdContainer) cfg.

(** The state [prepareStorageClassDeviceSets] builds up: the volume
    sources it returns and the messages it adds to its [config]. *)
Definition Prepared : Type := (list RookVolumeSource.t * list provisionErrorMessage)%type.

(** The body of the loop over the set indices of one device set. *)
Definition prepareSetIndex (c : Cluster.t) (storageClassDeviceSet : StorageClassDeviceSet.t)
  (st : Prepared) (setIndex : Z) : Client Prepared :=
  let '(volumeSources, errors) := st in
  r ← createStorageClassDeviceSetPVC c storageClassDeviceSet setIndex;
  match r with
  | inl err =>
      Ret (volumeSources,
           errors ++ [MsgError err;
                      MsgOSDCreationFailed (StorageClassDeviceSet.Name storageClassDeviceSet)
                        setIndex])
  | inr pvc =>
      Ret (volumeSources ++
             [RookVolumeSource.mk
                (StorageClassDeviceSet.Name storageClassDeviceSet)
                (StorageClassDeviceSet.Resources storageClassDeviceSet)
                (StorageClassDeviceSet.Placement storageClassDeviceSet)
                (StorageClassDeviceSet.Config storageClassDeviceSet)
                (PersistentVolumeClaimVolumeSource.mk
                   (PersistentVolumeClaim.GetName pvc) false)],
           errors)
  end.

(** A loop whose body calls the client. *)
Fixpoint forEach {A S : Type} (body : S -> A -> Client S) (l : list A) (st : S)
  : Client S :=
  match l with
  | [] => Ret st
  | a :: rest => st' ← body st a; forEach body rest st'
  end.

(** The body of the loop over the device sets. *)
Definition prepareDeviceSet (c : Cluster.t) (st : Prepared)
  (storageClassDeviceSet : StorageClassDeviceSet.t) : Client Prepared :=
  match CheckPodMemory Y (StorageClassDeviceSet.Resources storageClassDeviceSet)
          (cephOsdPodMinimumMemory Y) with
  | Some err =>
      Ret (fst st,
           snd st ++ [MsgCannotUseDeviceSet
                        (StorageClassDeviceSet.Name storageClassDeviceSet) err])
  | None =>
      (* for setIndex := 0; setIndex < storageClassDeviceSet.Count; setIndex++ *)
      forEach (prepareSetIndex c storageClassDeviceSet)
        (seqZ 0 (StorageClassDeviceSet.Count storageClassDeviceSet)) st
  end.

(** [c.DesiredStorage.StorageClassDeviceSets] is given as [deviceSets],
    the errors already in [config] as [errors]. *)
Definition prepareStorageClassDeviceSets (c : Cluster.t)
  (deviceSets : list StorageClassDeviceSet.t) (errors : list provisionErrorMessage)
  : Client Prepared :=
  let volumeSources : list RookVolumeSource.t := [] in
  forEach (prepareDeviceSet c) deviceSets (volumeSources, errors).

End Rest.

(** ** More observations and sample values *)

(** Whether a variable is one of those [getConfigFromContainer] reads. *)
Definition isStoreVariable (e : EnvVar.t) : bool :=
  existsb (String.eqb (EnvVar.Name e))
    [ osdStoreEnvVarName; osdDatabaseSizeEnvVarName; osdWalSizeEnvVarName;
      osdJournalSizeEnvVarName; osdMetadataDeviceEnvVarName ].

(** The variables that [getConfigEnvVars] takes from other packages. *)
Definition externalConfigEnv (X : Externals) (c : Cluster.t) (dataDir location : string)
  : list EnvVar.t :=
  [ PodIPEnvVar X (PrivateIPEnvVar X); PodIPEnvVar X (PublicIPEnvVar X);
    ClusterNameEnvVar X (Cluster.Namespace c); EndpointEnvVar X; SecretEnvVar X;
    AdminSecretEnvVar X; ConfigDirEnvVar X dataDir; ConfigOverrideEnvVar X;
    LocationEnvVar X location ].

Definition sampleMoreExternals : MoreExternals := {|
  StoreTypeKey := "storeType";
  DatabaseSizeMBKey := "databaseSizeMB";
  WalSizeMBKey := "walSizeMB";
  JournalSizeMBKey := "journalSizeMB";
  TruncatedPrepareName := fun name => "rook-ceph-osd-prepare-" +:+ name;
  AddPVCLabelToJob := fun claim '(m, tm) =>
    (ObjectMeta.mk (ObjectMeta.Name m) (ObjectMeta.GenerateName m) (ObjectMeta.Namespace m)
       (<["ceph.rook.io/pvc" := claim]> (ObjectMeta.Labels m))
       (ObjectMeta.Annotations m) (ObjectMeta.OwnerReferences m), tm);
  AddRookVersionLabelToJob := fun ms => ms;
  AddCephVersionLabelToJob := fun v ms => ms;
  CheckPodMemory := fun r minimum =>
    let limit := ResourceRequirements.LimitsMemory r in
    if negb (limit =? 0) && (limit <? minimum) then Some "memory limit too low" else None;
  cephOsdPodMinimumMemory := 4096 |}.

(** A descriptor with directories. *)
Definition nodeWithDirectories (dirs : list Directory.t) : OSDObject.t :=
  OSDObject.mk "node1" [] (Selection.mk None "" dirs) noResources noStoreConfig
    noPlacement "" "" noClaim.

(** A descriptor with a store configuration and a metadata device. *)
Definition nodeWithStore (storeConfig : StoreConfig.t) (metadataDevice : string)
  : OSDObject.t :=
  OSDObject.mk "node1" [] noSelection noResources storeConfig noPlacement
    metadataDevice "" noClaim.

(** A descriptor backed by a claim; its name is the name of the claim. *)
Definition nodeWithClaim (claim : string) : OSDObject.t :=
  OSDObject.mk claim [] noSelection noResources noStoreConfig noPlacement "" ""
    (PersistentVolumeClaimVolumeSource.mk claim false).

(** A descriptor named after a node and backed by a claim. *)
Definition nodeBackedByClaim (name claim : string) : OSDObject.t :=
  OSDObject.mk name [] noSelection noResources noStoreConfig noPlacement "" ""
    (PersistentVolumeClaimVolumeSource.mk claim false).

(** Whether a volume of a pod is backed by a claim. *)
Definition claimBacked (v : Volume.t) : bool :=
  match Volume.Source v with
  | PersistentVolumeClaimSource _ => true
  | _ => false
  end.

(** A cluster on Nautilus 14.2.4, without host networking. *)
Definition nautilusCluster : Cluster.t :=
  Cluster.mk "rook-ceph" "/var/lib/rook" false "ceph/ceph:v14.2.4" "v1.1.0"
    (CephVersion.mk 14 2 4)
    (ResourceRequirements.mk {["memory" := 4294967296]} ∅)
    (OwnerReference.mk "CephCluster" "rook-ceph" "uid-1") ∅ noPlacement ∅.

(** The count the accounting of [prepareStorageClassDeviceSets] keeps:
    twice the volume sources plus the messages. *)
Definition settled (st : Prepared) : nat := (2 * length (fst st) + length (snd st))%nat.

(** What a device set adds to that count: one message when it is turned
    down for its memory, two for each of its set indices otherwise. *)
Definition deviceSetWeight (Y : MoreExternals) (ds : StorageClassDeviceSet.t) : nat :=
  match CheckPodMemory Y (StorageClassDeviceSet.Resources ds) (cephOsdPodMinimumMemory Y) with
  | Some _ => 1%nat
  | None => (2 * Z.to_nat (StorageClassDeviceSet.Count ds))%nat
  end.

(** A device set that asks for less memory than a worker needs. *)
Definition starvedDeviceSet : StorageClassDeviceSet.t :=
  StorageClassDeviceSet.mk "small" 4
    (ResourceRequirements.mk {["memory" := 1024]} ∅) noPlacement ∅ [sampleTemplate].

(** The volume source [prepareStorageClassDeviceSets] makes of a device
    set and the claim allocated for one of its set indices. *)
Definition sourceOf (ds : StorageClassDeviceSet.t) (pvc : PersistentVolumeClaim.t)
  : RookVolumeSource.t :=
  RookVolumeSource.mk (StorageClassDeviceSet.Name ds) (StorageClassDeviceSet.Resources ds)
    (StorageClassDeviceSet.Placement ds) (StorageClassDeviceSet.Config ds)
    (PersistentVolumeClaimVolumeSource.mk (PersistentVolumeClaim.GetName pvc) false).

(** A claim of the cluster's namespace that carries the identity of a set
    index of a device set. *)
Definition claimOf (c : Cluster.t) (deviceSet : string) (setIndex : Z)
  (p : PersistentVolumeClaim.t) : Prop :=
  ObjectMeta.Namespace (PersistentVolumeClaim.ObjectMeta p) = Cluster.Namespace c
  /\ carriesIdentity deviceSet setIndex 0 p.

(** A descriptor with its directories replaced. *)
Definition withDirectories (o : OSDObject.t) (dirs : list Directory.t) : OSDObject.t :=
  OSDObject.mk (OSDObject.name o) (OSDObject.devices o)
    (Selection.mk (Selection.UseAllDevices (OSDObject.selection o))
       (Selection.DeviceFilter (OSDObject.selection o)) dirs)
    (OSDObject.resources o) (OSDObject.storeConfig o) (OSDObject.placement o)
    (OSDObject.metadataDevice o) (OSDObject.location o) (OSDObject.pvc o).
(** * Properties *)

(** ** The Go library functions on sample arguments *)

Example Join_two : Go.Join ["sdb:1"; "sdc:1"] "," = "sdb:1,sdc:1".
Proof. reflexivity. Qed.

Example Itoa_samples : Go.Itoa 0 = "0" /\ Go.Itoa 12 = "12" /\ Go.Itoa (-7) = "-7".
Proof. repeat split; vm_compute; reflexivity. Qed.

Example Clean_samples :
  Go.Clean "a//b/./c/.." = "a/b" /\ Go.Clean "/../a" = "/a" /\
  Go.Clean "a/../.." = ".." /\ Go.Clean "" = "." /\ Go.Clean "/" = "/".
Proof. repeat split; reflexivity. Qed.

Example PathJoin_samples :
  Go.PathJoin ["/rook"; "tini"] = "/rook/tini" /\
  Go.PathJoin ["/dev/disk/by-partuuid"; ""] = "/dev/disk/by-partuuid" /\
  Go.PathJoin [""; ""] = "".
Proof. repeat split; reflexivity. Qed.

Example Dir_samples :
  Go.Dir "/var/lib/rook/osd0" = "/var/lib/rook" /\ Go.Dir "osd0" = "." /\
  Go.Dir "/osd0" = "/" /\ Go.Dir "/data/" = "/data".
Proof. repeat split; reflexivity. Qed.

(** ** The Volume Claim Allocator *)

(** The selector of an identity asks for the identity label. *)
Lemma selectorMatches_identity (id : string) (labels : gmap string string) :
  selectorMatches ("ceph.rook.io/StorageClassDeviceSetPVCId=" +:+ id) labels
  = bool_decide (labels !! PVCIdLabelKey = Some id).
Proof. reflexivity. Qed.

Lemma selected_identity ns name i p :
  selected ns (snd (makeStorageClassDeviceSetPVCID name i 0)) p = true <->
  ObjectMeta.Namespace (PersistentVolumeClaim.ObjectMeta p) = ns /\ carriesIdentity name i 0 p.
Proof.
  unfold selected, carriesIdentity. cbn [snd fst makeStorageClassDeviceSetPVCID].
  rewrite selectorMatches_identity, andb_true_iff, String.eqb_eq, bool_decide_eq_true.
  reflexivity.
Qed.

(** The procedure of the allocator for a device set with a first template,
    with the calls to the client laid out. *)
Lemma createStorageClassDeviceSetPVC_unfold c ds i t rest :
  StorageClassDeviceSet.VolumeClaimTemplates ds = t :: rest ->
  let name := StorageClassDeviceSet.Name ds in
  let ns := Cluster.Namespace c in
  let id := fst (makeStorageClassDeviceSetPVCID name i 0) in
  let sel := snd (makeStorageClassDeviceSetPVCID name i 0) in
  let pvc := makeStorageClassDeviceSetPVC name id 0 i t in
  createStorageClassDeviceSetPVC c ds i =
  ListCall ns sel (fun listed =>
    match listed with
    | inl err => Ret (inl (ErrFailedToCreatePVC (PersistentVolumeClaim.GetGenerateName pvc) name err))
    | inr presentPVCs =>
        if Nat.eqb (length presentPVCs) 0 then
          CreateCall ns pvc (fun created =>
            match created with
            | inl err => Ret (inl (ErrFailedToCreatePVC (PersistentVolumeClaim.GetGenerateName pvc) name err))
            | inr deployedPVC => Ret (inr deployedPVC)
            end)
        else if Nat.eqb (length presentPVCs) 1 then Ret (firstDeployed presentPVCs)
        else Ret (inl (ErrMoreThanOnePVC sel presentPVCs))
    end).
Proof.
  intros Ht. unfold createStorageClassDeviceSetPVC. rewrite Ht. reflexivity.
Qed.

(** Two places of a list that hold selected elements leave at least two
    elements in the filtered list. *)
Lemma filter_two_selected {A} (P : A -> bool) (l : list A) (i j : nat) (x y : A) :
  l !! i = Some x -> l !! j = Some y -> i <> j -> P x = true -> P y = true ->
  (2 <= length (List.filter P l))%nat.
Proof.
  revert i j. induction l as [|a l IH]; intros i j Hi Hj Hne Hx Hy.
  - rewrite lookup_nil in Hi. discriminate.
  - destruct i as [|i], j as [|j]; cbn in Hi, Hj.
    + congruence.
    + injection Hi as ->. cbn. rewrite Hx. cbn.
      assert (In y (List.filter P l)) as Hin.
      { apply filter_In. split; [|exact Hy]. apply list_elem_of_In.
        eapply list_elem_of_lookup_2; eassumption. }
      destruct (List.filter P l); [destruct Hin | cbn; lia].
    + injection Hj as ->. cbn. rewrite Hy. cbn.
      assert (In x (List.filter P l)) as Hin.
      { apply filter_In. split; [|exact Hx]. apply list_elem_of_In.
        eapply list_elem_of_lookup_2; eassumption. }
      destruct (List.filter P l); [destruct Hin | cbn; lia].
    + assert (2 <= length (List.filter P l))%nat by (eapply (IH i j); eauto).
      cbn. destruct (P a); cbn; lia.
Qed.


(** After a successful [Create] of a claim that carries the identity label,
    the store that had no selected claim has exactly that one. *)
Lemma serveList_after_create srv ns sel p :
  serveList srv ns sel = [] -> selected ns sel p = true ->
  serveList (ApiServer.mk (ApiServer.claims srv ++ [p]) (S (ApiServer.generated srv))) ns sel
  = [p].
Proof.
  unfold serveList. cbn. intros Hnone Hsel.
  rewrite List.filter_app, Hnone. cbn. rewrite Hsel. reflexivity.
Qed.

(** C10: for a device set without a volume claim template the allocator
    is the immediate return of the "No PVC available" error: it issues no
    list and no create request and leaves the store as it was. *)
Theorem allocator_no_template_no_call (c : Cluster.t) (ds : StorageClassDeviceSet.t)
  (setIndex : Z) :
  StorageClassDeviceSet.VolumeClaimTemplates ds = [] ->
  createStorageClassDeviceSetPVC c ds setIndex
    = Ret (inl (ErrNoPVCAvailable (StorageClassDeviceSet.Name ds)))
  /\ forall (faults : Faults) (srv : ApiServer.t),
       run faults (createStorageClassDeviceSetPVC c ds setIndex) srv
       = (inl (ErrNoPVCAvailable (StorageClassDeviceSet.Name ds)), srv, []).
Proof.
  intros Hnone. unfold createStorageClassDeviceSetPVC. rewrite Hnone.
  split; [reflexivity | intros; reflexivity].
Qed.

(** The sample device set without templates, at set index 2. *)
Lemma allocator_no_template_no_call_witness :
  createStorageClassDeviceSetPVC sampleCluster (sampleDeviceSet []) 2
    = Ret (inl (ErrNoPVCAvailable "set1"))
  /\ forall (faults : Faults) (srv : ApiServer.t),
       run faults (createStorageClassDeviceSetPVC sampleCluster (sampleDeviceSet []) 2) srv
       = (inl (ErrNoPVCAvailable "set1"), srv, []).
Proof.
  exact (allocator_no_template_no_call sampleCluster (sampleDeviceSet []) 2 eq_refl).
Defined.

(** C5: when two claims of the cluster's namespace carry the identity label
    derived for the device set and set index, a call that reaches the store
    and gets its list answered returns the "more than one PVCs" error, which
    is neither the error of a failed store call nor a claim; the only
    request issued is the list, and the store is unchanged. *)
Theorem allocator_ambiguous_state (c : Cluster.t) (ds : StorageClassDeviceSet.t)
  (setIndex : Z) (faults : Faults) (srv : ApiServer.t)
  (i j : nat) (p q : PersistentVolumeClaim.t) :
  let name := StorageClassDeviceSet.Name ds in
  let ns := Cluster.Namespace c in
  let sel := snd (makeStorageClassDeviceSetPVCID name setIndex 0) in
  StorageClassDeviceSet.VolumeClaimTemplates ds <> [] ->
  faults srv (ReqList ns sel) = None ->
  ApiServer.claims srv !! i = Some p -> ApiServer.claims srv !! j = Some q -> i <> j ->
  ObjectMeta.Namespace (PersistentVolumeClaim.ObjectMeta p) = ns ->
  ObjectMeta.Namespace (PersistentVolumeClaim.ObjectMeta q) = ns ->
  carriesIdentity name setIndex 0 p -> carriesIdentity name setIndex 0 q ->
  exists present,
    run faults (createStorageClassDeviceSetPVC c ds setIndex) srv
      = (inl (ErrMoreThanOnePVC sel present), srv, [ReqList ns sel])
    /\ In p present /\ In q present.
Proof.
  intros name ns sel Htpl Hlist Hp Hq Hne Hnsp Hnsq Hidp Hidq.
  destruct (StorageClassDeviceSet.VolumeClaimTemplates ds) as [|t rest] eqn:Ht;
    [congruence|].
  rewrite (createStorageClassDeviceSetPVC_unfold c ds setIndex t rest Ht).
  fold name ns sel. cbn [run]. rewrite Hlist.
  assert (selected ns sel p = true) as Hsp by (apply selected_identity; auto).
  assert (selected ns sel q = true) as Hsq by (apply selected_identity; auto).
  pose proof (filter_two_selected (selected ns sel) _ i j p q Hp Hq Hne Hsp Hsq) as Hlen.
  fold (serveList srv ns sel) in Hlen.
  assert (In p (serveList srv ns sel) /\ In q (serveList srv ns sel)) as Hin.
  { split; apply filter_In; (split; [|assumption]); apply list_elem_of_In;
      eapply list_elem_of_lookup_2; eassumption. }
  exists (serveList srv ns sel). split; [|exact Hin].
  destruct (serveList srv ns sel) as [|a [|b l]]; cbn in Hlen; try lia.
  reflexivity.
Qed.

(** The store with two claims under the identity of set 0 of [set1]. *)
Lemma allocator_ambiguous_state_witness :
  exists present,
    run noFaults (createStorageClassDeviceSetPVC sampleCluster
                    (sampleDeviceSet [sampleTemplate]) 0) duplicatedServer
      = (inl (ErrMoreThanOnePVC "ceph.rook.io/StorageClassDeviceSetPVCId=set1-0-0" present),
         duplicatedServer,
         [ReqList "rook-ceph" "ceph.rook.io/StorageClassDeviceSetPVCId=set1-0-0"])
    /\ In (claimWithIdentity "set1-0-0-data-a" "set1-0-0") present
    /\ In (claimWithIdentity "set1-0-0-data-b" "set1-0-0") present.
Proof.
  apply (allocator_ambiguous_state sampleCluster (sampleDeviceSet [sampleTemplate]) 0
           noFaults duplicatedServer 0%nat 1%nat
           (claimWithIdentity "set1-0-0-data-a" "set1-0-0")
           (claimWithIdentity "set1-0-0-data-b" "set1-0-0")).
  - discriminate.
  - reflexivity.
  - reflexivity.
  - reflexivity.
  - lia.
  - reflexivity.
  - reflexivity.
  - vm_compute. reflexivity.
  - vm_compute. reflexivity.
Defined.

(** C9: the allocator reads the first volume claim template only and uses
    the template index 0.  Its procedure is the one of the device set cut
    down to that template; it lists under the identity of (name, set index,
    0) and issues at most one create request, for the claim made from the
    first template under that identity. *)
Theorem allocator_first_template_only (c : Cluster.t) (ds : StorageClassDeviceSet.t)
  (setIndex : Z) (t : PersistentVolumeClaim.t) (rest : list PersistentVolumeClaim.t) :
  let name := StorageClassDeviceSet.Name ds in
  let ns := Cluster.Namespace c in
  let id := name +:+ "-" +:+ Go.Itoa setIndex +:+ "-0" in
  let sel := "ceph.rook.io/StorageClassDeviceSetPVCId=" +:+ id in
  let pvc := makeStorageClassDeviceSetPVC name id 0 setIndex t in
  StorageClassDeviceSet.VolumeClaimTemplates ds = t :: rest ->
  createStorageClassDeviceSetPVC c ds setIndex
    = createStorageClassDeviceSetPVC c
        (StorageClassDeviceSet.mk name (StorageClassDeviceSet.Count ds)
           (StorageClassDeviceSet.Resources ds) (StorageClassDeviceSet.Placement ds)
           (StorageClassDeviceSet.Config ds) [t]) setIndex
  /\ forall (faults : Faults) (srv : ApiServer.t),
       let '(_, srv', log) := run faults (createStorageClassDeviceSetPVC c ds setIndex) srv in
       (log = [ReqList ns sel] /\ srv' = srv)
       \/ (log = [ReqList ns sel; ReqCreate ns pvc]
           /\ (srv' = srv \/ srv' = snd (serveCreate srv ns pvc))).
Proof.
  intros name ns id sel pvc Ht. split.
  - unfold createStorageClassDeviceSetPVC. rewrite Ht. reflexivity.
  - intros faults srv.
    rewrite (createStorageClassDeviceSetPVC_unfold c ds setIndex t rest Ht).
    change (snd (makeStorageClassDeviceSetPVCID (StorageClassDeviceSet.Name ds) setIndex 0))
      with sel.
    change (fst (makeStorageClassDeviceSetPVCID (StorageClassDeviceSet.Name ds) setIndex 0))
      with id.
    fold name ns pvc. cbn [run].
    destruct (faults srv (ReqList ns sel)); cbn; [left; auto|].
    destruct (serveList srv ns sel) as [|a [|b l]]; cbn; [|left; auto|left; auto].
    destruct (faults srv (ReqCreate ns pvc)); cbn; right; auto.
Qed.

(** A device set with a second template, at set index 1. *)
Lemma allocator_first_template_only_witness :
  createStorageClassDeviceSetPVC sampleCluster
    (sampleDeviceSet [sampleTemplate; claimWithIdentity "other" "x"]) 1
  = createStorageClassDeviceSetPVC sampleCluster (sampleDeviceSet [sampleTemplate]) 1.
Proof.
  exact (proj1 (allocator_first_template_only sampleCluster
                  (sampleDeviceSet [sampleTemplate; claimWithIdentity "other" "x"]) 1
                  sampleTemplate [claimWithIdentity "other" "x"] eq_refl)).
Defined.

(** ** The manifest builders *)

Lemma length_snoc_eqb {A : Type} (l : list A) (x : A) :
  Nat.eqb (length (l ++ [x])) 0 = false.
Proof. rewrite length_app. cbn. apply Nat.eqb_neq. lia. Qed.

(** The edits made after the deployment is assembled leave the containers
    and the volumes of its pod as they are. *)
Lemma podSpecOf_onMetas f d : podSpecOf (onMetas f d) = podSpecOf d.
Proof. unfold onMetas, podSpecOf. destruct (f _). reflexivity. Qed.

Lemma podSpecOf_onPodSpec g d : podSpecOf (onPodSpec g d) = g (podSpecOf d).
Proof. reflexivity. Qed.

Lemma Containers_onScheduling f p :
  PodSpec.Containers (onScheduling f p) = PodSpec.Containers p.
Proof. unfold onScheduling. destruct (f _). reflexivity. Qed.

Lemma Volumes_onScheduling f p : PodSpec.Volumes (onScheduling f p) = PodSpec.Volumes p.
Proof. unfold onScheduling. destruct (f _). reflexivity. Qed.

Lemma Containers_setNodeSelector sel extra p :
  PodSpec.Containers (setNodeSelector sel extra p) = PodSpec.Containers p.
Proof. reflexivity. Qed.

Lemma Volumes_setNodeSelector sel extra p :
  PodSpec.Volumes (setNodeSelector sel extra p) = PodSpec.Volumes p.
Proof. reflexivity. Qed.

Arguments onMetas : simpl never.
Arguments onPodSpec : simpl never.
Arguments onScheduling : simpl never.
Arguments setNodeSelector : simpl never.
Arguments podSpecOf : simpl never.
Arguments osdOnSDNFlag : simpl never.
Arguments getConfigEnvVars : simpl never.
Arguments getInitContainers : simpl never.
Arguments Go.PathJoin : simpl never.
Arguments Go.Dir : simpl never.
Arguments Go.Itoa : simpl never.
Arguments String.append : simpl never.

(** Looks through those edits. *)
Ltac through_edits :=
  repeat first
    [ rewrite podSpecOf_onMetas
    | rewrite podSpecOf_onPodSpec
    | rewrite Containers_onScheduling
    | rewrite Volumes_onScheduling
    | rewrite Containers_setNodeSelector
    | rewrite Volumes_setNodeSelector ].

(** The daemon container of a deployment that was built: it is the only
    container of the pod, it is privileged, and its command line is chosen
    among three forms. *)
Lemma makeDeployment_daemon_container X c o osd d :
  makeDeployment X c o osd = inr d ->
  let v := Cluster.clusterInfoCephVersion c in
  let mem := ResourceRequirements.LimitsMemory (Cluster.resources c) in
  let osdID := Go.Itoa (OSDInfo.ID osd) in
  let memoryTarget :=
    if negb (OSDInfo.IsFileStore osd) && negb (IsAtLeastNautilus X v) && negb (mem =? 0)
    then ["--osd-memory-target=" +:+ FormatMemoryTarget X mem] else [] in
  let journal :=
    if OSDInfo.IsFileStore osd then ["--osd-journal=" +:+ OSDInfo.Journal osd] else [] in
  let logToFile :=
    if IsAtLeast X v (CephVersion.mk 14 2 1) then ["--default-log-to-file"; "false"]
    else [] in
  let sdn := osdOnSDNFlag X (Cluster.HostNetwork c) v in
  let commonArgs :=
    [ "--foreground"; "--id"; osdID; "--conf"; OSDInfo.Config osd;
      "--osd-data"; OSDInfo.DataPath osd; "--keyring"; OSDInfo.KeyringPath osd;
      "--cluster"; OSDInfo.Cluster osd; "--osd-uuid"; OSDInfo.UUID osd ]
    ++ memoryTarget ++ journal ++ logToFile ++ sdn in
  exists k,
    PodSpec.Containers (podSpecOf d) = [k]
    /\ Container.SecurityContext k
       = Some (SecurityContext.mk (Some true) (Some 0) None (Some false))
    /\ (Container.Command k, Container.Args k) =
       if negb (OSDInfo.IsDirectory osd) && OSDInfo.IsFileStore osd
          && negb (OSDInfo.CephVolumeInitiated osd)
       then ([Go.PathJoin [BinariesMountPath X; "tini"]],
             [ "--"; Go.PathJoin [BinariesMountPath X; "rook"];
               "ceph"; "osd"; "filestore-device";
               "--source-path";
               Go.PathJoin ["/dev/disk/by-partuuid"; OSDInfo.DevicePartUUID osd];
               "--mount-path"; OSDInfo.DataPath osd; "--" ] ++ commonArgs)
       else if OSDInfo.CephVolumeInitiated osd
       then ([Go.PathJoin [rookBinariesMountPath; "tini"]],
             [ "--"; Go.PathJoin [rookBinariesMountPath; "rook"];
               "ceph"; "osd"; "start"; "--"; "--foreground"; "--id"; osdID;
               "--osd-uuid"; OSDInfo.UUID osd; "--conf"; OSDInfo.Config osd;
               "--cluster"; "ceph"; "--setuser"; "ceph"; "--setgroup"; "ceph";
               "--setuser-match-path"; OSDInfo.DataPath osd ] ++ logToFile ++ sdn)
       else (["ceph-osd"], commonArgs).
Proof.
  intros H. unfold makeDeployment in H.
  destruct osd as [id dataPath config cluster keyring uuid journal isFS isDir partuuid cv].
  cbn [OSDInfo.ID OSDInfo.DataPath OSDInfo.Config OSDInfo.Cluster OSDInfo.KeyringPath
       OSDInfo.UUID OSDInfo.Journal OSDInfo.IsFileStore OSDInfo.IsDirectory
       OSDInfo.DevicePartUUID OSDInfo.CephVolumeInitiated] in *.
  destruct (String.eqb (PersistentVolumeClaimVolumeSource.ClaimName (OSDObject.pvc o)) "");
  destruct (IsAtLeastNautilus X _);
  destruct (IsAtLeast X _ (CephVersion.mk 14 2 1));
  destruct (ResourceRequirements.LimitsMemory _ =? 0);
  (destruct isDir; [destruct (String.eqb (Go.Dir dataPath) (DataDir X))|]);
  destruct isFS, cv;
  cbn in H; rewrite ?length_snoc_eqb in H;
  try (destruct (Nat.eqb (length _) 0); [discriminate H|]);
  injection H as <-;
  (eexists; split; [through_edits; reflexivity | split; reflexivity]).
Qed.

(** The deployment builder stops at its volume guard in one situation
    only, and otherwise returns a deployment whose pod has the volume of
    the copied binaries. *)
Lemma makeDeployment_volumes X c o osd :
  let noVolume :=
    PodVolumes X (Cluster.dataDirHostPath c) (Cluster.Namespace c) = []
    /\ OSDInfo.IsDirectory osd = true
    /\ Go.Dir (OSDInfo.DataPath osd) = DataDir X
    /\ PersistentVolumeClaimVolumeSource.ClaimName (OSDObject.pvc o) = "" in
  (noVolume /\ makeDeployment X c o osd = inl ErrEmptyVolumes)
  \/ (~ noVolume
      /\ exists d, makeDeployment X c o osd = inr d
           /\ In (Volume.mk rookBinariesVolumeName (EmptyDir ""))
                (PodSpec.Volumes (podSpecOf d))).
Proof.
  intros noVolume. subst noVolume. unfold makeDeployment.
  destruct osd as [id dataPath config cluster keyring uuid journal isFS isDir partuuid cv].
  cbn [OSDInfo.ID OSDInfo.DataPath OSDInfo.Config OSDInfo.Cluster OSDInfo.KeyringPath
       OSDInfo.UUID OSDInfo.Journal OSDInfo.IsFileStore OSDInfo.IsDirectory
       OSDInfo.DevicePartUUID OSDInfo.CephVolumeInitiated] in *.
  destruct (String.eqb_spec
              (PersistentVolumeClaimVolumeSource.ClaimName (OSDObject.pvc o)) "")
    as [Hclaim|Hclaim];
  (destruct isDir;
   [destruct (String.eqb_spec (Go.Dir dataPath) (DataDir X)) as [Hparent|Hparent]|]).
  1: destruct (PodVolumes X _ _) as [|v0 vs] eqn:Hvols.
  1: { left. cbn. auto. }
  all: right; (split; [intros (? & ? & ? & ?); congruence|]).
  all: destruct isFS, cv; cbn; rewrite ?length_snoc_eqb;
       eexists; (split; [reflexivity|]); through_edits; unfold podSpecOf; cbn;
       rewrite ?in_app_iff; cbn; tauto.
Qed.

Lemma fold_left_snoc_In {A B : Type} (skip : B -> bool) (g : B -> A) (l : list B)
  (init : list A) (x : A) :
  In x init ->
  In x (fold_left (fun acc b => if skip b then acc else acc ++ [g b]) l init).
Proof.
  revert init. induction l as [|b l IH]; intros init Hin; cbn; [exact Hin|].
  apply IH. destruct (skip b); [exact Hin|]. apply in_or_app. left. exact Hin.
Qed.

Lemma In_length_eqb {A : Type} (x : A) (l : list A) : In x l -> Nat.eqb (length l) 0 = false.
Proof. destruct l; [intros []|reflexivity]. Qed.

(** The provisioning container: its name, and when it asks for privileged
    execution. *)
Lemma provisionOSDContainer_privileged X c o m :
  Container.Name (provisionOSDContainer X c o m) = "provision"
  /\ requestsPrivileged (provisionOSDContainer X c o m)
     = devMountNeeded o
       || String.eqb (Cluster.Getenv c "ROOK_HOSTPATH_REQUIRES_PRIVILEGED") "true"
       || negb (String.eqb
                  (PersistentVolumeClaimVolumeSource.ClaimName (OSDObject.pvc o)) "").
Proof.
  unfold provisionOSDContainer, devMountNeeded, requestsPrivileged.
  destruct (Nat.eqb (length (OSDObject.devices o)) 0);
  destruct (String.eqb (Selection.DeviceFilter (OSDObject.selection o)) "");
  destruct (Selection.GetUseAllDevices (OSDObject.selection o));
  destruct (String.eqb (OSDObject.metadataDevice o) "");
  destruct (String.eqb (PersistentVolumeClaimVolumeSource.ClaimName (OSDObject.pvc o)) "");
  destruct (Nat.eqb (length (Selection.Directories (OSDObject.selection o))) 0);
  destruct (IsRemovingNode X _);
  destruct (String.eqb (Cluster.Getenv c _) "true");
  split; reflexivity.
Qed.

Arguments provisionOSDContainer : simpl never.

(** The provisioning builder never stops at its volume guard: the volume
    of the copied binaries is put in before the guard is reached. *)
Lemma provisionPodTemplateSpec_succeeds X c o restart :
  exists t,
    provisionPodTemplateSpec X c o restart = inr t
    /\ In (Volume.mk rookBinariesVolumeName (EmptyDir ""))
         (PodSpec.Volumes (PodTemplateSpec.Spec t))
    /\ provisionContainerOf t
       = Some (provisionOSDContainer X c o
                 (VolumeMount.mk rookBinariesVolumeName rookBinariesMountPath)).
Proof.
  unfold provisionPodTemplateSpec. cbn.
  match goal with
  | |- context [Nat.eqb (length ?v) 0] => set (vols := v)
  end.
  assert (In (Volume.mk rookBinariesVolumeName (EmptyDir "")) vols) as Hin.
  { subst vols. apply (fold_left_snoc_In
             (fun d => skipVolumeForDirectory X c (Directory.Path d))
             (fun d => Volume.mk (PathToVolumeName X (Directory.Path d))
                         (HostPath (Directory.Path d)))).
    repeat match goal with
           | |- context [if ?b then _ else _] => destruct b
           end;
    rewrite ?in_app_iff; cbn; tauto. }
  rewrite (In_length_eqb _ _ Hin). clearbody vols.
  eexists. split; [reflexivity|].
  destruct (Cluster.HostNetwork c), (String.eqb _ ""); cbn;
    rewrite ?Volumes_onScheduling, ?Containers_onScheduling; cbn.
  all: rewrite (proj1 (provisionOSDContainer_privileged X c o _)).
  all: split; [exact Hin | reflexivity].
Qed.

(** *** The volume guard *)

(** C1, as the code has it: no descriptor makes the provisioning builder
    fail, whatever it specifies: the pod template is returned and carries
    the volume of the copied binaries.  The deployment builder reports
    "empty volumes" exactly when the shared pod volumes are empty, the
    worker is directory-based right under the default data directory and no
    claim is bound; a deployment that is returned carries the volume of the
    copied binaries. *)
Theorem volume_guard (X : Externals) (c : Cluster.t) (o : OSDObject.t) :
  (forall restart, exists t,
      provisionPodTemplateSpec X c o restart = inr t
      /\ In (Volume.mk rookBinariesVolumeName (EmptyDir ""))
           (PodSpec.Volumes (PodTemplateSpec.Spec t)))
  /\ (forall osd,
        makeDeployment X c o osd = inl ErrEmptyVolumes
        <-> PodVolumes X (Cluster.dataDirHostPath c) (Cluster.Namespace c) = []
            /\ OSDInfo.IsDirectory osd = true
            /\ Go.Dir (OSDInfo.DataPath osd) = DataDir X
            /\ PersistentVolumeClaimVolumeSource.ClaimName (OSDObject.pvc o) = "")
  /\ (forall osd d,
        makeDeployment X c o osd = inr d ->
        In (Volume.mk rookBinariesVolumeName (EmptyDir ""))
          (PodSpec.Volumes (podSpecOf d))).
Proof.
  split; [|split].
  - intros restart.
    destruct (provisionPodTemplateSpec_succeeds X c o restart) as (t & Ht & Hin & _).
    exists t. auto.
  - intros osd.
    destruct (makeDeployment_volumes X c o osd) as [[Hno Herr]|[Hsome (d & Hd & _)]].
    + split; auto.
    + split; [intros Herr; congruence | intros Hno; contradiction].
  - intros osd d Hd.
    destruct (makeDeployment_volumes X c o osd) as [[_ Herr]|[_ (d' & Hd' & Hin)]].
    + congruence.
    + assert (d' = d) by congruence. subst d'. exact Hin.
Qed.

(** C1 as stated fails: the descriptor that specifies nothing is given a
    provisioning pod template, with two volumes, and a deployment. *)
Lemma volume_guard_counterexample :
  specifiesNothing bareNode = true
  /\ (exists t,
        provisionPodTemplateSpec sampleExternals sampleCluster bareNode
          RestartPolicyOnFailure = inr t
        /\ PodSpec.Volumes (PodTemplateSpec.Spec t)
           = [ Volume.mk "rook-data" (HostPath "/var/lib/rook");
               Volume.mk "rook-binaries" (EmptyDir "") ])
  /\ makeDeployment sampleExternals sampleCluster bareNode (sampleOSD false true false)
     <> inl ErrEmptyVolumes.
Proof.
  split; [reflexivity|]. split.
  - eexists. split; reflexivity.
  - vm_compute. discriminate.
Qed.

(** *** The command line of the daemon *)

Lemma prefix_dashes (p s : string) :
  String.prefix ("--" +:+ p) s = true -> exists r, s = "--" +:+ r.
Proof.
  change ("--" +:+ p) with (String "-"%char (String "-"%char p)).
  destruct s as [|a [|b r]]; cbn [String.prefix]; try discriminate.
  - destruct (ascii_dec "-" a); discriminate.
  - destruct (ascii_dec "-" a) as [<-|]; [|discriminate].
    destruct (ascii_dec "-" b) as [<-|]; [|discriminate].
    intros _. exists r. reflexivity.
Qed.

(** A number in decimal does not begin with two dashes. *)
Lemma Itoa_no_dashes (z : Z) (r : string) : Go.Itoa z <> "--" +:+ r.
Proof.
  unfold Go.Itoa, pretty, pretty_Z. destruct z as [|p|p].
  - discriminate.
  - unfold pretty, pretty_positive, pretty, pretty_N. cbn [N.eqb].
    apply pretty_N_go_ne_dash. discriminate.
  - intros Heq.
    change (String "-"%char (pretty p) = String "-"%char (String "-"%char r)) in Heq.
    injection Heq as Heq. revert Heq.
    unfold pretty, pretty_positive, pretty, pretty_N. cbn [N.eqb].
    apply pretty_N_go_ne_dash. discriminate.
Qed.

Lemma isJournalFlag_Itoa (z : Z) : isJournalFlag (Go.Itoa z) = false.
Proof.
  destruct (isJournalFlag (Go.Itoa z)) eqn:E; [|reflexivity].
  apply (prefix_dashes "osd-journal=") in E. destruct E as [r E].
  destruct (Itoa_no_dashes z r E).
Qed.

Lemma isJournalFlag_journal (path : string) :
  isJournalFlag ("--osd-journal=" +:+ path) = true.
Proof. destruct path; reflexivity. Qed.

Lemma isJournalFlag_sdn X hostnetwork v :
  existsb isJournalFlag (osdOnSDNFlag X hostnetwork v) = false.
Proof. unfold osdOnSDNFlag. destruct hostnetwork, (IsAtLeast X v _); reflexivity. Qed.

(** C6, as the code has it: in a deployment that is built, for runtime
    information whose operand strings are not themselves spelled as the
    journal flag, an argument [--osd-journal=...] is among the arguments of
    the daemon container if and only if the store is filestore and the
    worker was not initiated by ceph-volume; it is then the flag of the
    worker's journal path.  In the ceph-volume form no journal flag is
    passed, whatever the store. *)
Theorem journal_flag_iff (X : Externals) (c : Cluster.t) (o : OSDObject.t)
  (osd : OSDInfo.t) (d : Deployment.t) :
  makeDeployment X c o osd = inr d ->
  existsb isJournalFlag (operands osd) = false ->
  exists k,
    osdContainerOf d = Some k
    /\ (existsb isJournalFlag (Container.Args k) = true
        <-> OSDInfo.IsFileStore osd = true /\ OSDInfo.CephVolumeInitiated osd = false)
    /\ (OSDInfo.IsFileStore osd = true -> OSDInfo.CephVolumeInitiated osd = false ->
        In ("--osd-journal=" +:+ OSDInfo.Journal osd) (Container.Args k)).
Proof.
  intros Hd Hops.
  destruct (makeDeployment_daemon_container X c o osd d Hd) as (k & Hk & _ & Hcmd).
  exists k. split; [unfold osdContainerOf; rewrite Hk; reflexivity|].
  unfold operands in Hops. cbn [existsb] in Hops.
  repeat (apply orb_false_iff in Hops; destruct Hops as [? Hops]).
  pose proof (isJournalFlag_Itoa (OSDInfo.ID osd)) as Hid.
  pose proof (isJournalFlag_sdn X (Cluster.HostNetwork c) (Cluster.clusterInfoCephVersion c))
    as Hsdn.
  destruct (OSDInfo.IsFileStore osd), (OSDInfo.CephVolumeInitiated osd),
    (OSDInfo.IsDirectory osd); cbn [negb andb] in Hcmd;
    injection Hcmd as _ ->.
  (* filestore and not ceph-volume: the flag is there *)
  3, 4: split;
    [ split; [intros _; auto|intros _];
      apply existsb_exists; exists ("--osd-journal=" +:+ OSDInfo.Journal osd);
      (split; [|apply isJournalFlag_journal])
    | intros _ _ ];
    rewrite ?in_app_iff; cbn [In app]; tauto.
  (* otherwise: no argument is a journal flag *)
  all: split; [|intros; discriminate].
  all: assert (existsb isJournalFlag
                 (if IsAtLeast X (Cluster.clusterInfoCephVersion c) (CephVersion.mk 14 2 1)
                  then ["--default-log-to-file"; "false"] else []) = false) as Hlog
         by (destruct (IsAtLeast X _ _); reflexivity).
  all: match goal with
       | |- existsb _ ?l = true <-> _ =>
           assert (existsb isJournalFlag l = false) as ->;
           [|split; [discriminate | intros [? ?]; discriminate]]
       end.
  all: repeat (rewrite existsb_app || cbn [existsb app]).
  all: repeat match goal with
       | H : isJournalFlag _ = false |- _ => rewrite H; clear H
       | H : existsb isJournalFlag _ = false |- _ => rewrite H; clear H
       end.
  all: repeat match goal with
       | |- context [if ?b then _ else _] => destruct b
       end; reflexivity.
Qed.

(** A filestore worker on a device that ceph-volume did not initiate. *)
Lemma journal_flag_iff_witness :
  exists d k,
    makeDeployment sampleExternals sampleCluster bareNode (sampleOSD true false false)
      = inr d
    /\ osdContainerOf d = Some k
    /\ (existsb isJournalFlag (Container.Args k) = true <-> true = true /\ false = false)
    /\ (true = true -> false = false ->
        In "--osd-journal=/data/osd3/journal" (Container.Args k)).
Proof.
  eexists.
  destruct (journal_flag_iff sampleExternals sampleCluster bareNode
              (sampleOSD true false false) _ eq_refl eq_refl) as (k & Hk & Hiff & Hin).
  exists k. split; [reflexivity|]. split; [exact Hk|]. split; [exact Hiff | exact Hin].
Defined.

(** C6 as stated fails in the ceph-volume form: a filestore worker that
    ceph-volume initiated is started without any journal flag. *)
Lemma journal_flag_counterexample :
  OSDInfo.IsFileStore (sampleOSD true false true) = true
  /\ option_map Container.Args
       (daemonOf (makeDeployment sampleExternals sampleCluster bareNode
                    (sampleOSD true false true)))
     = Some [ "--"; "/rook/rook"; "ceph"; "osd"; "start"; "--"; "--foreground";
              "--id"; "3"; "--osd-uuid"; "6f1c"; "--conf"; "/data/osd3/rook-ceph.config";
              "--cluster"; "ceph"; "--setuser"; "ceph"; "--setgroup"; "ceph";
              "--setuser-match-path"; "/data/osd3" ].
Proof. split; [reflexivity | vm_compute; reflexivity]. Qed.

(** C3, as the code has it: the wrapper form is the one of a filestore
    worker on a device.  For runtime information that is not
    directory-based, uses filestore and was not initiated by ceph-volume,
    the deployment is built, the command is tini from the binaries mount,
    the arguments start with the rook filestore-device helper, its source
    path under /dev/disk/by-partuuid and its mount path, and the arguments
    of the daemon after them contain the journal flag.  A directory-based
    filestore worker that ceph-volume did not initiate runs ceph-osd
    directly, with the journal flag among its arguments. *)
Theorem filestore_device_wrapper (X : Externals) (c : Cluster.t) (o : OSDObject.t)
  (osd : OSDInfo.t) :
  OSDInfo.IsFileStore osd = true ->
  OSDInfo.CephVolumeInitiated osd = false ->
  (OSDInfo.IsDirectory osd = false ->
   exists d k daemonArgs,
     makeDeployment X c o osd = inr d
     /\ osdContainerOf d = Some k
     /\ Container.Command k = [Go.PathJoin [BinariesMountPath X; "tini"]]
     /\ Container.Args k
        = [ "--"; Go.PathJoin [BinariesMountPath X; "rook"];
            "ceph"; "osd"; "filestore-device";
            "--source-path";
            Go.PathJoin ["/dev/disk/by-partuuid"; OSDInfo.DevicePartUUID osd];
            "--mount-path"; OSDInfo.DataPath osd; "--" ] ++ daemonArgs
     /\ In ("--osd-journal=" +:+ OSDInfo.Journal osd) daemonArgs)
  /\ (OSDInfo.IsDirectory osd = true ->
      forall d, makeDeployment X c o osd = inr d ->
      exists k,
        osdContainerOf d = Some k
        /\ Container.Command k = ["ceph-osd"]
        /\ In ("--osd-journal=" +:+ OSDInfo.Journal osd) (Container.Args k)).
Proof.
  intros Hfs Hcv. split.
  - intros Hdir.
    destruct (makeDeployment_volumes X c o osd) as [[Hno _]|[_ (d & Hd & _)]].
    { destruct Hno as (_ & Hno & _). congruence. }
    destruct (makeDeployment_daemon_container X c o osd d Hd) as (k & Hk & _ & Hcmd).
    rewrite Hfs, Hcv, Hdir in Hcmd. cbn [negb andb] in Hcmd. injection Hcmd as Hc Ha.
    exists d, k. eexists. split; [exact Hd|].
    split; [unfold osdContainerOf; rewrite Hk; reflexivity|].
    split; [exact Hc|]. split; [exact Ha|].
    rewrite ?in_app_iff. cbn [In]. tauto.
  - intros Hdir d Hd.
    destruct (makeDeployment_daemon_container X c o osd d Hd) as (k & Hk & _ & Hcmd).
    rewrite Hfs, Hcv, Hdir in Hcmd. cbn [negb andb] in Hcmd. injection Hcmd as Hc Ha.
    exists k. split; [unfold osdContainerOf; rewrite Hk; reflexivity|].
    split; [exact Hc|]. rewrite Ha, ?in_app_iff. cbn [In]. tauto.
Qed.

(** The same worker: its command and the start of its arguments. *)
Lemma filestore_device_wrapper_witness :
  exists d k daemonArgs,
    makeDeployment sampleExternals sampleCluster bareNode (sampleOSD true false false)
      = inr d
    /\ osdContainerOf d = Some k
    /\ Container.Command k = ["/rook/tini"]
    /\ Container.Args k
       = [ "--"; "/rook/rook"; "ceph"; "osd"; "filestore-device";
           "--source-path"; "/dev/disk/by-partuuid/8a2e";
           "--mount-path"; "/data/osd3"; "--" ] ++ daemonArgs
    /\ In "--osd-journal=/data/osd3/journal" daemonArgs.
Proof.
  exact (proj1 (filestore_device_wrapper sampleExternals sampleCluster bareNode
                  (sampleOSD true false false) eq_refl eq_refl) eq_refl).
Defined.

(** C3 as stated fails: a directory-based filestore worker that ceph-volume
    did not initiate is not wrapped, its command is ceph-osd. *)
Lemma filestore_directory_counterexample :
  OSDInfo.IsDirectory (sampleOSD true true false) = true
  /\ OSDInfo.IsFileStore (sampleOSD true true false) = true
  /\ OSDInfo.CephVolumeInitiated (sampleOSD true true false) = false
  /\ option_map (fun k => (Container.Command k, Container.Args k))
       (daemonOf (makeDeployment sampleExternals sampleCluster bareNode
                    (sampleOSD true true false)))
     = Some (["ceph-osd"],
             [ "--foreground"; "--id"; "3"; "--conf"; "/data/osd3/rook-ceph.config";
               "--osd-data"; "/data/osd3"; "--keyring"; "/data/osd3/keyring";
               "--cluster"; "ceph"; "--osd-uuid"; "6f1c";
               "--osd-journal=/data/osd3/journal" ]).
Proof. repeat split; vm_compute; reflexivity. Qed.

(** *** Privileged execution *)

(** C7, as the code has it: the provisioning container asks for
    privileged execution if and only if the device mount is needed, or
    ROOK_HOSTPATH_REQUIRES_PRIVILEGED is "true" in the environment of the
    operator, or a claim is bound; the daemon container of a deployment
    that is built always asks for it. *)
Theorem privileged_iff (X : Externals) (c : Cluster.t) (o : OSDObject.t) :
  (forall restart, exists k,
      provisionOf (provisionPodTemplateSpec X c o restart) = Some k
      /\ requestsPrivileged k
         = devMountNeeded o
           || String.eqb (Cluster.Getenv c "ROOK_HOSTPATH_REQUIRES_PRIVILEGED") "true"
           || negb (String.eqb
                      (PersistentVolumeClaimVolumeSource.ClaimName (OSDObject.pvc o)) ""))
  /\ (forall osd d,
        makeDeployment X c o osd = inr d ->
        exists k, osdContainerOf d = Some k /\ requestsPrivileged k = true).
Proof.
  split.
  - intros restart.
    destruct (provisionPodTemplateSpec_succeeds X c o restart) as (t & Ht & _ & Hk).
    rewrite Ht. cbn [provisionOf]. eexists. split; [exact Hk|].
    apply provisionOSDContainer_privileged.
  - intros osd d Hd.
    destruct (makeDeployment_daemon_container X c o osd d Hd) as (k & Hk & Hsc & _).
    exists k. split; [unfold osdContainerOf; rewrite Hk; reflexivity|].
    unfold requestsPrivileged. rewrite Hsc. reflexivity.
Qed.

(** A directory-based bluestore worker of the descriptor that specifies
    nothing. *)
Lemma privileged_iff_witness :
  exists d k,
    makeDeployment sampleExternals sampleCluster bareNode (sampleOSD false true false)
      = inr d
    /\ osdContainerOf d = Some k /\ requestsPrivileged k = true.
Proof.
  eexists.
  destruct (proj2 (privileged_iff sampleExternals sampleCluster bareNode)
              (sampleOSD false true false) _ eq_refl) as (k & Hk & Hp).
  exists k. split; [reflexivity|]. split; [exact Hk | exact Hp].
Defined.

(** C7 as stated fails for the daemon workload: for the descriptor that
    specifies nothing, with the override unset and no claim bound, the
    daemon container is privileged. *)
Lemma privileged_counterexample :
  devMountNeeded bareNode = false
  /\ Cluster.Getenv sampleCluster "ROOK_HOSTPATH_REQUIRES_PRIVILEGED" = ""
  /\ PersistentVolumeClaimVolumeSource.ClaimName (OSDObject.pvc bareNode) = ""
  /\ option_map requestsPrivileged
       (daemonOf (makeDeployment sampleExternals sampleCluster bareNode
                    (sampleOSD false true false)))
     = Some true.
Proof. repeat split; vm_compute; reflexivity. Qed.

(** *** The memory target in the ceph-volume form *)

(** C2 at a bluestore worker that ceph-volume initiated, on a release
    before Nautilus and with a memory limit: the three conditions of the
    flag hold and the arguments of the daemon have no --osd-memory-target.
    The same worker not initiated by ceph-volume gets the flag. *)
Theorem memory_target_missing_in_ceph_volume_form :
  OSDInfo.IsFileStore (sampleOSD false false true) = false
  /\ IsAtLeastNautilus sampleExternals (Cluster.clusterInfoCephVersion sampleCluster) = false
  /\ ResourceRequirements.LimitsMemory (Cluster.resources sampleCluster) = 4294967296
  /\ option_map Container.Args
       (daemonOf (makeDeployment sampleExternals sampleCluster bareNode
                    (sampleOSD false false true)))
     = Some [ "--"; "/rook/rook"; "ceph"; "osd"; "start"; "--"; "--foreground";
              "--id"; "3"; "--osd-uuid"; "6f1c"; "--conf"; "/data/osd3/rook-ceph.config";
              "--cluster"; "ceph"; "--setuser"; "ceph"; "--setgroup"; "ceph";
              "--setuser-match-path"; "/data/osd3" ]
  /\ option_map (fun k => existsb isMemoryTargetFlag (Container.Args k))
       (daemonOf (makeDeployment sampleExternals sampleCluster bareNode
                    (sampleOSD false false false)))
     = Some true.
Proof. repeat split; vm_compute; reflexivity. Qed.

(** In the ceph-volume form the arguments are the same with and without
    the three conditions of the memory target: whatever the builder, the
    store, the release and the memory limit, they are the fixed list
    followed by the log and network flags. *)
Lemma ceph_volume_form_ignores_memory_target X c o osd d :
  OSDInfo.CephVolumeInitiated osd = true ->
  makeDeployment X c o osd = inr d ->
  exists k,
    osdContainerOf d = Some k
    /\ Container.Args k
       = [ "--"; "/rook/rook"; "ceph"; "osd"; "start"; "--"; "--foreground";
           "--id"; Go.Itoa (OSDInfo.ID osd); "--osd-uuid"; OSDInfo.UUID osd;
           "--conf"; OSDInfo.Config osd; "--cluster"; "ceph"; "--setuser"; "ceph";
           "--setgroup"; "ceph"; "--setuser-match-path"; OSDInfo.DataPath osd ]
         ++ (if IsAtLeast X (Cluster.clusterInfoCephVersion c) (CephVersion.mk 14 2 1)
             then ["--default-log-to-file"; "false"] else [])
         ++ osdOnSDNFlag X (Cluster.HostNetwork c) (Cluster.clusterInfoCephVersion c).
Proof.
  intros Hcv Hd.
  destruct (makeDeployment_daemon_container X c o osd d Hd) as (k & Hk & _ & Hcmd).
  exists k. split; [unfold osdContainerOf; rewrite Hk; reflexivity|].
  rewrite Hcv in Hcmd. rewrite andb_false_r in Hcmd. injection Hcmd as _ ->.
  reflexivity.
Qed.

(** *** The data devices of the provisioning container *)

(** The entry of a device does not depend on the OSD count configured for
    it: the count that is read is not the one that is appended. *)
Lemma deviceNameEntry_ignores_count X name config :
  deviceNameEntry X (Device.mk name config)
  = name +:+ ":1"
    +:+ match config !! MetadataDeviceKey X with
        | Some md => ":" +:+ md
        | None => ""
        end.
Proof.
  unfold deviceNameEntry. cbn [Device.Config Device.Name].
  destruct (config !! OSDsPerDeviceKey X), (config !! MetadataDeviceKey X);
    reflexivity.
Qed.

(** C8 at a device configured for three OSDs: the entry passed to the
    provisioning container says one.  The pair of devices without
    configuration gives the value of the specification's example, with the
    device mount and privileged execution. *)
Theorem data_devices_count_not_applied :
  option_map (fun k => envValues "ROOK_DATA_DEVICES" (Container.Env k))
    (provisionOf (provisionPodTemplateSpec sampleExternals sampleCluster
                    (nodeWithDevices [Device.mk "sdb" {["osdsPerDevice" := "3"]}])
                    RestartPolicyOnFailure))
  = Some ["sdb:1"]
  /\ option_map
       (fun k => (envValues "ROOK_DATA_DEVICES" (Container.Env k),
                  existsb (fun m => String.eqb (VolumeMount.MountPath m) "/dev")
                    (Container.VolumeMounts k),
                  requestsPrivileged k))
       (provisionOf (provisionPodTemplateSpec sampleExternals sampleCluster
                       (nodeWithDevices [Device.mk "sdb" ∅; Device.mk "sdc" ∅])
                       RestartPolicyOnFailure))
     = Some (["sdb:1,sdc:1"], true, true).
Proof. split; vm_compute; reflexivity. Qed.

(** *** The labels of a claim that is made *)

(** The loop over the labels of the template: a label of the template
    wins over the label made for the claim. *)
Lemma merged_labels_lookup (made template : gmap string string) (key : string) :
  map_fold (fun k v (labels : gmap string string) => <[k := v]> labels) made template
    !! key
  = match template !! key with
    | Some v => Some v
    | None => made !! key
    end.
Proof.
  revert key.
  apply (map_fold_weak_ind
           (fun (r : gmap string string) (m : gmap string string) =>
              forall key, r !! key = match m !! key with
                                     | Some v => Some v
                                     | None => made !! key
                                     end)).
  - intros key. rewrite lookup_empty. reflexivity.
  - intros i x m r Hnone IH key. destruct (decide (i = key)) as [->|Hne].
    + rewrite !lookup_insert_eq. reflexivity.
    + rewrite !lookup_insert_ne by exact Hne. apply IH.
Qed.

(** A claim made from a template that does not set the identity label
    key carries the identity it was made for. *)
Lemma made_claim_carries_identity name setIndex (t : PersistentVolumeClaim.t) :
  PersistentVolumeClaim.GetLabels t !! PVCIdLabelKey = None ->
  carriesIdentity name setIndex 0
    (makeStorageClassDeviceSetPVC name
       (fst (makeStorageClassDeviceSetPVCID name setIndex 0)) 0 setIndex t).
Proof.
  intros Hnone. unfold carriesIdentity, makeStorageClassDeviceSetPVC.
  cbn [PersistentVolumeClaim.GetLabels PersistentVolumeClaim.ObjectMeta ObjectMeta.Labels].
  rewrite merged_labels_lookup.
  rewrite Hnone. unfold makeStorageClassDeviceSetPVCLabel.
  rewrite !lookup_insert_ne by discriminate. apply lookup_insert_eq.
Qed.

(** The identity label of a claim that is made: the value the template
    sets under the key, and the identity when the template sets none. *)
Lemma made_claim_identity_label name id setIndex (t : PersistentVolumeClaim.t) :
  PersistentVolumeClaim.GetLabels (makeStorageClassDeviceSetPVC name id 0 setIndex t)
    !! PVCIdLabelKey
  = match PersistentVolumeClaim.GetLabels t !! PVCIdLabelKey with
    | Some v => Some v
    | None => Some id
    end.
Proof.
  unfold makeStorageClassDeviceSetPVC.
  cbn [PersistentVolumeClaim.GetLabels PersistentVolumeClaim.ObjectMeta ObjectMeta.Labels].
  rewrite merged_labels_lookup.
  destruct (_ !! PVCIdLabelKey); [reflexivity|].
  unfold makeStorageClassDeviceSetPVCLabel.
  rewrite !lookup_insert_ne by discriminate. apply lookup_insert_eq.
Qed.

(** The store keeps the labels of the claim it is given. *)
Lemma stored_labels srv ns p :
  PersistentVolumeClaim.GetLabels (stored srv ns p) = PersistentVolumeClaim.GetLabels p.
Proof. reflexivity. Qed.

(** *** Calling the allocator twice *)

(** C4: the allocator is idempotent on a condition.  After a call for a
    device set and set index that succeeded, a second call for the same
    pair on the store the first one left, once its list request is
    answered, issues the list request only, leaves the store as it is and
    returns the same claim, exactly when the first template does not set
    the identity label key, or sets it to the derived identity, or the
    store held a claim under the identity before the first call. *)
Theorem allocator_idempotent (c : Cluster.t) (ds : StorageClassDeviceSet.t)
  (setIndex : Z) (faults1 faults2 : Faults) (srv srv' : ApiServer.t)
  (pvc : PersistentVolumeClaim.t) (log : list Request)
  (t : PersistentVolumeClaim.t) (rest : list PersistentVolumeClaim.t) :
  let name := StorageClassDeviceSet.Name ds in
  let ns := Cluster.Namespace c in
  let id := fst (makeStorageClassDeviceSetPVCID name setIndex 0) in
  let sel := snd (makeStorageClassDeviceSetPVCID name setIndex 0) in
  StorageClassDeviceSet.VolumeClaimTemplates ds = t :: rest ->
  run faults1 (createStorageClassDeviceSetPVC c ds setIndex) srv = (inr pvc, srv', log) ->
  faults2 srv' (ReqList ns sel) = None ->
  run faults2 (createStorageClassDeviceSetPVC c ds setIndex) srv'
    = (inr pvc, srv', [ReqList ns sel])
  <-> (PersistentVolumeClaim.GetLabels t !! PVCIdLabelKey = None
       \/ PersistentVolumeClaim.GetLabels t !! PVCIdLabelKey = Some id
       \/ serveList srv ns sel <> []).
Proof.
  intros name ns id sel Ht Hfirst Hlist2.
  rewrite (createStorageClassDeviceSetPVC_unfold c ds setIndex t rest Ht) in *.
  fold name ns id sel in Hfirst |- *. cbn [run] in Hfirst |- *. rewrite Hlist2.
  destruct (faults1 srv (ReqList ns sel)); [cbn in Hfirst; discriminate|].
  destruct (serveList srv ns sel) as [|a [|b l]] eqn:Hserve; cbn in Hfirst.
  - (* nothing was there: the first call created the claim *)
    destruct (faults1 srv (ReqCreate ns _)); cbn in Hfirst; [discriminate|].
    injection Hfirst as <- <- _.
    set (made := makeStorageClassDeviceSetPVC name id 0 setIndex t).
    assert (selected ns sel (stored srv ns made)
            = bool_decide (PersistentVolumeClaim.GetLabels t !! PVCIdLabelKey = None
                           \/ PersistentVolumeClaim.GetLabels t !! PVCIdLabelKey = Some id))
      as Hsel.
    { unfold selected, sel. cbn [snd makeStorageClassDeviceSetPVCID].
      rewrite selectorMatches_identity, stored_labels.
      unfold made. rewrite made_claim_identity_label. fold id.
      replace (String.eqb _ ns) with true by (symmetry; apply String.eqb_refl).
      cbn [andb]. apply bool_decide_ext.
      destruct (PersistentVolumeClaim.GetLabels t !! PVCIdLabelKey) as [v|].
      - split; [intros Hv; right; exact Hv | intros [Hv|Hv]; [discriminate | exact Hv]].
      - split; [intros _; left; reflexivity | intros _; reflexivity]. }
    unfold serveList in Hserve |- *. cbn [ApiServer.claims].
    rewrite List.filter_app, Hserve. cbn [List.filter app].
    change (name +:+ "-" +:+ Go.Itoa setIndex +:+ "-" +:+ Go.Itoa 0) with id.
    fold made. rewrite Hsel.
    destruct (bool_decide_reflect
                (PersistentVolumeClaim.GetLabels t !! PVCIdLabelKey = None
                 \/ PersistentVolumeClaim.GetLabels t !! PVCIdLabelKey = Some id))
      as [Hcond|Hcond].
    + split; [intros _; tauto | intros _; reflexivity].
    + split; [|intros [H|[H|H]]; [tauto | tauto | contradiction H; reflexivity]].
      cbn. destruct (faults2 _ (ReqCreate ns made)); cbn; discriminate.
  - (* one was there: the first call returned it *)
    injection Hfirst as <- <- _. rewrite Hserve.
    split; [intros _; right; right; discriminate | intros _; reflexivity].
  - discriminate.
Qed.

(** Two calls for set 0 of [set1], starting from the empty store. *)
Lemma allocator_idempotent_witness :
  let first :=
    run noFaults (createStorageClassDeviceSetPVC sampleCluster
                    (sampleDeviceSet [sampleTemplate]) 0) emptyServer in
  run noFaults (createStorageClassDeviceSetPVC sampleCluster
                  (sampleDeviceSet [sampleTemplate]) 0) (snd (fst first))
  = (inr (stored emptyServer "rook-ceph"
            (makeStorageClassDeviceSetPVC "set1" "set1-0-0" 0 0 sampleTemplate)),
     snd (fst first),
     [ReqList "rook-ceph" "ceph.rook.io/StorageClassDeviceSetPVCId=set1-0-0"]).
Proof.
  apply (allocator_idempotent sampleCluster (sampleDeviceSet [sampleTemplate]) 0
           noFaults noFaults emptyServer _ _
           [ReqList "rook-ceph" "ceph.rook.io/StorageClassDeviceSetPVCId=set1-0-0";
            ReqCreate "rook-ceph"
              (makeStorageClassDeviceSetPVC "set1" "set1-0-0" 0 0 sampleTemplate)]
           sampleTemplate []).
  - reflexivity.
  - reflexivity.
  - reflexivity.
  - left. vm_compute. reflexivity.
Defined.

(** C4 as stated fails: with a template that sets the identity label key
    the first call succeeds and creates a claim, which does not carry the
    derived identity; the second call on the store it left creates a second
    claim and returns that one. *)
Lemma allocator_idempotent_counterexample :
  let call :=
    run noFaults (createStorageClassDeviceSetPVC sampleCluster
                    (sampleDeviceSet [overridingTemplate]) 0) in
  let made := makeStorageClassDeviceSetPVC "set1" "set1-0-0" 0 0 overridingTemplate in
  let requests :=
    [ReqList "rook-ceph" "ceph.rook.io/StorageClassDeviceSetPVCId=set1-0-0";
     ReqCreate "rook-ceph" made] in
  exists first second srv1 srv2,
    call emptyServer = (inr first, srv1, requests)
    /\ call srv1 = (inr second, srv2, requests)
    /\ first <> second
    /\ ApiServer.claims srv2 = [first; second]
    /\ ~ carriesIdentity "set1" 0 0 first.
Proof.
  do 4 eexists. split; [reflexivity|]. split; [reflexivity|].
  split; [|split; [reflexivity|]].
  - intros Heq. apply (f_equal PersistentVolumeClaim.GetName) in Heq.
    vm_compute in Heq. discriminate.
  - unfold carriesIdentity. vm_compute. discriminate.
Qed.

(** * Further properties *)

(** ** Splitting what was joined *)

Lemma append_nil_r (s : string) : s +:+ "" = s.
Proof.
  induction s as [|a s IH]; [reflexivity|].
  change (String a s +:+ "") with (String a (s +:+ "")). rewrite IH. reflexivity.
Qed.

Lemma append_assoc (s t u : string) : (s +:+ t) +:+ u = s +:+ (t +:+ u).
Proof.
  induction s as [|a s IH]; [reflexivity|].
  change ((String a s +:+ t) +:+ u) with (String a ((s +:+ t) +:+ u)).
  rewrite IH. reflexivity.
Qed.

Lemma splitAt_app_clean sep (cur s : string) :
  GoStrings.contains sep s = false ->
  GoStrings.splitAt sep cur s = [cur +:+ s].
Proof.
  revert cur. induction s as [|ch s IH]; intros cur Hc; cbn in *.
  - rewrite append_nil_r. reflexivity.
  - apply orb_false_iff in Hc. destruct Hc as [Hch Hs]. rewrite Hch.
    rewrite IH by exact Hs. rewrite append_assoc. reflexivity.
Qed.

Lemma splitAt_app_sep sep (cur s rest : string) :
  GoStrings.contains sep s = false ->
  GoStrings.splitAt sep cur (s +:+ String sep rest)
  = (cur +:+ s) :: GoStrings.splitAt sep "" rest.
Proof.
  revert cur. induction s as [|ch s IH]; intros cur Hc; cbn in *.
  - change ("" +:+ String sep rest) with (String sep rest). cbn [GoStrings.splitAt].
    rewrite Ascii.eqb_refl, append_nil_r. reflexivity.
  - change (String ch s +:+ String sep rest) with (String ch (s +:+ String sep rest)).
    cbn [GoStrings.splitAt].
    apply orb_false_iff in Hc. destruct Hc as [Hch Hs]. rewrite Hch.
    rewrite IH by exact Hs. rewrite append_assoc. reflexivity.
Qed.

(** Splitting at commas what [strings.Join] joined with commas gives the
    elements back, when there is at least one and none has a comma. *)
Lemma Split_Join_comma (elems : list string) :
  elems <> [] ->
  forallb (fun e => negb (GoStrings.contains "," e)) elems = true ->
  GoStrings.Split (Go.Join elems ",") "," = elems.
Proof.
  unfold GoStrings.Split. induction elems as [|e rest IH]; [congruence|].
  intros _ Hall. cbn [forallb] in Hall. apply andb_true_iff in Hall.
  destruct Hall as [He Hrest]. apply negb_true_iff in He.
  destruct rest as [|e' rest'].
  - cbn [Go.Join]. rewrite splitAt_app_clean by exact He. reflexivity.
  - change (Go.Join (e :: e' :: rest') ",")
      with (e +:+ String "," (Go.Join (e' :: rest') ",")).
    rewrite splitAt_app_sep by exact He. change ("" +:+ e) with e.
    rewrite IH; [reflexivity | discriminate | exact Hrest].
Qed.

(** ** The provisioning container, laid out *)

(** A loop that appends an element for every entry it does not skip. *)
Lemma fold_left_snoc_filter {A B : Type} (skip : B -> bool) (g : B -> A) (l : list B)
  (init : list A) :
  fold_left (fun acc b => if skip b then acc else acc ++ [g b]) l init
  = init ++ List.map g (List.filter (fun b => negb (skip b)) l).
Proof.
  revert init. induction l as [|b l IH]; intros init; cbn.
  - rewrite app_nil_r. reflexivity.
  - rewrite IH. destruct (skip b); cbn; [reflexivity|].
    rewrite <- app_assoc. reflexivity.
Qed.

(** The environment of the provisioning container: the configuration
    variables, then at most one variable for the devices, chosen in the
    order list, filter, all; then the metadata device, the claim and the
    directories. *)
Lemma provisionOSDContainer_Env X c o m :
  let selection := OSDObject.selection o in
  let claimName := PersistentVolumeClaimVolumeSource.ClaimName (OSDObject.pvc o) in
  Container.Env (provisionOSDContainer X c o m)
  = getConfigEnvVars X c (OSDObject.storeConfig o) (DataDir X) (OSDObject.name o)
      (OSDObject.location o)
    ++ (if negb (Nat.eqb (length (OSDObject.devices o)) 0)
        then [dataDevicesEnvVar
                (Go.Join (List.map (deviceNameEntry X) (OSDObject.devices o)) ",")]
        else if negb (String.eqb (Selection.DeviceFilter selection) "")
        then [deviceFilterEnvVar (Selection.DeviceFilter selection)]
        else if Selection.GetUseAllDevices selection
        then [deviceFilterEnvVar "all"]
        else [])
    ++ (if negb (String.eqb (OSDObject.metadataDevice o) "")
        then [metadataDeviceEnvVar (OSDObject.metadataDevice o)] else [])
    ++ (if negb (String.eqb claimName "")
        then [dataDevicesEnvVar ("/mnt/" +:+ claimName); pvcBackedOSDEnvVar "true"]
        else [])
    ++ (if negb (Nat.eqb (length (Selection.Directories selection)) 0)
           && negb (IsRemovingNode X (Selection.DeviceFilter selection))
        then [dataDirectoriesEnvVar
                (Go.Join (List.map Directory.Path (Selection.Directories selection)) ",")]
        else []).
Proof.
  intros selection claimName. subst selection claimName.
  unfold provisionOSDContainer.
  destruct (Nat.eqb (length (OSDObject.devices o)) 0);
  destruct (String.eqb (Selection.DeviceFilter (OSDObject.selection o)) "");
  destruct (Selection.GetUseAllDevices (OSDObject.selection o));
  destruct (String.eqb (OSDObject.metadataDevice o) "");
  destruct (String.eqb (PersistentVolumeClaimVolumeSource.ClaimName (OSDObject.pvc o)) "");
  destruct (Nat.eqb (length (Selection.Directories (OSDObject.selection o))) 0);
  destruct (IsRemovingNode X _);
  cbn; rewrite <- ?app_assoc, ?app_nil_r; reflexivity.
Qed.

(** Its mounts: the shared ones and the binaries, then the host devices
    when a device mount is needed, the bridge when a claim is bound, and
    one mount for every directory that is not the default data directory. *)
Lemma provisionOSDContainer_VolumeMounts X c o m :
  let claimName := PersistentVolumeClaimVolumeSource.ClaimName (OSDObject.pvc o) in
  Container.VolumeMounts (provisionOSDContainer X c o m)
  = CephVolumeMounts X ++ [m]
    ++ (if devMountNeeded o
        then [VolumeMount.mk "devices" "/dev"; VolumeMount.mk "udev" "/run/udev"] else [])
    ++ (if negb (String.eqb claimName "")
        then [VolumeMount.mk (claimName +:+ "-bridge") "/mnt"] else [])
    ++ List.map (fun dpath => VolumeMount.mk (PathToVolumeName X dpath) dpath)
         (List.filter (fun dpath => negb (skipVolumeForDirectory X c dpath))
            (List.map Directory.Path (Selection.Directories (OSDObject.selection o)))).
Proof.
  intros claimName. subst claimName.
  unfold provisionOSDContainer, devMountNeeded.
  destruct (Selection.Directories (OSDObject.selection o)) as [|d ds];
  destruct (Nat.eqb (length (OSDObject.devices o)) 0);
  destruct (String.eqb (Selection.DeviceFilter (OSDObject.selection o)) "");
  destruct (Selection.GetUseAllDevices (OSDObject.selection o));
  destruct (String.eqb (OSDObject.metadataDevice o) "");
  destruct (String.eqb (PersistentVolumeClaimVolumeSource.ClaimName (OSDObject.pvc o)) "");
  destruct (IsRemovingNode X _);
  cbn [length Nat.eqb negb andb orb Container.VolumeMounts];
  rewrite ?fold_left_snoc_filter; cbn [List.map List.filter];
  rewrite <- ?app_assoc, ?app_nil_r; reflexivity.
Qed.

(** ** Reading the directories back *)

Lemma Join_comma_empty (elems : list string) :
  Go.Join elems "," = "" -> elems = [] \/ elems = [""].
Proof.
  destruct elems as [|e [|e' rest]]; cbn [Go.Join]; intros H.
  - left. reflexivity.
  - right. rewrite H. reflexivity.
  - destruct e; discriminate H.
Qed.

(** X1: the directories of a descriptor survive the trip through the
    environment of the provisioning container: when there is at least one
    directory, no path has a comma, the paths are not just the empty path,
    and the node is not being removed, [getDirectoriesFromContainer] reads
    back the same paths in the same order; the configuration of a directory
    is not carried. *)
Theorem directories_round_trip (X : Externals) (c : Cluster.t) (o : OSDObject.t)
  (m : VolumeMount.t) :
  let dirs := Selection.Directories (OSDObject.selection o) in
  dirs <> [] ->
  List.map Directory.Path dirs <> [""] ->
  forallb (fun p => negb (GoStrings.contains "," p)) (List.map Directory.Path dirs) = true ->
  IsRemovingNode X (Selection.DeviceFilter (OSDObject.selection o)) = false ->
  getDirectoriesFromContainer (provisionOSDContainer X c o m)
  = List.map (fun d => Directory.mk (Directory.Path d) ∅) dirs.
Proof.
  intros dirs Hne Hnot Hcomma Hrm. unfold getDirectoriesFromContainer.
  rewrite provisionOSDContainer_Env. fold dirs. rewrite Hrm.
  assert (Nat.eqb (length dirs) 0 = false) as ->
    by (destruct dirs; [congruence | reflexivity]).
  cbn [negb andb]. rewrite !app_assoc, fold_left_app. cbn [fold_left].
  change (String.eqb (EnvVar.Name (dataDirectoriesEnvVar _)) dataDirsEnvVarName) with true.
  cbn [EnvVar.Value dataDirectoriesEnvVar envVar].
  destruct (String.eqb_spec (Go.Join (List.map Directory.Path dirs) ",") "") as [He|_].
  { apply Join_comma_empty in He. destruct He as [He|He]; [|contradiction].
    destruct dirs; [congruence | discriminate He]. }
  cbn [negb]. rewrite Split_Join_comma; [|destruct dirs; [congruence|discriminate]|exact Hcomma].
  rewrite List.map_map. reflexivity.
Qed.

(** The descriptor with the default data directory and a second one. *)
Lemma directories_round_trip_witness :
  getDirectoriesFromContainer
    (provisionOSDContainer sampleExternals sampleCluster
       (nodeWithDirectories [Directory.mk "/var/lib/rook" ∅;
                             Directory.mk "/data" {["osdsPerDevice" := "2"]}])
       (VolumeMount.mk rookBinariesVolumeName rookBinariesMountPath))
  = [Directory.mk "/var/lib/rook" ∅; Directory.mk "/data" ∅].
Proof.
  apply (directories_round_trip sampleExternals sampleCluster
           (nodeWithDirectories [Directory.mk "/var/lib/rook" ∅;
                                 Directory.mk "/data" {["osdsPerDevice" := "2"]}])).
  - discriminate.
  - discriminate.
  - reflexivity.
  - reflexivity.
Defined.

(** ** Reading the store configuration back *)

(** The layout of the configuration variables: eleven that are always
    there, then one for every field of the store configuration that is set,
    then the location. *)
Lemma getConfigEnvVars_layout X c sc dataDir nodeName location :
  getConfigEnvVars X c sc dataDir nodeName location
  = [ nodeNameEnvVar nodeName;
      envVar "ROOK_CLUSTER_ID" (OwnerReference.UID (Cluster.ownerRef c));
      PodIPEnvVar X (PrivateIPEnvVar X); PodIPEnvVar X (PublicIPEnvVar X);
      ClusterNameEnvVar X (Cluster.Namespace c); EndpointEnvVar X; SecretEnvVar X;
      AdminSecretEnvVar X; ConfigDirEnvVar X dataDir; ConfigOverrideEnvVar X;
      EnvVar.mk "ROOK_FSID" "" (Some (SecretKeyRef "rook-ceph-mon" "fsid")) ]
    ++ (if negb (String.eqb (StoreConfig.StoreType sc) "")
        then [envVar osdStoreEnvVarName (StoreConfig.StoreType sc)] else [])
    ++ (if negb (StoreConfig.DatabaseSizeMB sc =? 0)
        then [envVar osdDatabaseSizeEnvVarName (Go.Itoa (StoreConfig.DatabaseSizeMB sc))]
        else [])
    ++ (if negb (StoreConfig.WalSizeMB sc =? 0)
        then [envVar osdWalSizeEnvVarName (Go.Itoa (StoreConfig.WalSizeMB sc))] else [])
    ++ (if negb (StoreConfig.JournalSizeMB sc =? 0)
        then [envVar osdJournalSizeEnvVarName (Go.Itoa (StoreConfig.JournalSizeMB sc))]
        else [])
    ++ (if negb (StoreConfig.OSDsPerDevice sc =? 0)
        then [envVar osdsPerDeviceEnvVarName (Go.Itoa (StoreConfig.OSDsPerDevice sc))]
        else [])
    ++ (if StoreConfig.EncryptedDevice sc
        then [envVar encryptedDeviceEnvVarName "true"] else [])
    ++ (if negb (String.eqb location "") then [LocationEnvVar X location] else []).
Proof.
  unfold getConfigEnvVars.
  destruct (String.eqb (StoreConfig.StoreType sc) "");
  destruct (StoreConfig.DatabaseSizeMB sc =? 0);
  destruct (StoreConfig.WalSizeMB sc =? 0);
  destruct (StoreConfig.JournalSizeMB sc =? 0);
  destruct (StoreConfig.OSDsPerDevice sc =? 0);
  destruct (StoreConfig.EncryptedDevice sc);
  destruct (String.eqb location "");
  cbn; reflexivity.
Qed.

Lemma readConfigVar_other X Y cfg e :
  isStoreVariable e = false -> readConfigVar X Y cfg e = cfg.
Proof.
  unfold isStoreVariable, readConfigVar. cbn [existsb]. intros H.
  repeat (apply orb_false_iff in H; destruct H as [-> H]). reflexivity.
Qed.

Lemma fold_readConfigVar_others X Y cfg env :
  existsb isStoreVariable env = false -> fold_left (readConfigVar X Y) env cfg = cfg.
Proof.
  induction env as [|e env IH]; cbn [existsb fold_left]; intros H; [reflexivity|].
  apply orb_false_iff in H. destruct H as [He Henv].
  rewrite readConfigVar_other by exact He. apply IH. exact Henv.
Qed.

Lemma fold_readConfigVar_optional X Y (b : bool) e cfg :
  fold_left (readConfigVar X Y) (if b then [e] else []) cfg
  = if b then readConfigVar X Y cfg e else cfg.
Proof. destruct b; reflexivity. Qed.

(** X3: the store configuration survives the trip through the environment of
    the provisioning container, as far as it is read: when the variables
    taken from other packages are not named as store variables,
    [getConfigFromContainer] gives the map with the store type, the
    database, WAL and journal sizes and the metadata device that are set,
    and nothing else; the OSD count per device and the encryption flag are
    not read back. *)
Theorem store_config_round_trip (X : Externals) (Y : MoreExternals) (c : Cluster.t)
  (o : OSDObject.t) (m : VolumeMount.t) :
  let sc := OSDObject.storeConfig o in
  existsb isStoreVariable (externalConfigEnv X c (DataDir X) (OSDObject.location o)) = false ->
  getConfigFromContainer X Y (provisionOSDContainer X c o m)
  = let cfg : gmap string string := ∅ in
    let cfg :=
      if negb (String.eqb (StoreConfig.StoreType sc) "")
      then <[StoreTypeKey Y := StoreConfig.StoreType sc]> cfg else cfg in
    let cfg :=
      if negb (StoreConfig.DatabaseSizeMB sc =? 0)
      then <[DatabaseSizeMBKey Y := Go.Itoa (StoreConfig.DatabaseSizeMB sc)]> cfg
      else cfg in
    let cfg :=
      if negb (StoreConfig.WalSizeMB sc =? 0)
      then <[WalSizeMBKey Y := Go.Itoa (StoreConfig.WalSizeMB sc)]> cfg else cfg in
    let cfg :=
      if negb (StoreConfig.JournalSizeMB sc =? 0)
      then <[JournalSizeMBKey Y := Go.Itoa (StoreConfig.JournalSizeMB sc)]> cfg
      else cfg in
    if negb (String.eqb (OSDObject.metadataDevice o) "")
    then <[MetadataDeviceKey X := OSDObject.metadataDevice o]> cfg else cfg.
Proof.
  intros sc Hext. unfold externalConfigEnv in Hext. cbn [existsb] in Hext.
  repeat (apply orb_false_iff in Hext; destruct Hext as [? Hext]).
  unfold getConfigFromContainer.
  rewrite provisionOSDContainer_Env, getConfigEnvVars_layout. fold sc.
  rewrite <- !app_assoc.
  (* the eleven variables that are always there *)
  rewrite fold_left_app.
  match goal with
  | |- fold_left _ _ (fold_left _ ?seg ?cfg) = _ =>
      rewrite (fold_readConfigVar_others X Y cfg seg)
        by (cbn [existsb]; repeat match goal with
                                  | H : isStoreVariable _ = false |- _ => rewrite H; clear H
                                  end; reflexivity)
  end.
  (* the store type and the three sizes are read *)
  do 4 (rewrite fold_left_app, fold_readConfigVar_optional;
        match goal with
        | |- fold_left _ _ ?cfg = _ => let st := fresh "cfg" in set (st := cfg)
        end).
  (* the OSD count, the encryption flag, the location and the devices are not *)
  do 4 (rewrite fold_left_app;
        match goal with
        | |- fold_left _ _ (fold_left _ ?seg ?cfg) = _ =>
            rewrite (fold_readConfigVar_others X Y cfg seg)
              by (repeat match goal with
                         | |- context [if ?b then _ else _] => destruct b
                         end; cbn [existsb];
                  repeat match goal with
                         | H : isStoreVariable _ = false |- _ => rewrite H; clear H
                         end; reflexivity)
        end).
  (* the metadata device is read, the claim and the directories are not *)
  rewrite fold_left_app, fold_readConfigVar_optional.
  match goal with
  | |- fold_left _ _ ?cfg = _ => let st := fresh "cfg" in set (st := cfg)
  end.
  rewrite fold_left_app.
  match goal with
  | |- fold_left _ _ (fold_left _ ?seg ?cfg) = _ =>
      rewrite (fold_readConfigVar_others X Y cfg seg)
        by (match goal with
            | |- context [if ?b then _ else _] => destruct b
            end; reflexivity)
  end.
  rewrite fold_readConfigVar_others
    by (match goal with
        | |- context [if ?b then _ else _] => destruct b
        end; reflexivity).
  reflexivity.
Qed.

(** A store configuration with a store type, a WAL size, an OSD count and
    encryption, and a metadata device. *)
Lemma store_config_round_trip_witness :
  getConfigFromContainer sampleExternals sampleMoreExternals
    (provisionOSDContainer sampleExternals sampleCluster
       (nodeWithStore (StoreConfig.mk "bluestore" 1024 0 0 2 true) "nvme0n1")
       (VolumeMount.mk rookBinariesVolumeName rookBinariesMountPath))
  = <["metadataDevice" := "nvme0n1"]>
      (<["walSizeMB" := "1024"]> (<["storeType" := "bluestore"]> ∅)).
Proof.
  exact (store_config_round_trip sampleExternals sampleMoreExternals sampleCluster
           (nodeWithStore (StoreConfig.mk "bluestore" 1024 0 0 2 true) "nvme0n1")
           (VolumeMount.mk rookBinariesVolumeName rookBinariesMountPath) eq_refl).
Defined.

(** X4: whatever the container, the configuration read from it has no key
    besides the five that [getConfigFromContainer] writes. *)
Theorem config_read_has_five_keys (X : Externals) (Y : MoreExternals)
  (osdContainer : Container.t) (key : string) :
  getConfigFromContainer X Y osdContainer !! key <> None ->
  In key [ StoreTypeKey Y; DatabaseSizeMBKey Y; WalSizeMBKey Y; JournalSizeMBKey Y;
           MetadataDeviceKey X ].
Proof.
  unfold getConfigFromContainer.
  assert (forall env (cfg : gmap string string),
            fold_left (readConfigVar X Y) env cfg !! key <> None ->
            cfg !! key <> None
            \/ In key [ StoreTypeKey Y; DatabaseSizeMBKey Y; WalSizeMBKey Y;
                        JournalSizeMBKey Y; MetadataDeviceKey X ]) as Hfold.
  { induction env as [|e env IH]; intros cfg H; cbn [fold_left] in H; [left; exact H|].
    destruct (IH _ H) as [Hstep|Hin]; [|right; exact Hin].
    unfold readConfigVar in Hstep.
    repeat match type of Hstep with
           | context [if ?b then _ else _] => destruct b
           end;
    try (left; exact Hstep);
    match type of Hstep with
    | <[?k := _]> _ !! _ <> None =>
        destruct (decide (k = key)) as [<-|Hne];
        [right; cbn [In]; tauto
        |rewrite lookup_insert_ne in Hstep by exact Hne; left; exact Hstep]
    end. }
  intros H. destruct (Hfold _ _ H) as [Hempty|Hin]; [|exact Hin].
  rewrite lookup_empty in Hempty. congruence.
Qed.

Lemma config_read_has_five_keys_witness :
  In "walSizeMB" [ "storeType"; "databaseSizeMB"; "walSizeMB"; "journalSizeMB";
                   "metadataDevice" ].
Proof.
  apply (config_read_has_five_keys sampleExternals sampleMoreExternals
           (provisionOSDContainer sampleExternals sampleCluster
              (nodeWithStore (StoreConfig.mk "bluestore" 1024 0 0 2 true) "nvme0n1")
              (VolumeMount.mk rookBinariesVolumeName rookBinariesMountPath))
           "walSizeMB").
  vm_compute. discriminate.
Defined.

(** ** The pod of the provisioning workload, laid out *)

Lemma onScheduling_eq f p :
  onScheduling f p
  = PodSpec.mk (fst (f (PodSpec.Affinity p, PodSpec.Tolerations p)))
      (snd (f (PodSpec.Affinity p, PodSpec.Tolerations p)))
      (PodSpec.NodeSelector p) (PodSpec.RestartPolicy p)
      (PodSpec.ServiceAccountName p) (PodSpec.HostNetwork p) (PodSpec.HostPID p)
      (PodSpec.HostIPC p) (PodSpec.DNSPolicy p) (PodSpec.InitContainers p)
      (PodSpec.Containers p) (PodSpec.Volumes p).
Proof. unfold onScheduling. destruct (f _). reflexivity. Qed.

(** What [provisionPodTemplateSpec] returns: the two containers, no init
    container, no node selector, the restart policy it was given, and the
    volumes: the shared ones and the binaries, then the host devices when a
    device mount is needed, the claim and its bridge when a claim is bound,
    and one volume for every directory that is not the default one. *)
Lemma provisionPodTemplateSpec_pod X c o restart :
  let claimName := PersistentVolumeClaimVolumeSource.ClaimName (OSDObject.pvc o) in
  exists t,
    provisionPodTemplateSpec X c o restart = inr t
    /\ PodSpec.Containers (PodTemplateSpec.Spec t)
       = [ snd (getCopyBinariesContainer X c);
           provisionOSDContainer X c o
             (VolumeMount.mk rookBinariesVolumeName rookBinariesMountPath) ]
    /\ PodSpec.InitContainers (PodTemplateSpec.Spec t) = []
    /\ PodSpec.NodeSelector (PodTemplateSpec.Spec t) = ∅
    /\ PodSpec.RestartPolicy (PodTemplateSpec.Spec t) = restart
    /\ PodSpec.HostIPC (PodTemplateSpec.Spec t)
       = StoreConfig.EncryptedDevice (OSDObject.storeConfig o)
    /\ PodSpec.Volumes (PodTemplateSpec.Spec t)
       = PodVolumes X (Cluster.dataDirHostPath c) (Cluster.Namespace c)
         ++ [Volume.mk rookBinariesVolumeName (EmptyDir "")]
         ++ (if devMountNeeded o
             then [Volume.mk "devices" (HostPath "/dev");
                   Volume.mk "udev" (HostPath "/run/udev")] else [])
         ++ (if negb (String.eqb claimName "")
             then [Volume.mk (OSDObject.name o) (PersistentVolumeClaimSource (OSDObject.pvc o));
                   Volume.mk (claimName +:+ "-bridge") (EmptyDir "Memory")] else [])
         ++ List.map (fun d => Volume.mk (PathToVolumeName X (Directory.Path d))
                                 (HostPath (Directory.Path d)))
              (List.filter (fun d => negb (skipVolumeForDirectory X c (Directory.Path d)))
                 (Selection.Directories (OSDObject.selection o))).
Proof.
  intros claimName. subst claimName.
  destruct (provisionPodTemplateSpec_succeeds X c o restart) as (t & Ht & _ & _).
  exists t. split; [exact Ht|].
  unfold provisionPodTemplateSpec in Ht. cbn in Ht.
  rewrite fold_left_snoc_filter in Ht.
  fold (devMountNeeded o) in Ht.
  match type of Ht with
  | context [Nat.eqb (length ?v) 0] => destruct (Nat.eqb (length v) 0); [discriminate Ht|]
  end.
  injection Ht as <-.
  destruct (Cluster.HostNetwork c), (devMountNeeded o),
    (String.eqb (PersistentVolumeClaimVolumeSource.ClaimName (OSDObject.pvc o)) "");
    rewrite ?onScheduling_eq; cbn; rewrite <- ?app_assoc;
    repeat split; reflexivity.
Qed.

(** X6: every mount the provisioning builder gives its container refers to a
    volume of the pod: a mount of the provisioning container is one of the
    shared mounts of the other package, or has the name of a volume that
    [provisionPodTemplateSpec] put in the pod. *)
Theorem provision_mounts_have_volumes (X : Externals) (c : Cluster.t) (o : OSDObject.t)
  (restart : RestartPolicy) :
  exists t k,
    provisionPodTemplateSpec X c o restart = inr t
    /\ provisionContainerOf t = Some k
    /\ forall mount, In mount (Container.VolumeMounts k) ->
         In mount (CephVolumeMounts X)
         \/ exists v, In v (PodSpec.Volumes (PodTemplateSpec.Spec t))
                      /\ Volume.Name v = VolumeMount.Name mount.
Proof.
  destruct (provisionPodTemplateSpec_pod X c o restart)
    as (t & Ht & _ & _ & _ & _ & _ & Hvols).
  destruct (provisionPodTemplateSpec_succeeds X c o restart) as (t' & Ht' & _ & Hk).
  assert (t' = t) by congruence. subst t'.
  exists t. eexists. split; [exact Ht|]. split; [exact Hk|].
  intros mount Hin. rewrite provisionOSDContainer_VolumeMounts in Hin.
  rewrite Hvols. rewrite !in_app_iff in Hin.
  destruct Hin as [Hin|[Hin|[Hin|[Hin|Hin]]]]; [left; exact Hin|right..].
  - destruct Hin as [<-|[]].
    exists (Volume.mk rookBinariesVolumeName (EmptyDir "")). split; [|reflexivity].
    rewrite !in_app_iff. cbn [In]. tauto.
  - destruct (devMountNeeded o); [|destruct Hin].
    destruct Hin as [<-|[<-|[]]];
      [exists (Volume.mk "devices" (HostPath "/dev"))
      |exists (Volume.mk "udev" (HostPath "/run/udev"))];
      (split; [|reflexivity]); rewrite !in_app_iff; cbn [In]; tauto.
  - destruct (negb (String.eqb _ "")); [|destruct Hin].
    destruct Hin as [<-|[]].
    exists (Volume.mk
              (PersistentVolumeClaimVolumeSource.ClaimName (OSDObject.pvc o) +:+ "-bridge")
              (EmptyDir "Memory")).
    split; [|reflexivity]. rewrite !in_app_iff. cbn [In]. tauto.
  - apply in_map_iff in Hin. destruct Hin as (p & <- & Hp).
    apply filter_In in Hp. destruct Hp as [Hp Hskip].
    apply in_map_iff in Hp. destruct Hp as (d & <- & Hd).
    exists (Volume.mk (PathToVolumeName X (Directory.Path d)) (HostPath (Directory.Path d))).
    split; [|reflexivity]. rewrite !in_app_iff. do 4 right.
    apply in_map_iff. exists d. split; [reflexivity|].
    apply filter_In. split; assumption.
Qed.

(** ** The provisioning job *)

Lemma Job_Template_onJobMetas f j :
  PodTemplateSpec.Spec (Job.Template (onJobMetas f j)) = PodTemplateSpec.Spec (Job.Template j).
Proof. unfold onJobMetas. destruct (f _). reflexivity. Qed.

(** X8: [makeJob] returns a job for every descriptor.  Its pod has the two
    containers and the volumes of the provisioning pod template and
    restarts on failure.  Without a claim the job is pinned to the node by
    the host name label and has no init container; with a claim it has an
    empty node selector and the block device mapper as its only init
    container. *)
Theorem makeJob_pod (X : Externals) (Y : MoreExternals) (c : Cluster.t) (o : OSDObject.t) :
  let claimName := PersistentVolumeClaimVolumeSource.ClaimName (OSDObject.pvc o) in
  exists j t,
    makeJob X Y c o = inr j
    /\ provisionPodTemplateSpec X c o RestartPolicyOnFailure = inr t
    /\ let p := PodTemplateSpec.Spec (Job.Template j) in
       PodSpec.Containers p = PodSpec.Containers (PodTemplateSpec.Spec t)
       /\ PodSpec.Volumes p = PodSpec.Volumes (PodTemplateSpec.Spec t)
       /\ PodSpec.RestartPolicy p = RestartPolicyOnFailure
       /\ (PodSpec.NodeSelector p, PodSpec.InitContainers p)
          = if String.eqb claimName ""
            then (<[LabelHostname := OSDObject.name o]> ∅, [])
            else (∅, [getInitContainers X c (OSDObject.pvc o)]).
Proof.
  intros claimName. subst claimName.
  destruct (provisionPodTemplateSpec_pod X c o RestartPolicyOnFailure)
    as (t & Ht & _ & Hinit & _ & Hrestart & _ & _).
  unfold makeJob. rewrite Ht. eexists. exists t. split; [reflexivity|].
  split; [reflexivity|]. cbv zeta. rewrite !Job_Template_onJobMetas.
  destruct (String.eqb (PersistentVolumeClaimVolumeSource.ClaimName (OSDObject.pvc o)) "");
    destruct (negb (Nat.eqb (String.length _) 0));
    rewrite ?Job_Template_onJobMetas; cbn; rewrite ?Hinit, ?Hrestart;
    repeat split; reflexivity.
Qed.

(** ** The pod of the daemon deployment, laid out *)

(** The pod of a deployment that was built: the mounts and the environment
    of the daemon container, the volumes, the init containers and the node
    selector. *)
Lemma makeDeployment_pod X c o osd d :
  makeDeployment X c o osd = inr d ->
  let claimName := PersistentVolumeClaimVolumeSource.ClaimName (OSDObject.pvc o) in
  let parentDir := Go.Dir (OSDInfo.DataPath osd) in
  let volumeName := PathToVolumeName X parentDir in
  let ownDir := OSDInfo.IsDirectory osd && negb (String.eqb parentDir (DataDir X)) in
  let osdID := Go.Itoa (OSDInfo.ID osd) in
  exists k configInit,
    PodSpec.Containers (podSpecOf d) = [k]
    /\ Container.VolumeMounts k
       = CephVolumeMounts X
         ++ (if ownDir then [VolumeMount.mk volumeName parentDir] else [])
         ++ (if OSDInfo.IsDirectory osd then [] else [VolumeMount.mk "devices" "/dev"])
         ++ [VolumeMount.mk rookBinariesVolumeName rookBinariesMountPath]
         ++ (if OSDInfo.CephVolumeInitiated osd
             then [VolumeMount.mk "run-udev" "/run/udev"] else [])
         ++ (if negb (String.eqb claimName "")
             then [VolumeMount.mk (claimName +:+ "-bridge") "/mnt"] else [])
    /\ Container.Env k
       = [ nodeNameEnvVar (OSDObject.name o); PodIPEnvVar X (PrivateIPEnvVar X);
           PodIPEnvVar X (PublicIPEnvVar X); envVar "TINI_SUBREAPER" "" ]
         ++ ClusterDaemonEnvVars X (Cluster.cephVersionImage c)
         ++ [ envVar "ROOK_OSD_UUID" (OSDInfo.UUID osd); envVar "ROOK_OSD_ID" osdID;
              envVar "ROOK_OSD_STORE_TYPE"
                (if OSDInfo.IsFileStore osd then Filestore X else Bluestore X) ]
         ++ (if negb (String.eqb claimName "") then [pvcBackedOSDEnvVar "true"] else [])
    /\ PodSpec.Volumes (podSpecOf d)
       = PodVolumes X (Cluster.dataDirHostPath c) (Cluster.Namespace c)
         ++ (if ownDir then [Volume.mk volumeName (HostPath parentDir)] else [])
         ++ (if OSDInfo.IsDirectory osd then [] else [Volume.mk "devices" (HostPath "/dev")])
         ++ (if negb (String.eqb claimName "")
             then [Volume.mk (OSDObject.name o) (PersistentVolumeClaimSource (OSDObject.pvc o));
                   Volume.mk (claimName +:+ "-bridge") (EmptyDir "Memory")] else [])
         ++ [Volume.mk rookBinariesVolumeName (EmptyDir "")]
         ++ (if OSDInfo.CephVolumeInitiated osd
             then [Volume.mk "run-udev" (HostPath "/run/udev")] else [])
    /\ PodSpec.InitContainers (podSpecOf d)
       = [configInit; snd (getCopyBinariesContainer X c)]
         ++ (if String.eqb claimName "" then [] else [getInitContainers X c (OSDObject.pvc o)])
    /\ Container.VolumeMounts configInit
       = RookVolumeMounts X
         ++ (if ownDir then [VolumeMount.mk volumeName parentDir] else [])
    /\ Container.Env configInit
       = getConfigEnvVars X c (OSDObject.storeConfig o)
           (if OSDInfo.IsDirectory osd then parentDir else DataDir X)
           (OSDObject.name o) (OSDObject.location o)
         ++ [ envVar "TINI_SUBREAPER" ""; envVar "ROOK_OSD_ID" osdID;
              envVar "ROOK_CEPH_VERSION"
                (CephVersionFormatted X (Cluster.clusterInfoCephVersion c)) ]
         ++ (if OSDInfo.IsDirectory osd then [] else [envVar "ROOK_IS_DEVICE" "true"])
    /\ PodSpec.NodeSelector (podSpecOf d)
       = if String.eqb claimName "" then <[LabelHostname := OSDObject.name o]> ∅ else ∅.
Proof.
  intros H. unfold makeDeployment in H.
  destruct osd as [id dataPath config cluster keyring uuid journal isFS isDir partuuid cv].
  cbn [OSDInfo.ID OSDInfo.DataPath OSDInfo.Config OSDInfo.Cluster OSDInfo.KeyringPath
       OSDInfo.UUID OSDInfo.Journal OSDInfo.IsFileStore OSDInfo.IsDirectory
       OSDInfo.DevicePartUUID OSDInfo.CephVolumeInitiated] in *.
  destruct (String.eqb (PersistentVolumeClaimVolumeSource.ClaimName (OSDObject.pvc o)) "");
  (destruct isDir; [destruct (String.eqb (Go.Dir dataPath) (DataDir X))|]);
  destruct isFS, cv;
  cbn in H; rewrite ?length_snoc_eqb in H;
  try (destruct (Nat.eqb (length _) 0); [discriminate H|]);
  injection H as <-;
  through_edits; unfold podSpecOf; rewrite ?onScheduling_eq; cbn;
  do 2 eexists; rewrite <- ?app_assoc, ?app_nil_r;
  repeat split; reflexivity.
Qed.

Ltac in_apps := rewrite !in_app_iff; cbn [In]; tauto.

(** X9: every mount the deployment builder gives the daemon container and the
    config init container refers to a volume of the pod: the mount is one
    of the shared mounts of the other package, or has the name of a volume
    that [makeDeployment] put in the pod. *)
Theorem daemon_mounts_have_volumes (X : Externals) (c : Cluster.t) (o : OSDObject.t)
  (osd : OSDInfo.t) (d : Deployment.t) :
  makeDeployment X c o osd = inr d ->
  exists k configInit,
    osdContainerOf d = Some k
    /\ head (PodSpec.InitContainers (podSpecOf d)) = Some configInit
    /\ (forall mount, In mount (Container.VolumeMounts k) ->
          In mount (CephVolumeMounts X)
          \/ exists v, In v (PodSpec.Volumes (podSpecOf d))
                       /\ Volume.Name v = VolumeMount.Name mount)
    /\ (forall mount, In mount (Container.VolumeMounts configInit) ->
          In mount (RookVolumeMounts X)
          \/ exists v, In v (PodSpec.Volumes (podSpecOf d))
                       /\ Volume.Name v = VolumeMount.Name mount).
Proof.
  intros Hd.
  destruct (makeDeployment_pod X c o osd d Hd)
    as (k & configInit & Hk & Hmounts & _ & Hvols & Hinit & Hcmounts & _ & _).
  exists k, configInit.
  split; [unfold osdContainerOf; rewrite Hk; reflexivity|].
  split; [rewrite Hinit; reflexivity|].
  rewrite Hmounts, Hcmounts, Hvols. split.
  - intros mount Hin. rewrite !in_app_iff in Hin.
    destruct Hin as [Hin|[Hin|[Hin|[Hin|[Hin|Hin]]]]]; [left; exact Hin|right..].
    + destruct (_ && _); [|destruct Hin]. destruct Hin as [<-|[]].
      eexists (Volume.mk _ _). split; [|reflexivity]. in_apps.
    + destruct (OSDInfo.IsDirectory osd); [destruct Hin|]. destruct Hin as [<-|[]].
      exists (Volume.mk "devices" (HostPath "/dev")). split; [|reflexivity]. in_apps.
    + destruct Hin as [<-|[]].
      exists (Volume.mk rookBinariesVolumeName (EmptyDir "")). split; [|reflexivity].
      in_apps.
    + destruct (OSDInfo.CephVolumeInitiated osd); [|destruct Hin]. destruct Hin as [<-|[]].
      exists (Volume.mk "run-udev" (HostPath "/run/udev")). split; [|reflexivity]. in_apps.
    + destruct (negb (String.eqb _ "")); [|destruct Hin]. destruct Hin as [<-|[]].
      exists (Volume.mk
                (PersistentVolumeClaimVolumeSource.ClaimName (OSDObject.pvc o) +:+ "-bridge")
                (EmptyDir "Memory")).
      split; [|reflexivity]. in_apps.
  - intros mount Hin. rewrite !in_app_iff in Hin.
    destruct Hin as [Hin|Hin]; [left; exact Hin|right].
    destruct (_ && _); [|destruct Hin]. destruct Hin as [<-|[]].
    eexists (Volume.mk _ _). split; [|reflexivity]. in_apps.
Qed.

(** A directory-based bluestore worker in a directory of its own. *)
Lemma daemon_mounts_have_volumes_witness :
  exists d k,
    makeDeployment sampleExternals sampleCluster bareNode (sampleOSD false true false)
      = inr d
    /\ osdContainerOf d = Some k
    /\ forall mount, In mount (Container.VolumeMounts k) ->
         In mount (CephVolumeMounts sampleExternals)
         \/ exists v, In v (PodSpec.Volumes (podSpecOf d))
                      /\ Volume.Name v = VolumeMount.Name mount.
Proof.
  eexists.
  destruct (daemon_mounts_have_volumes sampleExternals sampleCluster bareNode
              (sampleOSD false true false) _ eq_refl) as (k & _ & Hk & _ & Hm & _).
  exists k. split; [reflexivity|]. split; [exact Hk | exact Hm].
Defined.

(** X10: the deployment of a worker backed by a claim: it is not pinned to a
    node, the block device mapper is its last init container, the daemon is
    told last in its environment that it is backed by a claim and mounts
    the bridge, and the claim is a volume of the pod under the name of the
    descriptor.  The device the mapper copies from is named after the
    claim.  When the descriptor is named after its claim, that device is the
    volume of the claim; and when none of the shared pod volumes is backed
    by a claim, the device names a claim-backed volume of the pod only
    then: exactly when the descriptor is named after its claim. *)
Theorem claim_backed_deployment (X : Externals) (c : Cluster.t) (o : OSDObject.t)
  (osd : OSDInfo.t) (d : Deployment.t) :
  let pvc := OSDObject.pvc o in
  let claimName := PersistentVolumeClaimVolumeSource.ClaimName pvc in
  makeDeployment X c o osd = inr d ->
  claimName <> "" ->
  PodSpec.NodeSelector (podSpecOf d) = ∅
  /\ last (PodSpec.InitContainers (podSpecOf d)) = Some (getInitContainers X c pvc)
  /\ (exists k, osdContainerOf d = Some k
        /\ last (Container.Env k) = Some (pvcBackedOSDEnvVar "true")
        /\ In (VolumeMount.mk (claimName +:+ "-bridge") "/mnt") (Container.VolumeMounts k))
  /\ In (Volume.mk (OSDObject.name o) (PersistentVolumeClaimSource pvc))
       (PodSpec.Volumes (podSpecOf d))
  /\ In (Volume.mk (claimName +:+ "-bridge") (EmptyDir "Memory"))
       (PodSpec.Volumes (podSpecOf d))
  /\ (OSDObject.name o = claimName ->
      forall dev, In dev (Container.VolumeDevices (getInitContainers X c pvc)) ->
        In (Volume.mk (VolumeDevice.Name dev) (PersistentVolumeClaimSource pvc))
          (PodSpec.Volumes (podSpecOf d)))
  /\ (forall dev, In dev (Container.VolumeDevices (getInitContainers X c pvc)) ->
        VolumeDevice.Name dev = claimName)
  /\ ((forall v, In v (PodVolumes X (Cluster.dataDirHostPath c) (Cluster.Namespace c)) ->
         claimBacked v = false) ->
      forall dev, In dev (Container.VolumeDevices (getInitContainers X c pvc)) ->
        (exists v, In v (PodSpec.Volumes (podSpecOf d))
                   /\ claimBacked v = true
                   /\ Volume.Name v = VolumeDevice.Name dev)
        <-> OSDObject.name o = claimName).
Proof.
  intros pvc claimName Hd Hclaim.
  destruct (makeDeployment_pod X c o osd d Hd)
    as (k & configInit & Hk & Hmounts & Henv & Hvols & Hinit & _ & _ & Hsel).
  fold pvc claimName in Hmounts, Henv, Hvols, Hinit, Hsel.
  destruct (String.eqb_spec claimName "") as [?|_]; [contradiction|].
  cbn [negb] in *.
  split; [exact Hsel|]. split; [rewrite Hinit; reflexivity|].
  split.
  { exists k. split; [unfold osdContainerOf; rewrite Hk; reflexivity|].
    split.
    - rewrite Henv, !app_assoc. apply last_snoc.
    - rewrite Hmounts. in_apps. }
  rewrite Hvols. split; [in_apps|]. split; [in_apps|].
  split.
  { intros Hname dev Hdev. unfold getInitContainers in Hdev.
    cbn [Container.VolumeDevices In] in Hdev. destruct Hdev as [<-|[]].
    cbn [VolumeDevice.Name]. fold pvc claimName. rewrite <- Hname. in_apps. }
  split.
  { intros dev Hdev. unfold getInitContainers in Hdev.
    cbn [Container.VolumeDevices In] in Hdev. destruct Hdev as [<-|[]]. reflexivity. }
  intros Hshared dev Hdev. unfold getInitContainers in Hdev.
  cbn [Container.VolumeDevices In] in Hdev. destruct Hdev as [<-|[]].
  cbn [VolumeDevice.Name]. fold pvc claimName. split.
  - intros (v & Hin & Hbacked & Hname). rewrite !in_app_iff in Hin.
    destruct Hin as [Hin|[Hin|[Hin|[Hin|[Hin|Hin]]]]].
    + rewrite (Hshared v Hin) in Hbacked. discriminate.
    + destruct (_ && _); [|destruct Hin]. destruct Hin as [<-|[]]. discriminate.
    + destruct (OSDInfo.IsDirectory osd); [destruct Hin|]. destruct Hin as [<-|[]].
      discriminate.
    + destruct Hin as [<-|[<-|[]]]; [exact Hname | discriminate].
    + destruct Hin as [<-|[]]. discriminate.
    + destruct (OSDInfo.CephVolumeInitiated osd); [|destruct Hin].
      destruct Hin as [<-|[]]. discriminate.
  - intros Hname. exists (Volume.mk (OSDObject.name o) (PersistentVolumeClaimSource pvc)).
    split; [in_apps|]. split; [reflexivity | exact Hname].
Qed.

(** A worker backed by the claim [set1-0-data-x]: named after it, and named
    [node1], where the device of the mapper names no claim-backed volume. *)
Lemma claim_backed_deployment_witness :
  (exists d,
     makeDeployment sampleExternals sampleCluster (nodeWithClaim "set1-0-data-x")
       (sampleOSD false false true) = inr d
     /\ PodSpec.NodeSelector (podSpecOf d) = ∅
     /\ In (Volume.mk "set1-0-data-x"
              (PersistentVolumeClaimSource
                 (PersistentVolumeClaimVolumeSource.mk "set1-0-data-x" false)))
          (PodSpec.Volumes (podSpecOf d)))
  /\ (exists d,
        makeDeployment sampleExternals sampleCluster
          (nodeBackedByClaim "node1" "set1-0-data-x") (sampleOSD false false true) = inr d
        /\ In (Volume.mk "node1"
                 (PersistentVolumeClaimSource
                    (PersistentVolumeClaimVolumeSource.mk "set1-0-data-x" false)))
             (PodSpec.Volumes (podSpecOf d))
        /\ ~ exists v, In v (PodSpec.Volumes (podSpecOf d))
                       /\ claimBacked v = true
                       /\ Volume.Name v = "set1-0-data-x").
Proof.
  split.
  - eexists.
    destruct (claim_backed_deployment sampleExternals sampleCluster
                (nodeWithClaim "set1-0-data-x") (sampleOSD false false true) _ eq_refl)
      as (Hsel & _ & _ & Hvol & _).
    { discriminate. }
    split; [reflexivity|]. split; [exact Hsel | exact Hvol].
  - eexists.
    destruct (claim_backed_deployment sampleExternals sampleCluster
                (nodeBackedByClaim "node1" "set1-0-data-x") (sampleOSD false false true)
                _ eq_refl)
      as (_ & _ & _ & Hvol & _ & _ & _ & Honly).
    { discriminate. }
    split; [reflexivity|]. split; [exact Hvol|].
    intros Hsome.
    apply (Honly (fun v Hv => match Hv with
                              | or_introl Heq => f_equal claimBacked (eq_sym Heq)
                              | or_intror Hnone => match Hnone with end
                              end)
             (VolumeDevice.mk "set1-0-data-x" "/set1-0-data-x") (or_introl eq_refl))
      in Hsome.
    discriminate Hsome.
Defined.

(** Named after its node, the worker gets no volume at all under the name
    of the device of its mapper. *)
Example mapper_device_without_volume :
  match makeDeployment sampleExternals sampleCluster
          (nodeBackedByClaim "node1" "set1-0-data-x") (sampleOSD false false true) with
  | inr d =>
      (List.map VolumeDevice.Name
         (flat_map Container.VolumeDevices (PodSpec.InitContainers (podSpecOf d))),
       List.map Volume.Name (PodSpec.Volumes (podSpecOf d)))
  | inl _ => ([], [])
  end
  = (["set1-0-data-x"],
     ["rook-data"; "devices"; "node1"; "set1-0-data-x-bridge"; "rook-binaries"; "run-udev"]).
Proof. vm_compute. reflexivity. Qed.

(** X11: the log and network flags close the arguments of the daemon in each of
    the three command forms: the arguments end with [--default-log-to-file
    false] from 14.2.1 on, followed by what [osdOnSDNFlag] gives. *)
Theorem log_and_network_flags_in_every_form (X : Externals) (c : Cluster.t)
  (o : OSDObject.t) (osd : OSDInfo.t) (d : Deployment.t) :
  makeDeployment X c o osd = inr d ->
  exists k before,
    osdContainerOf d = Some k
    /\ Container.Args k
       = before
         ++ (if IsAtLeast X (Cluster.clusterInfoCephVersion c) (CephVersion.mk 14 2 1)
             then ["--default-log-to-file"; "false"] else [])
         ++ osdOnSDNFlag X (Cluster.HostNetwork c) (Cluster.clusterInfoCephVersion c).
Proof.
  intros Hd.
  destruct (makeDeployment_daemon_container X c o osd d Hd) as (k & Hk & _ & Hcmd).
  exists k. apply (f_equal snd) in Hcmd. cbn [snd] in Hcmd.
  destruct (negb (OSDInfo.IsDirectory osd) && OSDInfo.IsFileStore osd
            && negb (OSDInfo.CephVolumeInitiated osd));
    [|destruct (OSDInfo.CephVolumeInitiated osd)]; cbn [snd] in Hcmd.
  - match type of Hcmd with
    | _ = ?w ++ ?b ++ ?mt ++ ?j ++ _ ++ _ => exists (w ++ b ++ mt ++ j)
    end.
    split; [unfold osdContainerOf; rewrite Hk; reflexivity|].
    rewrite Hcmd, <- !app_assoc. reflexivity.
  - match type of Hcmd with
    | _ = ?w ++ _ ++ _ => exists w
    end.
    split; [unfold osdContainerOf; rewrite Hk; reflexivity|]. exact Hcmd.
  - match type of Hcmd with
    | _ = ?b ++ ?mt ++ ?j ++ _ ++ _ => exists (b ++ mt ++ j)
    end.
    split; [unfold osdContainerOf; rewrite Hk; reflexivity|].
    rewrite Hcmd, <- !app_assoc. reflexivity.
Qed.

(** A ceph-volume worker on 14.2.4 without host networking. *)
Lemma log_and_network_flags_in_every_form_witness :
  exists d k before,
    makeDeployment sampleExternals nautilusCluster bareNode (sampleOSD false false true)
      = inr d
    /\ osdContainerOf d = Some k
    /\ Container.Args k
       = before ++ ["--default-log-to-file"; "false"] ++ ["--ms-learn-addr-from-peer=false"].
Proof.
  eexists.
  destruct (log_and_network_flags_in_every_form sampleExternals nautilusCluster bareNode
              (sampleOSD false false true) _ eq_refl) as (k & before & Hk & Hargs).
  exists k, before. split; [reflexivity|]. split; [exact Hk | exact Hargs].
Defined.

(** ** More on the Volume Claim Allocator *)

(** X12: the claim that is made for a device set: its generate-name is the
    identity and a dash, followed by the name of the template and a dash
    when the template has a name; its annotations and spec are those of the
    template; it has every label of the template, the four labels of the
    device set where the template does not set the same key, and no other
    label. *)
Theorem made_claim_labels (name id : string) (pvcIndex setIndex : Z)
  (t : PersistentVolumeClaim.t) :
  let made := makeStorageClassDeviceSetPVC name id pvcIndex setIndex t in
  let generated :=
    [ ("ceph.rook.io/storageClassDeviceSet", name);
      ("ceph.rook.io/pvcIndex", Go.Itoa pvcIndex);
      ("ceph.rook.io/setIndex", Go.Itoa setIndex);
      ("ceph.rook.io/StorageClassDeviceSetPVCId", id) ] in
  PersistentVolumeClaim.GetGenerateName made
    = (if Nat.eqb (String.length (PersistentVolumeClaim.GetName t)) 0
       then id +:+ "-" else (id +:+ "-") +:+ PersistentVolumeClaim.GetName t +:+ "-")
  /\ PersistentVolumeClaim.GetName made = ""
  /\ PersistentVolumeClaim.Spec made = PersistentVolumeClaim.Spec t
  /\ ObjectMeta.Annotations (PersistentVolumeClaim.ObjectMeta made)
     = ObjectMeta.Annotations (PersistentVolumeClaim.ObjectMeta t)
  /\ (forall key value,
        PersistentVolumeClaim.GetLabels t !! key = Some value ->
        PersistentVolumeClaim.GetLabels made !! key = Some value)
  /\ (forall key value,
        In (key, value) generated ->
        PersistentVolumeClaim.GetLabels t !! key = None ->
        PersistentVolumeClaim.GetLabels made !! key = Some value)
  /\ (forall key,
        PersistentVolumeClaim.GetLabels t !! key = None ->
        ~ In key (List.map fst generated) ->
        PersistentVolumeClaim.GetLabels made !! key = None).
Proof.
  intros made generated. subst made generated.
  split; [unfold makeStorageClassDeviceSetPVC;
          destruct (Nat.eqb (String.length _) 0); reflexivity|].
  split; [reflexivity|]. split; [reflexivity|]. split; [reflexivity|].
  assert (forall key,
            PersistentVolumeClaim.GetLabels
              (makeStorageClassDeviceSetPVC name id pvcIndex setIndex t) !! key
            = match PersistentVolumeClaim.GetLabels t !! key with
              | Some v => Some v
              | None => makeStorageClassDeviceSetPVCLabel name id pvcIndex setIndex !! key
              end) as Hlookup.
  { intros key. unfold makeStorageClassDeviceSetPVC.
    cbn [PersistentVolumeClaim.GetLabels PersistentVolumeClaim.ObjectMeta ObjectMeta.Labels].
    apply merged_labels_lookup. }
  split; [|split].
  - intros key value Ht. rewrite Hlookup, Ht. reflexivity.
  - intros key value Hin Ht. rewrite Hlookup, Ht.
    unfold makeStorageClassDeviceSetPVCLabel. cbn [In] in Hin.
    destruct Hin as [Heq|[Heq|[Heq|[Heq|[]]]]]; injection Heq as <- <-.
    + apply lookup_insert_eq.
    + rewrite lookup_insert_ne by discriminate. apply lookup_insert_eq.
    + rewrite !lookup_insert_ne by discriminate. apply lookup_insert_eq.
    + rewrite !lookup_insert_ne by discriminate. apply lookup_insert_eq.
  - intros key Ht Hnot. rewrite Hlookup, Ht.
    unfold makeStorageClassDeviceSetPVCLabel. cbn [List.map fst In] in Hnot.
    rewrite !lookup_insert_ne by (intros <-; tauto). apply lookup_empty.
Qed.

Lemma append_length (s t : string) :
  String.length (s +:+ t) = (String.length s + String.length t)%nat.
Proof.
  induction s as [|a s IH]; [reflexivity|].
  change (String a s +:+ t) with (String a (s +:+ t)). cbn [String.length Nat.add].
  rewrite IH. reflexivity.
Qed.

Lemma append_inj_r (s t u : string) : s +:+ u = t +:+ u -> s = t.
Proof.
  revert t. induction s as [|a s IH]; intros [|b t] H.
  - reflexivity.
  - apply (f_equal String.length) in H.
    change ("" +:+ u) with u in H. rewrite append_length in H. cbn in H. lia.
  - apply (f_equal String.length) in H.
    change ("" +:+ u) with u in H. rewrite append_length in H. cbn in H. lia.
  - change (String a (s +:+ u) = String b (t +:+ u)) in H. injection H as -> H.
    rewrite (IH t H). reflexivity.
Qed.

Lemma identity_inj (name : string) (i j pvcIndex : Z) :
  fst (makeStorageClassDeviceSetPVCID name i pvcIndex)
    = fst (makeStorageClassDeviceSetPVCID name j pvcIndex) -> i = j.
Proof.
  cbn [fst makeStorageClassDeviceSetPVCID]. intros H.
  apply (inj (String.app name)) in H. apply (inj (String.app "-")) in H.
  apply append_inj_r in H. unfold Go.Itoa in H. apply (inj pretty) in H. exact H.
Qed.

(** X13: two set indices of a device set have the same claim identity, or the
    same label selector, only when they are the same index. *)
Theorem identity_separates_set_indices (name : string) (i j pvcIndex : Z) :
  (fst (makeStorageClassDeviceSetPVCID name i pvcIndex)
     = fst (makeStorageClassDeviceSetPVCID name j pvcIndex) -> i = j)
  /\ (snd (makeStorageClassDeviceSetPVCID name i pvcIndex)
        = snd (makeStorageClassDeviceSetPVCID name j pvcIndex) -> i = j).
Proof.
  split; [apply identity_inj|].
  cbn [snd makeStorageClassDeviceSetPVCID]. intros H.
  apply (inj (String.app "ceph.rook.io/StorageClassDeviceSetPVCId=")) in H.
  apply (identity_inj name i j pvcIndex). exact H.
Qed.

(** X14: an error of the store is handed on: when the list request fails, or
    the list is empty and the create request fails, the allocator returns
    the "failed to create pvc" error with the generate-name of the claim,
    the name of the device set and the error of the store; it issues no
    further request and the store is as before. *)
Theorem allocator_hands_on_store_errors (c : Cluster.t) (ds : StorageClassDeviceSet.t)
  (setIndex : Z) (faults : Faults) (srv : ApiServer.t)
  (t : PersistentVolumeClaim.t) (rest : list PersistentVolumeClaim.t) (err : ApiError) :
  let name := StorageClassDeviceSet.Name ds in
  let ns := Cluster.Namespace c in
  let id := fst (makeStorageClassDeviceSetPVCID name setIndex 0) in
  let sel := snd (makeStorageClassDeviceSetPVCID name setIndex 0) in
  let pvc := makeStorageClassDeviceSetPVC name id 0 setIndex t in
  let failed := ErrFailedToCreatePVC (PersistentVolumeClaim.GetGenerateName pvc) name err in
  StorageClassDeviceSet.VolumeClaimTemplates ds = t :: rest ->
  (faults srv (ReqList ns sel) = Some err ->
   run faults (createStorageClassDeviceSetPVC c ds setIndex) srv
   = (inl failed, srv, [ReqList ns sel]))
  /\ (faults srv (ReqList ns sel) = None ->
      serveList srv ns sel = [] ->
      faults srv (ReqCreate ns pvc) = Some err ->
      run faults (createStorageClassDeviceSetPVC c ds setIndex) srv
      = (inl failed, srv, [ReqList ns sel; ReqCreate ns pvc])).
Proof.
  intros name ns id sel pvc failed Ht.
  rewrite (createStorageClassDeviceSetPVC_unfold c ds setIndex t rest Ht).
  fold name ns id sel pvc. cbn [run]. split.
  - intros ->. reflexivity.
  - intros Hlist Hnone Hcreate. rewrite Hlist, Hnone. cbn [length Nat.eqb run].
    rewrite Hcreate. reflexivity.
Qed.

(** A store whose list request fails with [timeout]. *)
Lemma allocator_hands_on_store_errors_witness :
  run (fun _ r => if isCreate r then None else Some "timeout")
    (createStorageClassDeviceSetPVC sampleCluster (sampleDeviceSet [sampleTemplate]) 0)
    emptyServer
  = (inl (ErrFailedToCreatePVC "set1-0-0-data-" "set1" "timeout"), emptyServer,
     [ReqList "rook-ceph" "ceph.rook.io/StorageClassDeviceSetPVCId=set1-0-0"]).
Proof.
  exact (proj1 (allocator_hands_on_store_errors sampleCluster
                  (sampleDeviceSet [sampleTemplate]) 0
                  (fun _ r => if isCreate r then None else Some "timeout") emptyServer
                  sampleTemplate [] "timeout" eq_refl) eq_refl).
Defined.

Lemma allocator_effect (c : Cluster.t) (ds : StorageClassDeviceSet.t)
  (setIndex : Z) (faults : Faults) (srv : ApiServer.t) :
  let '(r, srv', _) := run faults (createStorageClassDeviceSetPVC c ds setIndex) srv in
  match r with
  | inl _ => srv' = srv
  | inr pvc =>
      In pvc (ApiServer.claims srv')
      /\ ObjectMeta.Namespace (PersistentVolumeClaim.ObjectMeta pvc) = Cluster.Namespace c
      /\ (srv' = srv
          \/ ApiServer.claims srv' = ApiServer.claims srv ++ [pvc])
  end.
Proof.
  destruct (StorageClassDeviceSet.VolumeClaimTemplates ds) as [|t rest] eqn:Ht.
  { unfold createStorageClassDeviceSetPVC. rewrite Ht. reflexivity. }
  rewrite (createStorageClassDeviceSetPVC_unfold c ds setIndex t rest Ht).
  cbn [run].
  destruct (faults srv (ReqList _ _)); [reflexivity|].
  destruct (serveList srv _ _) as [|a [|b l]] eqn:Hserve; cbn.
  - destruct (faults srv (ReqCreate _ _)); cbn; [reflexivity|].
    split; [apply in_or_app; right; left; reflexivity|]. split; [reflexivity|].
    right. reflexivity.
  - assert (In a (serveList srv (Cluster.Namespace c)
                    (snd (makeStorageClassDeviceSetPVCID (StorageClassDeviceSet.Name ds)
                            setIndex 0)))) as Hin by (rewrite Hserve; left; reflexivity).
    unfold serveList in Hin. apply filter_In in Hin. destruct Hin as [Hin Hsel].
    apply selected_identity in Hsel. destruct Hsel as [Hns _].
    split; [exact Hin|]. split; [exact Hns|]. left. reflexivity.
  - reflexivity.
Qed.

(** X15: what a call of the allocator does to the store.  A call that returns
    an error leaves the store as it was.  A call that returns a claim
    returns a claim of the cluster's namespace that the store holds
    afterwards, and the store is as before or has that one claim more, at
    its end. *)
Theorem allocator_store_effect (c : Cluster.t) (ds : StorageClassDeviceSet.t)
  (setIndex : Z) (faults : Faults) (srv : ApiServer.t) :
  let '(r, srv', _) := run faults (createStorageClassDeviceSetPVC c ds setIndex) srv in
  match r with
  | inl _ => srv' = srv
  | inr pvc =>
      In pvc (ApiServer.claims srv')
      /\ ObjectMeta.Namespace (PersistentVolumeClaim.ObjectMeta pvc) = Cluster.Namespace c
      /\ (srv' = srv
          \/ ApiServer.claims srv' = ApiServer.claims srv ++ [pvc])
  end.
Proof. apply allocator_effect. Qed.

(** ** The device sets of a cluster *)

(** Running a procedure and then another runs them one after the other on
    the store. *)
Lemma run_bind {A B : Type} (faults : Faults) (m : Client A) (f : A -> Client B)
  (srv : ApiServer.t) :
  run faults (bind m f) srv
  = let '(a, srv1, log1) := run faults m srv in
    let '(b, srv2, log2) := run faults (f a) srv1 in
    (b, srv2, log1 ++ log2).
Proof.
  revert srv. induction m as [a0|ns sel k IH|ns pvc k IH]; intros srv; cbn [bind run].
  - destruct (run faults (f a0) srv) as [[b srv2] log2]. reflexivity.
  - destruct (faults srv (ReqList ns sel)); rewrite IH;
      destruct (run faults (k _) srv) as [[a1 srv1] log1];
      destruct (run faults (f a1) srv1) as [[b srv2] log2]; reflexivity.
  - destruct (faults srv (ReqCreate ns pvc)).
    + rewrite IH. destruct (run faults (k _) srv) as [[a1 srv1] log1].
      destruct (run faults (f a1) srv1) as [[b srv2] log2]. reflexivity.
    + destruct (serveCreate srv ns pvc) as [p srv0]. rewrite IH.
      destruct (run faults (k _) srv0) as [[a1 srv1] log1].
      destruct (run faults (f a1) srv1) as [[b srv2] log2]. reflexivity.
Qed.

(** A property of the state and the store that every run of the body
    keeps is kept by the loop. *)
Lemma forEach_invariant {A S : Type} (faults : Faults) (I : S -> ApiServer.t -> Prop)
  (body : S -> A -> Client S) (l : list A) :
  (forall st a srv, In a l -> I st srv ->
     let '(st', srv', _) := run faults (body st a) srv in I st' srv') ->
  forall st srv, I st srv ->
    let '(st', srv', _) := run faults (forEach body l st) srv in I st' srv'.
Proof.
  induction l as [|a l IH]; intros Hbody st srv HI; cbn [forEach].
  - cbn. exact HI.
  - change (mbind (fun st' => forEach body l st') (body st a))
      with (bind (body st a) (fun st' => forEach body l st')).
    rewrite run_bind.
    pose proof (Hbody st a srv (or_introl eq_refl) HI) as Hstep.
    destruct (run faults (body st a) srv) as [[st1 srv1] log1].
    assert (forall st a srv, In a l -> I st srv ->
              let '(st', srv', _) := run faults (body st a) srv in I st' srv') as Hbody'.
    { intros st0 a0 srv0 Hin. apply Hbody. right. exact Hin. }
    pose proof (IH Hbody' st1 srv1 Hstep) as Hrest.
    destruct (run faults (forEach body l st1) srv1) as [[st2 srv2] log2]. exact Hrest.
Qed.

Lemma prepareSetIndex_settles faults c ds st setIndex srv :
  let '(st', _, _) := run faults (prepareSetIndex c ds st setIndex) srv in
  settled st' = (settled st + 2)%nat.
Proof.
  unfold prepareSetIndex. destruct st as [sources errors].
  change (mbind ?f ?m) with (bind m f). rewrite run_bind.
  destruct (run faults (createStorageClassDeviceSetPVC c ds setIndex) srv)
    as [[[err|pvc] srv1] log1]; cbn [run]; unfold settled; cbn [fst snd];
    rewrite length_app; cbn [length]; lia.
Qed.

Lemma forEach_settles {A : Type} faults (body : Prepared -> A -> Client Prepared)
  (weight : A -> nat) (l : list A) :
  (forall st a srv,
     let '(st', _, _) := run faults (body st a) srv in
     settled st' = (settled st + weight a)%nat) ->
  forall st srv,
    let '(st', _, _) := run faults (forEach body l st) srv in
    settled st' = (settled st + list_sum (List.map weight l))%nat.
Proof.
  intros Hbody. induction l as [|a l IH]; intros st srv; cbn [forEach].
  - cbn. lia.
  - change (mbind (fun st' => forEach body l st') (body st a))
      with (bind (body st a) (fun st' => forEach body l st')).
    rewrite run_bind. pose proof (Hbody st a srv) as Hstep.
    destruct (run faults (body st a) srv) as [[st1 srv1] log1].
    pose proof (IH st1 srv1) as Hrest.
    destruct (run faults (forEach body l st1) srv1) as [[st2 srv2] log2].
    cbn [List.map]. unfold list_sum in *. cbn [fold_right]. lia.
Qed.

Lemma list_sum_const {A : Type} (n : nat) (l : list A) :
  list_sum (List.map (fun _ => n) l) = (n * length l)%nat.
Proof. induction l as [|a l IH]; cbn; [lia|]. unfold list_sum in IH. rewrite IH. lia. Qed.

Lemma prepareDeviceSet_settles Y faults c st ds srv :
  let '(st', _, _) := run faults (prepareDeviceSet Y c st ds) srv in
  settled st' = (settled st + deviceSetWeight Y ds)%nat.
Proof.
  unfold prepareDeviceSet, deviceSetWeight.
  destruct (CheckPodMemory Y _ _) as [err|].
  - cbn [run]. unfold settled. cbn [fst snd]. rewrite length_app. cbn [length]. lia.
  - pose proof (forEach_settles faults (prepareSetIndex c ds) (fun _ => 2%nat)
                  (seqZ 0 (StorageClassDeviceSet.Count ds))
                  (fun st0 a srv0 => prepareSetIndex_settles faults c ds st0 a srv0)
                  st srv) as H.
    destruct (run faults (forEach _ _ st) srv) as [[st' srv'] log].
    rewrite list_sum_const, length_seqZ in H. exact H.
Qed.

(** X16: every set index is accounted for.  Whatever the store does, when
    [prepareStorageClassDeviceSets] returns, twice the number of volume
    sources plus the number of messages added is: one for every device set
    turned down by the memory check, and two for every set index of every
    other device set.  So each set index gave a volume source or two
    messages, and a device set with a count of zero or less gave nothing. *)
Theorem prepare_accounts_for_every_set_index (Y : MoreExternals) (c : Cluster.t)
  (deviceSets : list StorageClassDeviceSet.t) (errors : list provisionErrorMessage)
  (faults : Faults) (srv : ApiServer.t) :
  let '(volumeSources, errors', _, _) :=
    run faults (prepareStorageClassDeviceSets Y c deviceSets errors) srv in
  (2 * length volumeSources + length errors'
   = length errors + list_sum (List.map (deviceSetWeight Y) deviceSets))%nat.
Proof.
  unfold prepareStorageClassDeviceSets.
  pose proof (forEach_settles faults (prepareDeviceSet Y c) (deviceSetWeight Y) deviceSets
                (fun st a srv0 => prepareDeviceSet_settles Y faults c st a srv0)
                ([], errors) srv) as H.
  destruct (run faults (forEach _ _ _) srv) as [[[sources errors'] srv'] log].
  unfold settled in H. cbn [fst snd length] in H. lia.
Qed.

(** A store only gains claims by a call of the allocator. *)
Lemma allocator_keeps_claims c ds setIndex faults srv p :
  In p (ApiServer.claims srv) ->
  let '(_, srv', _) := run faults (createStorageClassDeviceSetPVC c ds setIndex) srv in
  In p (ApiServer.claims srv').
Proof.
  intros Hin. pose proof (allocator_effect c ds setIndex faults srv) as H.
  destruct (run faults _ srv) as [[[err|pvc] srv'] log].
  - subst srv'. exact Hin.
  - destruct H as (_ & _ & [->| ->]); [exact Hin|]. apply in_or_app. left. exact Hin.
Qed.

(** X17: the volume sources that are returned stand for claims that exist.
    Each one is read-write and carries the name, resources, placement and
    configuration of a device set that passed the memory check, and its
    claim name is the name of a claim of the cluster's namespace that the
    store holds when [prepareStorageClassDeviceSets] returns. *)
Theorem prepared_sources_have_claims (Y : MoreExternals) (c : Cluster.t)
  (deviceSets : list StorageClassDeviceSet.t) (errors : list provisionErrorMessage)
  (faults : Faults) (srv : ApiServer.t) :
  let '(volumeSources, _, srv', _) :=
    run faults (prepareStorageClassDeviceSets Y c deviceSets errors) srv in
  forall s, In s volumeSources ->
    PersistentVolumeClaimVolumeSource.ReadOnly (RookVolumeSource.PersistentVolumeClaimSource s)
      = false
    /\ (exists ds, In ds deviceSets
          /\ CheckPodMemory Y (StorageClassDeviceSet.Resources ds)
               (cephOsdPodMinimumMemory Y) = None
          /\ RookVolumeSource.Name s = StorageClassDeviceSet.Name ds
          /\ RookVolumeSource.Resources s = StorageClassDeviceSet.Resources ds
          /\ RookVolumeSource.Placement s = StorageClassDeviceSet.Placement ds
          /\ RookVolumeSource.Config s = StorageClassDeviceSet.Config ds)
    /\ (exists p, In p (ApiServer.claims srv')
          /\ ObjectMeta.Namespace (PersistentVolumeClaim.ObjectMeta p) = Cluster.Namespace c
          /\ PersistentVolumeClaim.GetName p
             = PersistentVolumeClaimVolumeSource.ClaimName
                 (RookVolumeSource.PersistentVolumeClaimSource s)).
Proof.
  set (good := fun (srv0 : ApiServer.t) (s : RookVolumeSource.t) =>
    PersistentVolumeClaimVolumeSource.ReadOnly (RookVolumeSource.PersistentVolumeClaimSource s)
      = false
    /\ (exists ds, In ds deviceSets
          /\ CheckPodMemory Y (StorageClassDeviceSet.Resources ds)
               (cephOsdPodMinimumMemory Y) = None
          /\ RookVolumeSource.Name s = StorageClassDeviceSet.Name ds
          /\ RookVolumeSource.Resources s = StorageClassDeviceSet.Resources ds
          /\ RookVolumeSource.Placement s = StorageClassDeviceSet.Placement ds
          /\ RookVolumeSource.Config s = StorageClassDeviceSet.Config ds)
    /\ (exists p, In p (ApiServer.claims srv0)
          /\ ObjectMeta.Namespace (PersistentVolumeClaim.ObjectMeta p) = Cluster.Namespace c
          /\ PersistentVolumeClaim.GetName p
             = PersistentVolumeClaimVolumeSource.ClaimName
                 (RookVolumeSource.PersistentVolumeClaimSource s))).
  set (I := fun (st : Prepared) (srv0 : ApiServer.t) => forall s, In s (fst st) -> good srv0 s).
  assert (forall ds, In ds deviceSets ->
            CheckPodMemory Y (StorageClassDeviceSet.Resources ds)
              (cephOsdPodMinimumMemory Y) = None ->
            forall st setIndex srv0, I st srv0 ->
              let '(st', srv', _) := run faults (prepareSetIndex c ds st setIndex) srv0 in
              I st' srv') as Hindex.
  { intros ds Hds Hmem [sources errs] setIndex srv0 HI. unfold prepareSetIndex.
    change (mbind ?f ?m) with (bind m f). rewrite run_bind.
    pose proof (allocator_effect c ds setIndex faults srv0) as Heffect.
    assert (forall p, In p (ApiServer.claims srv0) ->
              let '(_, srv', _) :=
                run faults (createStorageClassDeviceSetPVC c ds setIndex) srv0 in
              In p (ApiServer.claims srv')) as Hkeep
      by (intros p Hp; apply allocator_keeps_claims; exact Hp).
    destruct (run faults (createStorageClassDeviceSetPVC c ds setIndex) srv0)
      as [[[err|pvc] srv1] log1]; cbn [run].
    - subst srv1. intros s Hs. apply HI. exact Hs.
    - destruct Heffect as (Hin & Hns & _). intros s Hs. cbn [fst] in Hs.
      apply in_app_or in Hs. destruct Hs as [Hs|[<-|[]]].
      + destruct (HI s Hs) as (Hro & Hds' & (p & Hp & Hpns & Hpname)).
        split; [exact Hro|]. split; [exact Hds'|].
        exists p. split; [apply Hkeep; exact Hp|]. split; assumption.
      + split; [reflexivity|]. split.
        * exists ds. repeat split; assumption.
        * exists pvc. repeat split; assumption. }
  assert (forall st ds srv0, In ds deviceSets -> I st srv0 ->
            let '(st', srv', _) := run faults (prepareDeviceSet Y c st ds) srv0 in
            I st' srv') as Hset.
  { intros st ds srv0 Hds HI. unfold prepareDeviceSet.
    destruct (CheckPodMemory Y _ _) as [err|] eqn:Hmem.
    - cbn [run]. exact HI.
    - apply (forEach_invariant faults I (prepareSetIndex c ds)); [|exact HI].
      intros st0 a srv1 _ HI0. apply (Hindex ds Hds Hmem). exact HI0. }
  unfold prepareStorageClassDeviceSets.
  pose proof (forEach_invariant faults I (prepareDeviceSet Y c) deviceSets Hset
                ([], errors) srv) as H.
  destruct (run faults (forEach _ _ _) srv) as [[[sources errors'] srv'] log].
  apply H. intros s [].
Qed.

(** *** A first pass and a second pass over a device set *)

Lemma allocator_creates c ds setIndex faults srv t rest :
  let name := StorageClassDeviceSet.Name ds in
  let ns := Cluster.Namespace c in
  let id := fst (makeStorageClassDeviceSetPVCID name setIndex 0) in
  let sel := snd (makeStorageClassDeviceSetPVCID name setIndex 0) in
  let pvc := makeStorageClassDeviceSetPVC name id 0 setIndex t in
  StorageClassDeviceSet.VolumeClaimTemplates ds = t :: rest ->
  faults srv (ReqList ns sel) = None ->
  faults srv (ReqCreate ns pvc) = None ->
  serveList srv ns sel = [] ->
  run faults (createStorageClassDeviceSetPVC c ds setIndex) srv
  = (inr (stored srv ns pvc), snd (serveCreate srv ns pvc),
     [ReqList ns sel; ReqCreate ns pvc]).
Proof.
  intros name ns id sel pvc Ht Hlist Hcreate Hnone.
  rewrite (createStorageClassDeviceSetPVC_unfold c ds setIndex t rest Ht).
  fold name ns id sel pvc. cbn [run]. rewrite Hlist, Hnone. cbn [length Nat.eqb run].
  rewrite Hcreate. reflexivity.
Qed.

Lemma allocator_reuses c ds setIndex faults srv t rest p :
  let name := StorageClassDeviceSet.Name ds in
  let ns := Cluster.Namespace c in
  let sel := snd (makeStorageClassDeviceSetPVCID name setIndex 0) in
  StorageClassDeviceSet.VolumeClaimTemplates ds = t :: rest ->
  faults srv (ReqList ns sel) = None ->
  serveList srv ns sel = [p] ->
  run faults (createStorageClassDeviceSetPVC c ds setIndex) srv
  = (inr p, srv, [ReqList ns sel]).
Proof.
  intros name ns sel Ht Hlist Hone.
  rewrite (createStorageClassDeviceSetPVC_unfold c ds setIndex t rest Ht).
  fold name ns sel. cbn [run]. rewrite Hlist, Hone. reflexivity.
Qed.

Lemma claimOf_selected c name setIndex p :
  selected (Cluster.Namespace c) (snd (makeStorageClassDeviceSetPVCID name setIndex 0)) p
    = true <-> claimOf c name setIndex p.
Proof. apply selected_identity. Qed.

(** A claim belongs to one set index of a device set at most. *)
Lemma claimOf_one_index c name i j p : claimOf c name i p -> claimOf c name j p -> i = j.
Proof.
  intros [_ Hi] [_ Hj]. unfold carriesIdentity in *. rewrite Hi in Hj.
  injection Hj as Hj. apply (identity_inj name i j 0). exact Hj.
Qed.

Lemma filter_none {A : Type} (f : A -> bool) (l : list A) :
  (forall x, In x l -> f x = false) -> List.filter f l = [].
Proof.
  induction l as [|a l IH]; intros H; cbn; [reflexivity|].
  rewrite (H a (or_introl eq_refl)). apply IH. intros x Hx. apply H. right. exact Hx.
Qed.

Lemma filter_the_one {A : Type} (f : A -> bool) (l : list A) (i : nat) (p : A) :
  l !! i = Some p -> f p = true ->
  (forall j q, j <> i -> l !! j = Some q -> f q = false) ->
  List.filter f l = [p].
Proof.
  revert i. induction l as [|a l IH]; intros i Hi Hp Hothers.
  - rewrite lookup_nil in Hi. discriminate.
  - destruct i as [|i]; cbn in Hi.
    + injection Hi as ->. cbn. rewrite Hp. f_equal. apply filter_none.
      intros x Hx. apply list_elem_of_In, list_elem_of_lookup in Hx.
      destruct Hx as [j Hj]. apply (Hothers (S j) x); [lia | exact Hj].
    + cbn. rewrite (Hothers 0%nat a); [|lia|reflexivity].
      apply (IH i Hi Hp). intros j q Hne Hq. apply (Hothers (S j) q); [lia | exact Hq].
Qed.

Lemma seqZ_to_nat (m n : Z) : seqZ m n = seqZ m (Z.of_nat (Z.to_nat n)).
Proof. unfold seqZ. rewrite Nat2Z.id. reflexivity. Qed.

Lemma seqZ_succ (m : Z) (len : nat) :
  seqZ m (Z.of_nat (S len)) = m :: seqZ (Z.succ m) (Z.of_nat len).
Proof.
  rewrite seqZ_cons by lia. f_equal. f_equal. lia.
Qed.

(** One turn of the loop over the set indices, when the store has no claim
    for the index, and when it has exactly one. *)
Lemma prepareSetIndex_creates c ds t rest sources errs setIndex srv :
  let name := StorageClassDeviceSet.Name ds in
  let ns := Cluster.Namespace c in
  let id := fst (makeStorageClassDeviceSetPVCID name setIndex 0) in
  let sel := snd (makeStorageClassDeviceSetPVCID name setIndex 0) in
  let pvc := makeStorageClassDeviceSetPVC name id 0 setIndex t in
  StorageClassDeviceSet.VolumeClaimTemplates ds = t :: rest ->
  serveList srv ns sel = [] ->
  run noFaults (prepareSetIndex c ds (sources, errs) setIndex) srv
  = ((sources ++ [sourceOf ds (stored srv ns pvc)], errs),
     snd (serveCreate srv ns pvc), [ReqList ns sel; ReqCreate ns pvc]).
Proof.
  intros name ns id sel pvc Ht Hnone. unfold prepareSetIndex.
  change (mbind ?f ?m) with (bind m f). rewrite run_bind.
  rewrite (allocator_creates c ds setIndex noFaults srv t rest Ht eq_refl eq_refl Hnone).
  reflexivity.
Qed.

Lemma prepareSetIndex_reuses c ds t rest sources errs setIndex srv p :
  let name := StorageClassDeviceSet.Name ds in
  let ns := Cluster.Namespace c in
  let sel := snd (makeStorageClassDeviceSetPVCID name setIndex 0) in
  StorageClassDeviceSet.VolumeClaimTemplates ds = t :: rest ->
  serveList srv ns sel = [p] ->
  run noFaults (prepareSetIndex c ds (sources, errs) setIndex) srv
  = ((sources ++ [sourceOf ds p], errs), srv, [ReqList ns sel]).
Proof.
  intros name ns sel Ht Hone. unfold prepareSetIndex.
  change (mbind ?f ?m) with (bind m f). rewrite run_bind.
  rewrite (allocator_reuses c ds setIndex noFaults srv t rest p Ht eq_refl Hone).
  reflexivity.
Qed.

Lemma not_claimOf_not_selected c name setIndex p :
  ~ claimOf c name setIndex p ->
  selected (Cluster.Namespace c) (snd (makeStorageClassDeviceSetPVCID name setIndex 0)) p
    = false.
Proof.
  intros Hnot. destruct (selected _ _ p) eqn:Hsel; [|reflexivity].
  apply claimOf_selected in Hsel. contradiction.
Qed.

(** The loop over the set indices from [m] on, on a store without faults
    that has no claim for an index from [m] on: every turn creates a claim. *)
Lemma first_pass_loop c ds t rest :
  let name := StorageClassDeviceSet.Name ds in
  StorageClassDeviceSet.VolumeClaimTemplates ds = t :: rest ->
  PersistentVolumeClaim.GetLabels t !! PVCIdLabelKey = None ->
  forall (len : nat) (m : Z) sources errs srv,
    (forall p j, In p (ApiServer.claims srv) -> m <= j -> ~ claimOf c name j p) ->
    exists created srv' log,
      run noFaults (forEach (prepareSetIndex c ds) (seqZ m (Z.of_nat len)) (sources, errs)) srv
      = ((sources ++ List.map (sourceOf ds) created, errs), srv', log)
      /\ ApiServer.claims srv' = ApiServer.claims srv ++ created
      /\ length created = len
      /\ (forall (i : nat) p, created !! i = Some p -> claimOf c name (m + Z.of_nat i) p)
      /\ length (List.filter isCreate log) = len.
Proof.
  intros name Ht Hlabel. induction len as [|len IH]; intros m sources errs srv Hfree.
  - exists [], srv, []. cbn. rewrite !app_nil_r.
    split; [reflexivity|]. split; [reflexivity|]. split; [reflexivity|].
    split; [|reflexivity].
    intros i0 p0 Hi. rewrite lookup_nil in Hi. discriminate.
  - rewrite seqZ_succ. cbn [forEach].
    change (mbind ?f ?b) with (bind b f). rewrite run_bind.
    assert (serveList srv (Cluster.Namespace c)
              (snd (makeStorageClassDeviceSetPVCID name m 0)) = []) as Hnone.
    { apply filter_none. intros p Hp. apply not_claimOf_not_selected.
      apply (Hfree p m Hp). lia. }
    rewrite (prepareSetIndex_creates c ds t rest sources errs m srv Ht Hnone).
    fold name.
    set (pvc := makeStorageClassDeviceSetPVC name
                  (fst (makeStorageClassDeviceSetPVCID name m 0)) 0 m t).
    set (p := stored srv (Cluster.Namespace c) pvc).
    assert (claimOf c name m p) as Hp.
    { split; [reflexivity|]. apply (made_claim_carries_identity name m t Hlabel). }
    destruct (IH (Z.succ m) (sources ++ [sourceOf ds p]) errs
                (snd (serveCreate srv (Cluster.Namespace c) pvc)))
      as (created & srv' & log & Hrun & Hclaims & Hlen & Hown & Hlog).
    { intros q j Hq Hj. cbn [snd serveCreate ApiServer.claims] in Hq.
      apply in_app_or in Hq. destruct Hq as [Hq|[<-|[]]].
      - apply (Hfree q j Hq). lia.
      - intros Hqj. pose proof (claimOf_one_index c name m j p Hp Hqj). lia. }
    exists (p :: created), srv', ([ReqList (Cluster.Namespace c)
                                    (snd (makeStorageClassDeviceSetPVCID name m 0));
                                  ReqCreate (Cluster.Namespace c) pvc] ++ log).
    rewrite Hrun. split; [cbn [List.map]; rewrite <- app_assoc; reflexivity|].
    split; [rewrite Hclaims; cbn [snd serveCreate ApiServer.claims];
            rewrite <- app_assoc; reflexivity|].
    split; [cbn; lia|]. split.
    + intros [|i] q Hq; cbn in Hq.
      * injection Hq as <-. replace (m + Z.of_nat 0) with m by lia. exact Hp.
      * replace (m + Z.of_nat (S i)) with (Z.succ m + Z.of_nat i) by lia.
        apply Hown. exact Hq.
    + cbn. lia.
Qed.

(** The loop over set indices that all have their claim in the store: every
    turn finds the claim and creates nothing. *)
Lemma second_pass_loop c ds t rest srv old (all : list PersistentVolumeClaim.t) :
  let name := StorageClassDeviceSet.Name ds in
  StorageClassDeviceSet.VolumeClaimTemplates ds = t :: rest ->
  ApiServer.claims srv = old ++ all ->
  (forall p j, In p old -> 0 <= j -> ~ claimOf c name j p) ->
  (forall (i : nat) p, all !! i = Some p -> claimOf c name (Z.of_nat i) p) ->
  forall (len m : nat) sources errs,
    (m + len <= length all)%nat ->
    exists log,
      run noFaults
        (forEach (prepareSetIndex c ds) (seqZ (Z.of_nat m) (Z.of_nat len)) (sources, errs)) srv
      = ((sources ++ List.map (sourceOf ds) (take len (drop m all)), errs), srv, log)
      /\ existsb isCreate log = false.
Proof.
  intros name Ht Hclaims Hold Hall.
  induction len as [|len IH]; intros m sources errs Hbound.
  - exists []. cbn. rewrite app_nil_r. split; reflexivity.
  - rewrite seqZ_succ. cbn [forEach].
    change (mbind ?f ?b) with (bind b f). rewrite run_bind.
    destruct (lookup_lt_is_Some_2 all m) as [p Hp]; [lia|].
    assert (serveList srv (Cluster.Namespace c)
              (snd (makeStorageClassDeviceSetPVCID name (Z.of_nat m) 0)) = [p]) as Hone.
    { unfold serveList. rewrite Hclaims, List.filter_app.
      rewrite (filter_none _ old).
      2: { intros q Hq. apply not_claimOf_not_selected. apply (Hold q _ Hq). lia. }
      apply (filter_the_one _ all m p Hp).
      - apply claimOf_selected. apply Hall. exact Hp.
      - intros j q Hne Hq. apply not_claimOf_not_selected. intros Hqm.
        pose proof (claimOf_one_index c name _ _ q (Hall j q Hq) Hqm). lia. }
    rewrite (prepareSetIndex_reuses c ds t rest sources errs (Z.of_nat m) srv p Ht Hone).
    replace (Z.succ (Z.of_nat m)) with (Z.of_nat (S m)) by lia.
    destruct (IH (S m) (sources ++ [sourceOf ds p]) errs) as (log & Hrun & Hlog); [lia|].
    rewrite Hrun.
    exists ([ReqList (Cluster.Namespace c)
               (snd (makeStorageClassDeviceSetPVCID name (Z.of_nat m) 0))] ++ log).
    split; [|cbn [app existsb isCreate orb]; exact Hlog].
    rewrite (drop_S all p m Hp). cbn [take List.map]. rewrite <- app_assoc. reflexivity.
Qed.

(** X18: a first pass over a device set creates its claims and a second pass
    finds them.  For a device set that passes the memory check and whose
    first template does not set the identity label key, on a store that
    answers every request and holds no claim of the device set: the first
    call of [prepareStorageClassDeviceSets] creates one claim for each set
    index and returns as many volume sources, adding no message; a second
    call on the store it leaves creates nothing, leaves the store as it is
    and returns the same volume sources. *)
Theorem device_set_second_pass_creates_nothing (Y : MoreExternals) (c : Cluster.t)
  (ds : StorageClassDeviceSet.t) (t : PersistentVolumeClaim.t)
  (rest : list PersistentVolumeClaim.t) (errors : list provisionErrorMessage)
  (srv : ApiServer.t) :
  let name := StorageClassDeviceSet.Name ds in
  let count := Z.to_nat (StorageClassDeviceSet.Count ds) in
  StorageClassDeviceSet.VolumeClaimTemplates ds = t :: rest ->
  PersistentVolumeClaim.GetLabels t !! PVCIdLabelKey = None ->
  CheckPodMemory Y (StorageClassDeviceSet.Resources ds) (cephOsdPodMinimumMemory Y) = None ->
  (forall p j, In p (ApiServer.claims srv) -> 0 <= j -> ~ claimOf c name j p) ->
  let '(sources1, errors1, srv1, log1) :=
    run noFaults (prepareStorageClassDeviceSets Y c [ds] errors) srv in
  let '(sources2, errors2, srv2, log2) :=
    run noFaults (prepareStorageClassDeviceSets Y c [ds] errors) srv1 in
  length sources1 = count
  /\ errors1 = errors
  /\ length (ApiServer.claims srv1) = (length (ApiServer.claims srv) + count)%nat
  /\ length (List.filter isCreate log1) = count
  /\ sources2 = sources1
  /\ errors2 = errors
  /\ srv2 = srv1
  /\ existsb isCreate log2 = false.
Proof.
  intros name count Ht Hlabel Hmem Hfree.
  assert (forall srv0,
            run noFaults (prepareStorageClassDeviceSets Y c [ds] errors) srv0
            = run noFaults
                (forEach (prepareSetIndex c ds) (seqZ 0 (Z.of_nat count)) ([], errors)) srv0)
    as Hprepare.
  { intros srv0. unfold prepareStorageClassDeviceSets. cbn [forEach].
    change (mbind ?f ?b) with (bind b f). rewrite run_bind.
    unfold prepareDeviceSet. rewrite Hmem. rewrite (seqZ_to_nat 0). fold count.
    destruct (run noFaults _ srv0) as [[st1 srv1] log1]. cbn [run].
    rewrite app_nil_r. reflexivity. }
  rewrite Hprepare.
  destruct (first_pass_loop c ds t rest Ht Hlabel count 0 [] errors srv Hfree)
    as (created & srv1 & log1 & Hrun1 & Hclaims1 & Hlen & Hown & Hlog1).
  rewrite Hrun1. rewrite Hprepare.
  destruct (second_pass_loop c ds t rest srv1 (ApiServer.claims srv) created Ht Hclaims1
              Hfree Hown count 0%nat [] errors) as (log2 & Hrun2 & Hlog2); [lia|].
  change (Z.of_nat 0) with 0 in Hrun2. rewrite Hrun2.
  rewrite drop_0, firstn_all2 by lia. cbn [app].
  rewrite length_map, Hclaims1, length_app, Hlen. repeat split; assumption.
Qed.

(** The sample device set of count three, on the empty store. *)
Lemma device_set_second_pass_creates_nothing_witness :
  let '(sources1, errors1, srv1, log1) :=
    run noFaults (prepareStorageClassDeviceSets sampleMoreExternals sampleCluster
                    [sampleDeviceSet [sampleTemplate]] []) emptyServer in
  let '(sources2, errors2, srv2, log2) :=
    run noFaults (prepareStorageClassDeviceSets sampleMoreExternals sampleCluster
                    [sampleDeviceSet [sampleTemplate]] []) srv1 in
  length sources1 = 3%nat
  /\ errors1 = []
  /\ length (ApiServer.claims srv1) = 3%nat
  /\ length (List.filter isCreate log1) = 3%nat
  /\ sources2 = sources1
  /\ errors2 = []
  /\ srv2 = srv1
  /\ existsb isCreate log2 = false.
Proof.
  exact (device_set_second_pass_creates_nothing sampleMoreExternals sampleCluster
           (sampleDeviceSet [sampleTemplate]) sampleTemplate [] [] emptyServer
           eq_refl eq_refl eq_refl (fun p j H => match H with end)).
Defined.

(** ** The choice of devices in the provisioning container *)

(** X5: what the provisioning builder adds to the configuration variables.
    The device filter is passed only without a device list, and "all" only
    without a device list and a filter.  The data devices are the device
    list, followed by the device of the claim when a claim is bound, so a
    descriptor with both has two entries.  The directories are passed
    unless the node is being removed. *)
Theorem provisioning_device_choice (X : Externals) (c : Cluster.t) (o : OSDObject.t)
  (m : VolumeMount.t) :
  let selection := OSDObject.selection o in
  let claimName := PersistentVolumeClaimVolumeSource.ClaimName (OSDObject.pvc o) in
  let listed := negb (Nat.eqb (length (OSDObject.devices o)) 0) in
  let filtered := negb (String.eqb (Selection.DeviceFilter selection) "") in
  exists own,
    Container.Env (provisionOSDContainer X c o m)
    = getConfigEnvVars X c (OSDObject.storeConfig o) (DataDir X) (OSDObject.name o)
        (OSDObject.location o) ++ own
    /\ envValues "ROOK_DATA_DEVICE_FILTER" own
       = (if listed then []
          else if filtered then [Selection.DeviceFilter selection]
          else if Selection.GetUseAllDevices selection then ["all"] else [])
    /\ envValues "ROOK_DATA_DEVICES" own
       = (if listed
          then [Go.Join (List.map (deviceNameEntry X) (OSDObject.devices o)) ","] else [])
         ++ (if negb (String.eqb claimName "") then ["/mnt/" +:+ claimName] else [])
    /\ envValues "ROOK_METADATA_DEVICE" own
       = (if negb (String.eqb (OSDObject.metadataDevice o) "")
          then [OSDObject.metadataDevice o] else [])
    /\ envValues "ROOK_PVC_BACKED_OSD" own
       = (if negb (String.eqb claimName "") then ["true"] else [])
    /\ envValues "ROOK_DATA_DIRECTORIES" own
       = (if negb (Nat.eqb (length (Selection.Directories selection)) 0)
             && negb (IsRemovingNode X (Selection.DeviceFilter selection))
          then [Go.Join (List.map Directory.Path (Selection.Directories selection)) ","]
          else []).
Proof.
  intros selection claimName listed filtered. subst selection claimName listed filtered.
  eexists. split; [apply provisionOSDContainer_Env|].
  destruct (negb (Nat.eqb (length (OSDObject.devices o)) 0));
  destruct (negb (String.eqb (Selection.DeviceFilter (OSDObject.selection o)) ""));
  destruct (Selection.GetUseAllDevices (OSDObject.selection o));
  destruct (negb (String.eqb (OSDObject.metadataDevice o) ""));
  destruct (negb (String.eqb
                    (PersistentVolumeClaimVolumeSource.ClaimName (OSDObject.pvc o)) ""));
  destruct (negb (Nat.eqb (length (Selection.Directories (OSDObject.selection o))) 0)
            && negb (IsRemovingNode X _));
  repeat split; reflexivity.
Qed.

(** ** Reading the directories of any container *)

Lemma last_cons_default {A : Type} (x : A) (l : list A) (d : A) :
  default d (last (x :: l)) = default x (last l).
Proof.
  destruct l as [|y l]; [reflexivity|].
  change (last (x :: y :: l)) with (last (y :: l)).
  destruct (last (y :: l)) eqn:E; [reflexivity|].
  apply last_None in E. discriminate E.
Qed.

Lemma fold_last_value (name : string) (env : list EnvVar.t) (acc : string) :
  fold_left
    (fun acc e => if String.eqb (EnvVar.Name e) name then EnvVar.Value e else acc) env acc
  = default acc (last (envValues name env)).
Proof.
  revert acc. induction env as [|e env IH]; intros acc; [reflexivity|].
  cbn [fold_left]. rewrite IH. unfold envValues. cbn [List.filter].
  destruct (String.eqb (EnvVar.Name e) name); [|reflexivity].
  cbn [List.map]. rewrite last_cons_default. reflexivity.
Qed.

(** X2: [getDirectoriesFromContainer] reads the last ROOK_DATA_DIRECTORIES
    entry of the environment and nothing else: without such an entry, or
    when the last one is empty, there is no directory; otherwise there is
    one directory, without configuration, for every piece of the value
    between commas. *)
Theorem directories_read_from_last_entry (osdContainer : Container.t) :
  getDirectoriesFromContainer osdContainer
  = match last (envValues "ROOK_DATA_DIRECTORIES" (Container.Env osdContainer)) with
    | None => []
    | Some value =>
        if String.eqb value "" then []
        else List.map (fun dir => Directory.mk dir ∅) (GoStrings.Split value ",")
    end.
Proof.
  unfold getDirectoriesFromContainer. rewrite fold_last_value.
  change dataDirsEnvVarName with "ROOK_DATA_DIRECTORIES".
  destruct (last _) as [value|]; cbn [default from_option id].
  - destruct (String.eqb value ""); reflexivity.
  - reflexivity.
Qed.

(** ** The default data directory among the directories *)

Lemma filter_filter_same {A : Type} (f : A -> bool) (l : list A) :
  List.filter f (List.filter f l) = List.filter f l.
Proof.
  induction l as [|a l IH]; [reflexivity|]. cbn [List.filter].
  destruct (f a) eqn:E; [|exact IH]. cbn [List.filter]. rewrite E, IH. reflexivity.
Qed.

Lemma filter_map_comm {A B : Type} (g : A -> B) (f : B -> bool) (l : list A) :
  List.filter f (List.map g l) = List.map g (List.filter (fun a => f (g a)) l).
Proof.
  induction l as [|a l IH]; [reflexivity|]. cbn [List.map List.filter].
  destruct (f (g a)); cbn [List.map]; rewrite IH; reflexivity.
Qed.

(** X7: the default data directory in the directory list gives no volume and
    no mount, however often it is listed: the volumes of the provisioning
    pod and the mounts of the provisioning container are those of the
    descriptor with these entries taken out of its directories. *)
Theorem default_directory_adds_nothing (X : Externals) (c : Cluster.t) (o : OSDObject.t)
  (restart : RestartPolicy) (m : VolumeMount.t) :
  let others :=
    List.filter (fun d => negb (String.eqb (Directory.Path d) (DataDir X)))
      (Selection.Directories (OSDObject.selection o)) in
  Container.VolumeMounts (provisionOSDContainer X c o m)
    = Container.VolumeMounts (provisionOSDContainer X c (withDirectories o others) m)
  /\ exists t t',
       provisionPodTemplateSpec X c o restart = inr t
       /\ provisionPodTemplateSpec X c (withDirectories o others) restart = inr t'
       /\ PodSpec.Volumes (PodTemplateSpec.Spec t) = PodSpec.Volumes (PodTemplateSpec.Spec t').
Proof.
  intros others. split.
  - rewrite !provisionOSDContainer_VolumeMounts.
    change (devMountNeeded (withDirectories o others)) with (devMountNeeded o).
    cbn [withDirectories OSDObject.pvc OSDObject.selection Selection.Directories].
    do 4 f_equal. subst others. rewrite !filter_map_comm. f_equal.
    unfold skipVolumeForDirectory. rewrite filter_filter_same. reflexivity.
  - destruct (provisionPodTemplateSpec_pod X c o restart)
      as (t & Ht & _ & _ & _ & _ & _ & Hv).
    destruct (provisionPodTemplateSpec_pod X c (withDirectories o others) restart)
      as (t' & Ht' & _ & _ & _ & _ & _ & Hv').
    exists t, t'. split; [exact Ht|]. split; [exact Ht'|]. rewrite Hv, Hv'.
    change (devMountNeeded (withDirectories o others)) with (devMountNeeded o).
    cbn [withDirectories OSDObject.pvc OSDObject.selection Selection.Directories
         OSDObject.name].
    do 4 f_equal. subst others. unfold skipVolumeForDirectory.
    rewrite filter_filter_same. reflexivity.
Qed.
